(** * Mealwise plan engine: generation controller, candidate selector and
      nutrition validation

    A shallow embedding of the TypeScript sources
    - [supabase/functions/nutrition-validator/index.ts] (module [Validator]),
    - [agents/nutrition-council.ts] (module [Council]),
    - [agents/candidate-selector.ts] (module [Selector]),
    - [supabase/functions/plan-generator/index.ts] (module [Generator]),
    with the rows and records they share (modules [Db], [Plan], [Blueprint]),
    followed by the properties of the specification that concern them.

    Conventions of the embedding.
    - A JavaScript number is an exact rational ([Q]); the rounding of IEEE
      doubles is not modelled, and [Math.round] is [floor (x + 1/2)].  A
      division by zero, [NaN] or an infinity in JavaScript, is 0 in [Q]; the
      one divisor that can be zero is the number of days of a plan without
      days, every other divisor being a constant or shown not to be zero.
    - Texts are ASCII.
    - A field that may be [undefined] or [null] at run time is an [option].
    - A thrown exception is the [Throw] case of [Completion]; [try]/[catch]
      is a [match] on it.
    - An object used as a dictionary is a [gmap] over its own keys.
    - Calls that leave the repository (database queries, the HTTP calls to the
      language model, [JSON.parse], [uuidv4]) are arguments of the functions
      that make them: the result of the call is given, what the code does
      with it is modelled. *)

From Stdlib Require Import Ascii QArith Qround Qabs.
From stdpp Require Import gmap strings list.
From Equations Require Import Equations.

(** ** JavaScript numbers *)

Definition Math_round (x : Q) : Q := inject_Z (Qfloor (x + 0.5)).
Definition Math_ceil (x : Q) : Q := inject_Z (Qceiling x).
Definition Math_abs (x : Q) : Q := Qabs x.
Definition Math_max (x y : Q) : Q := if Qle_bool x y then y else x.
Definition Math_min (x y : Q) : Q := if Qle_bool x y then x else y.

(** [x > y] and [x >= y] on numbers. *)
Definition gtb (x y : Q) : bool := negb (Qle_bool x y).
Definition geb (x y : Q) : bool := Qle_bool y x.

(** [Math.round(x * 10) / 10]: one decimal place. *)
Definition round1 (x : Q) : Q := (Math_round (x * 10) / 10)%Q.

(** [x || d] for a number [x]: zero is falsy. *)
Definition num_or (x d : Q) : Q := if Qeq_bool x 0 then d else x.

(** [x || d] for a number that may be missing. *)
Definition opt_num_or (x : option Q) (d : Q) : Q :=
  match x with
  | Some q => num_or q d
  | None => d
  end.

(** ** Exceptions *)

Inductive JsError : Type :=
| Error (message : string)
| TypeError (message : string)
| ReferenceError (identifier : string).

Inductive Completion (A : Type) : Type :=
| Normal (a : A)
| Throw (e : JsError).
Arguments Normal {A} a.
Arguments Throw {A} e.

Definition cbind {A B} (c : Completion A) (k : A -> Completion B) : Completion B :=
  match c with
  | Normal a => k a
  | Throw e => Throw e
  end.

Notation "'let!' x ':=' c 'in' k" := (cbind c (fun x => k))
  (at level 10, x name, c at level 100, k at level 200).

(** [error.message] of a caught exception. *)
Definition error_message (e : JsError) : string :=
  match e with
  | Error m => m
  | TypeError m => m
  | ReferenceError x => x +:+ " is not defined"
  end.

(** ** Strings *)

Definition lower_ascii (c : Ascii.ascii) : Ascii.ascii :=
  let n := Ascii.nat_of_ascii c in
  if (65 <=? n)%nat && (n <=? 90)%nat then Ascii.ascii_of_nat (n + 32) else c.

(** [s.toLowerCase()], on the ASCII letters. *)
Fixpoint toLowerCase (s : string) : string :=
  match s with
  | EmptyString => EmptyString
  | String c r => String (lower_ascii c) (toLowerCase r)
  end.

(** [s.includes(sub)]. *)
Fixpoint includes (s sub : string) : bool :=
  String.prefix sub s ||
  match s with
  | EmptyString => false
  | String _ r => includes r sub
  end.

(** A string is truthy when it is not empty. *)
Definition str_truthy (s : string) : bool := negb (String.eqb s EmptyString).

(** ** Values of unknown type *)

(** What [JSON.parse] can return, and [undefined] for a property that is not
    there. *)
#[local] Set Warnings "-register-all".
Inductive JSValue : Type :=
| JUndefined
| JNull
| JBool (b : bool)
| JNum (q : Q)
| JStr (s : string)
| JArr (elements : list JSValue)
| JObj (properties : list (string * JSValue)).

(** A number after coercion: the finite ones, and the three that are not. *)
Inductive JSNumber : Type :=
| Finite (q : Q)
| NaN
| Infinity
| NegInfinity.

Definition truthy (v : JSValue) : bool :=
  match v with
  | JUndefined | JNull => false
  | JBool b => b
  | JNum q => negb (Qeq_bool q 0)
  | JStr s => str_truthy s
  | JArr _ | JObj _ => true
  end.

(** [a || b]. *)
Definition js_or (a b : JSValue) : JSValue := if truthy a then a else b.

(** [obj.key] on the own properties of a parsed object. *)
Fixpoint get_property (properties : list (string * JSValue)) (key : string) : JSValue :=
  match properties with
  | [] => JUndefined
  | (k, v) :: rest => if String.eqb k key then v else get_property rest key
  end.

(** *** Text to number ([StringToNumber] of the language definition) *)

Definition digit_of (base : N) (c : Ascii.ascii) : option N :=
  let n := Ascii.N_of_ascii c in
  let d := if (48 <=? n)%N && (n <=? 57)%N then Some (n - 48)%N
           else if (97 <=? n)%N && (n <=? 102)%N then Some (n - 87)%N
           else if (65 <=? n)%N && (n <=? 70)%N then Some (n - 55)%N
           else None in
  match d with
  | Some v => if (v <? base)%N then Some v else None
  | None => None
  end.

(** The longest prefix of digits in [base]: how many there are, their value
    continuing [acc], and the rest of the text. *)
Fixpoint read_digits (base : N) (s : string) (count : nat) (acc : N) : nat * N * string :=
  match s with
  | String c r =>
      match digit_of base c with
      | Some d => read_digits base r (S count) (acc * base + d)%N
      | None => (count, acc, s)
      end
  | EmptyString => (count, acc, s)
  end.

Definition is_whitespace (c : Ascii.ascii) : bool :=
  let n := Ascii.N_of_ascii c in
  ((9 <=? n)%N && (n <=? 13)%N) || (n =? 32)%N.

Fixpoint trim_start (s : string) : string :=
  match s with
  | String c r => if is_whitespace c then trim_start r else s
  | EmptyString => s
  end.

Definition trim (s : string) : string :=
  String.rev (trim_start (String.rev (trim_start s))).

(** [e], an optional sign, digits, and nothing after. *)
Definition exponent_part (s : string) : option Z :=
  match s with
  | EmptyString => Some 0%Z
  | String c r =>
      if (Ascii.eqb c "e" || Ascii.eqb c "E")%char then
        let '(negative, r') :=
          match r with
          | String "-"%char t => (true, t)
          | String "+"%char t => (false, t)
          | _ => (false, r)
          end in
        match read_digits 10 r' 0 0 with
        | (S _, v, EmptyString) =>
            Some (if negative then - Z.of_N v else Z.of_N v)%Z
        | _ => None
        end
      else None
  end.

(** Digits, an optional fraction, an optional exponent; or [Infinity]. *)
Definition unsigned_decimal (s : string) : JSNumber :=
  if String.eqb s "Infinity" then Infinity else
  let '(int_count, int_value, after_int) := read_digits 10 s 0 0 in
  let '(frac_count, mantissa, after_frac) :=
    match after_int with
    | String "."%char r => read_digits 10 r 0 int_value
    | _ => (0%nat, int_value, after_int)
    end in
  if (int_count + frac_count =? 0)%nat then NaN else
  match exponent_part after_frac with
  | Some e => Finite (inject_Z (Z.of_N mantissa) * Qpower 10 (e - Z.of_nat frac_count))
  | None => NaN
  end.

Definition negate (n : JSNumber) : JSNumber :=
  match n with
  | Finite q => Finite (- q)
  | NaN => NaN
  | Infinity => NegInfinity
  | NegInfinity => Infinity
  end.

Definition prefixed_integer (base : N) (digits : string) : JSNumber :=
  match read_digits base digits 0 0 with
  | (S _, v, EmptyString) => Finite (inject_Z (Z.of_N v))
  | _ => NaN
  end.

Definition StringToNumber (text : string) : JSNumber :=
  match trim text with
  | EmptyString => Finite 0
  | String "0"%char (String "x"%char r) | String "0"%char (String "X"%char r) =>
      prefixed_integer 16 r
  | String "0"%char (String "o"%char r) | String "0"%char (String "O"%char r) =>
      prefixed_integer 8 r
  | String "0"%char (String "b"%char r) | String "0"%char (String "B"%char r) =>
      prefixed_integer 2 r
  | String "-"%char r => negate (unsigned_decimal r)
  | String "+"%char r => unsigned_decimal r
  | s => unsigned_decimal s
  end.

(** *** Coercion to a number

    An array is first turned into text, its elements joined by commas: no
    element gives the empty text, one element its own text, more than one a
    text with a comma, which is not a number.  The text of a number reads back
    as that number. *)
Fixpoint ToNumber (v : JSValue) : JSNumber :=
  match v with
  | JUndefined => NaN
  | JNull => Finite 0
  | JBool b => Finite (if b then 1 else 0)
  | JNum q => Finite q
  | JStr s => StringToNumber s
  | JArr [] => Finite 0
  | JArr [e] =>
      match e with
      | JUndefined | JNull => Finite 0
      | JBool _ | JObj _ => NaN
      | _ => ToNumber e
      end
  | JArr _ => NaN
  | JObj _ => NaN
  end.

(** [v >= bound] for a number [bound]. *)
Definition js_geb (v : JSValue) (bound : Q) : bool :=
  match ToNumber v with
  | Finite q => geb q bound
  | Infinity => true
  | NaN | NegInfinity => false
  end.

(** *** Replies of the language model

    The three parsers of the repository start alike: the reply text is matched
    against [/\{[\s\S]*\}/] and the match is given to [JSON.parse].  A text
    enclosed in braces that parses is an object. *)
Inductive JsonExtract : Type :=
| NoJson
| InvalidJson (message : string)
| ParsedObject (properties : list (string * JSValue)).

Record Usage : Type := {
  input_tokens : Q;
  output_tokens : Q
}.

(** What a call to the messages endpoint gave when it did not throw:
    [data.content[0].text] and [data.usage]. *)
Record ClaudeMessage : Type := {
  text : JsonExtract;
  usage : option Usage
}.

(** [data.usage?.input_tokens + data.usage?.output_tokens || 0]. *)
Definition tokensOf (m : ClaudeMessage) : Q :=
  match usage m with
  | Some u => num_or (input_tokens u + output_tokens u) 0
  | None => 0
  end.

Definition calculateCost (inputTokens outputTokens : Q) : Q :=
  Math_round ((inputTokens / 1000 * 0.003 + outputTokens / 1000 * 0.015) * 100).

(** [calculateCost(data.usage?.input_tokens || 0, data.usage?.output_tokens || 0)]. *)
Definition costOf (m : ClaudeMessage) : Q :=
  match usage m with
  | Some u => calculateCost (num_or (input_tokens u) 0) (num_or (output_tokens u) 0)
  | None => calculateCost 0 0
  end.

(** * Database rows (types/recipe.ts, as the queries select them) *)

Module Db.

(** The [nutrition_info] column of a recipe. *)
Record NutritionInfo : Type := {
  ni_calories : Q;
  ni_protein : Q;
  ni_fat : Q;
  ni_carbohydrates : Q;
  ni_fiber : option Q
}.

(** An element of the [ingredients] column ([any] in the source): [name]
    and [unit] may be missing, and then [.toLowerCase()] on them throws. *)
Record Ingredient : Type := {
  name : option string;
  amount : Q;
  unit : option string
}.

(** A row of [recipes]; the validator selects [title, nutrition_info,
    ingredients, servings], the council the last three. *)
Record Recipe : Type := {
  title : string;
  nutrition_info : option NutritionInfo;
  ingredients : option (list Ingredient);
  servings : option Q
}.

(** A row of the composition table, per 100 g. *)
Record USDAData : Type := {
  usda_calories : option Q;
  usda_protein : option Q;
  usda_fat : option Q;
  usda_carbohydrates : option Q;
  usda_fiber : option Q
}.

End Db.

(** * Nutrition validator (nutrition-validator/index.ts) *)

Module Validator.
Import Db.

(** [interface NutritionData]; every object the validator builds sets
    [fiber]. *)
Record NutritionData : Type := {
  calories : Q;
  protein : Q;
  fat : Q;
  carbohydrates : Q;
  fiber : Q
}.

Inductive CalculationMethod : Type := spoonacular | usda_calculated | estimated.

Record MealNutrition : Type := {
  mn_recipe_id : string;
  mn_recipe_title : string;
  nutrition : NutritionData;
  calculation_method : CalculationMethod
}.

Record Meal : Type := {
  recipe_id : string;
  meal_servings : option Q
}.

Record Day : Type := {
  day : option string;
  meals : list Meal
}.

Record Targets : Type := {
  daily_calories : Q;
  daily_protein : Q;
  daily_fat : Q;
  daily_carbohydrates : Q;
  daily_fiber : option Q
}.

Record Options : Type := {
  deviation_threshold : Q;
  require_all_recipes : bool;
  use_usda_fallback : bool;
  detailed_breakdown : bool
}.

(** The defaults of [ValidationRequestSchema.options]. *)
Definition default_options : Options :=
  {| deviation_threshold := 15;
     require_all_recipes := true;
     use_usda_fallback := true;
     detailed_breakdown := false |}.

Record Deviations : Type := {
  calories_deviation : Q;
  protein_deviation : Q;
  fat_deviation : Q;
  carbohydrates_deviation : Q;
  fiber_deviation : option Q
}.

Record DailyBreakdown : Type := {
  db_day : string;
  db_nutrition : NutritionData;
  db_meals : list MealNutrition
}.

(** The suggestion strings, by what they say; the text of the number
    ([toFixed(1)]) is not rendered. *)
Inductive Suggestion : Type :=
| MissingNutritionData (recipe : string)
| ReduceIntake (nutrient : string) (percent_above : Q)
| IncreaseIntake (nutrient : string) (percent_below : Q).

Record ValidationResult : Type := {
  is_valid : bool;
  total_nutrition : NutritionData;
  daily_average : NutritionData;
  target_deviations : Deviations;
  within_threshold : bool;
  missing_nutrition_data : list string;
  suggestions : list Suggestion;
  result_breakdown : option (list DailyBreakdown)
}.

Definition calculateDeviation (actual target : Q) : Q :=
  if Qeq_bool target 0 then 0 else ((actual - target) / target * 100)%Q.

Definition isReliableNutrition (n : NutritionInfo) : bool :=
  gtb (ni_calories n) 0 && geb (ni_protein n) 0 && geb (ni_fat n) 0 &&
  geb (ni_carbohydrates n) 0.

Definition minorIngredients : list string :=
  ["salt"; "pepper"; "water"; "vanilla"; "baking powder"; "garlic powder";
   "onion powder"; "paprika"; "oregano"; "basil"; "thyme"; "rosemary"].

Definition isMinorIngredient (name : string) : bool :=
  existsb (fun minor => includes (toLowerCase name) minor) minorIngredients.

Definition conversions : gmap string Q :=
  list_to_map
    [("g", 1%Q); ("gram", 1%Q); ("grams", 1%Q);
     ("kg", 1000%Q); ("kilogram", 1000%Q);
     ("oz", 28.35%Q); ("ounce", 28.35%Q); ("ounces", 28.35%Q);
     ("lb", 453.59%Q); ("pound", 453.59%Q); ("pounds", 453.59%Q);
     ("cup", 240%Q); ("cups", 240%Q);
     ("tbsp", 15%Q); ("tablespoon", 15%Q); ("tablespoons", 15%Q);
     ("tsp", 5%Q); ("teaspoon", 5%Q); ("teaspoons", 5%Q);
     ("ml", 1%Q); ("milliliter", 1%Q); ("milliliters", 1%Q);
     ("l", 1000%Q); ("liter", 1000%Q); ("liters", 1000%Q)].

Definition convertToGrams (amount : Q) (unit : string) : Q :=
  let factor := opt_num_or (conversions !! toLowerCase unit) 100 in
  (amount * factor)%Q.

Definition estimateNutrition (recipeTitle : string) : NutritionData :=
  let title := toLowerCase recipeTitle in
  if includes title "salad" then
    {| calories := 150; protein := 8; fat := 5; carbohydrates := 15; fiber := 3 |}
  else if includes title "pasta" || includes title "rice" then
    {| calories := 400; protein := 12; fat := 8; carbohydrates := 60; fiber := 3 |}
  else if includes title "chicken" || includes title "beef" then
    {| calories := 350; protein := 25; fat := 15; carbohydrates := 10; fiber := 3 |}
  else if includes title "soup" then
    {| calories := 200; protein := 10; fat := 6; carbohydrates := 20; fiber := 3 |}
  else
    {| calories := 300; protein := 15; fat := 10; carbohydrates := 30; fiber := 3 |}.

Definition no_nutrition : NutritionData :=
  {| calories := 0; protein := 0; fat := 0; carbohydrates := 0; fiber := 0 |}.

Definition cannot_read_toLowerCase : JsError :=
  TypeError "Cannot read properties of undefined (reading 'toLowerCase')".

(** [total += (usdaData.x || 0) * multiplier], for the five nutrients. *)
Definition add_per_100g (acc : NutritionData) (u : USDAData) (multiplier : Q)
  : NutritionData :=
  {| calories := calories acc + opt_num_or (usda_calories u) 0 * multiplier;
     protein := protein acc + opt_num_or (usda_protein u) 0 * multiplier;
     fat := fat acc + opt_num_or (usda_fat u) 0 * multiplier;
     carbohydrates :=
       carbohydrates acc + opt_num_or (usda_carbohydrates u) 0 * multiplier;
     fiber := fiber acc + opt_num_or (usda_fiber u) 0 * multiplier |}.

(** [total.x += meal.x], for the five nutrients. *)
Definition add_nutrition (acc n : NutritionData) : NutritionData :=
  {| calories := calories acc + calories n;
     protein := protein acc + protein n;
     fat := fat acc + fat n;
     carbohydrates := carbohydrates acc + carbohydrates n;
     fiber := fiber acc + num_or (fiber n) 0 |}.

(** [ingredients.filter(ing => ing.amount > 0 && !this.isMinorIngredient(ing.name))];
    [isMinorIngredient] throws on a missing name. *)
Fixpoint mainIngredients (ings : list Ingredient) : Completion (list Ingredient) :=
  match ings with
  | [] => Normal []
  | ing :: rest =>
      let! keep :=
        (if gtb (amount ing) 0 then
           match name ing with
           | Some n => Normal (negb (isMinorIngredient n))
           | None => Throw cannot_read_toLowerCase
           end
         else Normal false) in
      let! rest' := mainIngredients rest in
      Normal (if keep then ing :: rest' else rest')
  end.

Section WithDatabase.

(** [recipes id]: the row the query on [recipes] returns for [id], [None]
    on an error or when there is none.
    [lookupUSDANutrition n]: the first row of [search_nutrition_data] for
    [n], [None] when the call fails or finds nothing. *)
Variable recipes : string -> option Recipe.
Variable lookupUSDANutrition : string -> option USDAData.

(** The loop [for (const ingredient of mainIngredients)]. *)
Fixpoint sumIngredients (ings : list Ingredient) (acc : NutritionData)
  : Completion NutritionData :=
  match ings with
  | [] => Normal acc
  | ingredient :: rest =>
      match name ingredient ≫= lookupUSDANutrition with
      | Some usdaData =>
          let! amountInGrams :=
            (match unit ingredient with
             | Some u => Normal (convertToGrams (amount ingredient) u)
             | None => Throw cannot_read_toLowerCase
             end) in
          if gtb amountInGrams 0
          then sumIngredients rest (add_per_100g acc usdaData (amountInGrams / 100))
          else sumIngredients rest acc
      | None => sumIngredients rest acc
      end
  end.

(** [null] when anything in the body throws. *)
Definition calculateFromUSDA (ingredients : list Ingredient) : option NutritionData :=
  match (let! main := mainIngredients ingredients in
         sumIngredients main no_nutrition) with
  | Normal t =>
      Some {| calories := Math_round (calories t);
              protein := round1 (protein t);
              fat := round1 (fat t);
              carbohydrates := round1 (carbohydrates t);
              fiber := round1 (fiber t) |}
  | Throw _ => None
  end.

(** The declared data, read as [info.x || 0]. *)
Definition declaredNutrition (info : NutritionInfo) : NutritionData :=
  {| calories := num_or (ni_calories info) 0;
     protein := num_or (ni_protein info) 0;
     fat := num_or (ni_fat info) 0;
     carbohydrates := num_or (ni_carbohydrates info) 0;
     fiber := opt_num_or (ni_fiber info) 0 |}.

(** The branch [else if (useUSDAFallback && recipe.ingredients) ... else
    return null] of [calculateMealNutrition]. *)
Definition fromIngredients (recipe : Recipe) (useUSDAFallback : bool)
  : option (NutritionData * CalculationMethod) :=
  match useUSDAFallback, ingredients recipe with
  | true, Some ings =>
      match calculateFromUSDA ings with
      | Some usdaNutrition => Some (usdaNutrition, usda_calculated)
      | None => Some (estimateNutrition (title recipe), estimated)
      end
  | _, _ => None
  end.

(** The three-way choice of [calculateMealNutrition], before scaling. *)
Definition resolveNutrition (recipe : Recipe) (useUSDAFallback : bool)
  : option (NutritionData * CalculationMethod) :=
  match nutrition_info recipe with
  | Some info =>
      if isReliableNutrition info
      then Some (declaredNutrition info, spoonacular)
      else fromIngredients recipe useUSDAFallback
  | None => fromIngredients recipe useUSDAFallback
  end.

(** [servings / (recipe.servings || 1)]. *)
Definition servingDivisor (recipe : Recipe) : Q := opt_num_or (servings recipe) 1.

Definition servingMultiplier (servings : Q) (recipe : Recipe) : Q :=
  (servings / servingDivisor recipe)%Q.

Definition scaleNutrition (n : NutritionData) (multiplier : Q) : NutritionData :=
  {| calories := Math_round (calories n * multiplier);
     protein := round1 (protein n * multiplier);
     fat := round1 (fat n * multiplier);
     carbohydrates := round1 (carbohydrates n * multiplier);
     fiber := round1 (fiber n * multiplier) |}.

Definition calculateMealNutrition (recipeId : string) (servings : Q)
    (useUSDAFallback : bool) : option MealNutrition :=
  match recipes recipeId with
  | None => None
  | Some recipe =>
      match resolveNutrition recipe useUSDAFallback with
      | None => None
      | Some (nutrition, calculationMethod) =>
          Some {| mn_recipe_id := recipeId;
                  mn_recipe_title := title recipe;
                  nutrition := scaleNutrition nutrition (servingMultiplier servings recipe);
                  calculation_method := calculationMethod |}
      end
  end.

(** The state the two nested loops of [validatePlan] update. *)
Record Progress : Type := {
  totalNutrition : NutritionData;
  missingData : list string;
  pending_suggestions : list Suggestion
}.

(** The loop [for (const meal of day.meals)]. *)
Fixpoint processMeals (options : Options) (ms : list Meal)
    (st : Progress) (dayBreakdown : DailyBreakdown) : Progress * DailyBreakdown :=
  match ms with
  | [] => (st, dayBreakdown)
  | meal :: rest =>
      match calculateMealNutrition (recipe_id meal)
              (opt_num_or (meal_servings meal) 1) (use_usda_fallback options) with
      | Some mealNutrition =>
          processMeals options rest
            {| totalNutrition := add_nutrition (totalNutrition st) (nutrition mealNutrition);
               missingData := missingData st;
               pending_suggestions := pending_suggestions st |}
            {| db_day := db_day dayBreakdown;
               db_nutrition := add_nutrition (db_nutrition dayBreakdown) (nutrition mealNutrition);
               db_meals := if detailed_breakdown options
                           then db_meals dayBreakdown ++ [mealNutrition]
                           else db_meals dayBreakdown |}
      | None =>
          processMeals options rest
            {| totalNutrition := totalNutrition st;
               missingData := missingData st ++ ["Recipe " +:+ recipe_id meal];
               pending_suggestions :=
                 if require_all_recipes options
                 then pending_suggestions st ++ [MissingNutritionData (recipe_id meal)]
                 else pending_suggestions st |}
            dayBreakdown
      end
  end.

(** The loop [for (const day of planData.days)]. *)
Fixpoint processDays (options : Options) (ds : list Day)
    (st : Progress) (detailedBreakdown : list DailyBreakdown)
  : Progress * list DailyBreakdown :=
  match ds with
  | [] => (st, detailedBreakdown)
  | d :: rest =>
      let fresh :=
        {| db_day := match day d with
                     | Some s => if str_truthy s then s else "unknown"
                     | None => "unknown"
                     end;
           db_nutrition := no_nutrition;
           db_meals := [] |} in
      let '(st', dayBreakdown) := processMeals options (meals d) st fresh in
      processDays options rest st'
        (if detailed_breakdown options
         then detailedBreakdown ++ [dayBreakdown]
         else detailedBreakdown)
  end.

(** The entries of [deviations] that are numbers, in property order, under
    the name [generateNutritionSuggestions] gives them. *)
Definition deviationEntries (d : Deviations) : list (string * Q) :=
  [("calories", calories_deviation d); ("protein", protein_deviation d);
   ("fat", fat_deviation d); ("carbohydrates", carbohydrates_deviation d)]
  ++ match fiber_deviation d with
     | Some f => [("fiber", f)]
     | None => []
     end.

Definition generateNutritionSuggestions (deviations : Deviations)
    (threshold : Q) : list Suggestion :=
  flat_map (fun '(nutrientName, deviation) =>
              if gtb (Math_abs deviation) threshold then
                if gtb deviation 0
                then [ReduceIntake nutrientName deviation]
                else [IncreaseIntake nutrientName (Math_abs deviation)]
              else [])
           (deviationEntries deviations).

(** [coreDeviations.every(dev => dev <= options.deviation_threshold)]. *)
Definition withinThreshold (deviations : Deviations) (threshold : Q) : bool :=
  forallb (fun dev => Qle_bool dev threshold)
    [Math_abs (calories_deviation deviations);
     Math_abs (protein_deviation deviations);
     Math_abs (fat_deviation deviations);
     Math_abs (carbohydrates_deviation deviations)].

Definition validatePlan (days : list Day) (targets : Targets) (options : Options)
  : ValidationResult :=
  let '(st, detailedBreakdown) :=
    processDays options days
      {| totalNutrition := no_nutrition; missingData := [];
         pending_suggestions := [] |} [] in
  let total := totalNutrition st in
  let dayCount := inject_Z (Z.of_nat (length days)) in
  let dailyAverage :=
    {| calories := Math_round (calories total / dayCount);
       protein := round1 (protein total / dayCount);
       fat := round1 (fat total / dayCount);
       carbohydrates := round1 (carbohydrates total / dayCount);
       fiber := round1 (fiber total / dayCount) |} in
  let deviations :=
    {| calories_deviation :=
         calculateDeviation (calories dailyAverage) (daily_calories targets);
       protein_deviation :=
         calculateDeviation (protein dailyAverage) (daily_protein targets);
       fat_deviation :=
         calculateDeviation (fat dailyAverage) (daily_fat targets);
       carbohydrates_deviation :=
         calculateDeviation (carbohydrates dailyAverage) (daily_carbohydrates targets);
       fiber_deviation :=
         match daily_fiber targets with
         | Some f =>
             if Qeq_bool f 0 then None
             else Some (calculateDeviation (fiber dailyAverage) f)
         | None => None
         end |} in
  let within := withinThreshold deviations (deviation_threshold options) in
  let isValid :=
    within &&
    (if require_all_recipes options
     then bool_decide (length (missingData st) = 0%nat)
     else true) in
  {| is_valid := isValid;
     total_nutrition := total;
     daily_average := dailyAverage;
     target_deviations := deviations;
     within_threshold := within;
     missing_nutrition_data := missingData st;
     suggestions :=
       pending_suggestions st ++
       (if within then []
        else generateNutritionSuggestions deviations (deviation_threshold options));
     result_breakdown :=
       if detailed_breakdown options then Some detailedBreakdown else None |}.

End WithDatabase.

End Validator.

(** * Plans and blueprints (types/plan.ts, types/blueprint.ts) *)

Module Plan.

Record MealSlot : Type := {
  meal_type : string;
  recipe_id : string;
  servings : option Q;
  completed : bool
}.

(** The [date] of a day: text the assembling service wrote, or the calendar
    day of an instant in milliseconds (its ISO text is not rendered). *)
Inductive DateString : Type :=
| date_text (s : string)
| date_of_instant (milliseconds : Z).

Record DayPlan : Type := {
  day : string;
  date : DateString;
  meals : list MealSlot
}.

Record PlanData : Type := {
  days : list DayPlan;
  total_recipes : nat;
  unique_recipes : nat;
  variety_score : Q
}.

(** [created_at] and [updated_at], the clock at construction, are left out. *)
Record MealPlan : Type := {
  id : string;
  user_id : string;
  intake_id : string;
  week_theme : string;
  week_start_date : Z;
  status : string;
  plan_data : PlanData;
  generated_by : string;
  generation_id : string;
  completion_percentage : Q;
  is_public : bool;
  clone_count : nat
}.

End Plan.

Module Blueprint.

Record NutritionalTargets : Type := {
  daily_calories : Q;
  daily_protein : Q;
  daily_fat : Q;
  daily_carbohydrates : Q
}.

Record RecentRating : Type := {
  rated_recipe_id : string;
  rating : string
}.

Record RecentSwap : Type := {
  original_recipe_id : string;
  replacement_recipe_id : string
}.

(** The parts of [UserBlueprint] the modelled code reads. *)
Record UserBlueprint : Type := {
  profile_id : string;
  intake_id : string;
  cultural_preferences : option (list string);
  cooking_time_preference : option Q;
  access_to_premium_content : bool;
  nutritional_targets : option NutritionalTargets;
  recent_ratings : option (list RecentRating);
  recent_swaps : option (list RecentSwap)
}.

Record GenerationContext : Type := {
  user_blueprint : UserBlueprint;
  generation_id : string;
  week_start_date : Z;
  retry_count : option nat
}.

Record GenerationPreferences : Type := {
  enforce_variety : option bool;
  focus_macros : option (list string)
}.

End Blueprint.

(** * Nutrition council (agents/nutrition-council.ts) *)

Module Council.
Import Db.

Record Nutrition : Type := {
  calories : Q;
  protein : Q;
  fat : Q;
  carbohydrates : Q
}.

Record TargetDeviations : Type := {
  calories_deviation : Q;
  protein_deviation : Q;
  fat_deviation : Q;
  carbohydrates_deviation : Q
}.

Record NutritionValidationResult : Type := {
  is_valid : bool;
  total_nutrition : Nutrition;
  daily_average : Nutrition;
  target_deviations : TargetDeviations;
  within_15_percent_threshold : bool;
  missing_nutrition_data : list string;
  suggestions : list string
}.

Definition calculateDeviation (actual target : Q) : Q :=
  if Qeq_bool target 0 then 0 else ((actual - target) / target * 100)%Q.

Definition calculateDailyAverage (total : Nutrition) (days : Q) : Nutrition :=
  {| calories := Math_round (calories total / days);
     protein := round1 (protein total / days);
     fat := round1 (fat total / days);
     carbohydrates := round1 (carbohydrates total / days) |}.

Definition isReliableNutrition (n : NutritionInfo) : bool :=
  gtb (ni_calories n) 0 && geb (ni_protein n) 0.

Definition minorIngredients : list string :=
  ["salt"; "pepper"; "oil"; "water"; "vanilla"; "baking powder"; "garlic powder"].

Definition isMinorIngredient (name : string) : bool :=
  existsb (fun minor => includes (toLowerCase name) minor) minorIngredients.

Definition conversions : gmap string Q :=
  list_to_map
    [("g", 1%Q); ("gram", 1%Q); ("grams", 1%Q);
     ("kg", 1000%Q);
     ("oz", 28.35%Q);
     ("pound", 453.59%Q); ("lb", 453.59%Q);
     ("cup", 240%Q);
     ("tbsp", 15%Q);
     ("tsp", 5%Q)].

Definition convertToStandardAmount (amount : Q) (unit : string) : Q :=
  let factor := opt_num_or (conversions !! toLowerCase unit) 100 in
  (amount * factor)%Q.

Definition generateNutritionSuggestions (deviations : TargetDeviations) : list string :=
  (if gtb (Math_abs (calories_deviation deviations)) 15 then
     if gtb (calories_deviation deviations) 0
     then ["Reduce portion sizes or choose lighter recipes"]
     else ["Add snacks or choose more calorie-dense recipes"]
   else [])
  ++
  (if gtb (Math_abs (protein_deviation deviations)) 15 then
     if negb (geb (protein_deviation deviations) 0)
     then ["Include more protein-rich foods like lean meats, legumes, or dairy"]
     else []
   else []).

Definition no_nutrition : Nutrition :=
  {| calories := 0; protein := 0; fat := 0; carbohydrates := 0 |}.

Definition cannot_read (what : string) : JsError :=
  TypeError ("Cannot read properties of undefined (reading '" +:+ what +:+ "')").

(** [recipe.ingredients.filter(ing => ing.amount > 0 && !this.isMinorIngredient(ing.name))]. *)
Fixpoint mainIngredients (ings : list Ingredient) : Completion (list Ingredient) :=
  match ings with
  | [] => Normal []
  | ing :: rest =>
      let! keep :=
        (if gtb (amount ing) 0 then
           match name ing with
           | Some n => Normal (negb (isMinorIngredient n))
           | None => Throw (cannot_read "toLowerCase")
           end
         else Normal false) in
      let! rest' := mainIngredients rest in
      Normal (if keep then ing :: rest' else rest')
  end.

(** [Object.values(deviations).every(dev => Math.abs(dev) <= 15)]. *)
Definition within15Percent (deviations : TargetDeviations) : bool :=
  forallb (fun dev => Qle_bool (Math_abs dev) 15)
    [calories_deviation deviations; protein_deviation deviations;
     fat_deviation deviations; carbohydrates_deviation deviations].

Section WithServices.

(** [recipes id]: the outcome of the query on [recipes] for [id]: the row,
    nothing (an error or no row), or a rejected call.
    [lookupUSDANutrition n]: the first row of [search_nutrition_data] for [n],
    [None] when the call fails or finds nothing. *)
Variable recipes : string -> Completion (option Recipe).
Variable lookupUSDANutrition : string -> option USDAData.

(** The loop [for (const ingredient of mainIngredients)]. *)
Fixpoint sumIngredients (ings : list Ingredient) (acc : Nutrition) : Completion Nutrition :=
  match ings with
  | [] => Normal acc
  | ingredient :: rest =>
      match name ingredient ≫= lookupUSDANutrition with
      | Some usdaData =>
          let! amountIn100g :=
            (match unit ingredient with
             | Some u => Normal (convertToStandardAmount (amount ingredient) u)
             | None => Throw (cannot_read "toLowerCase")
             end) in
          if gtb amountIn100g 0 then
            let multiplier := (amountIn100g / 100)%Q in
            sumIngredients rest
              {| calories := calories acc + opt_num_or (usda_calories usdaData) 0 * multiplier;
                 protein := protein acc + opt_num_or (usda_protein usdaData) 0 * multiplier;
                 fat := fat acc + opt_num_or (usda_fat usdaData) 0 * multiplier;
                 carbohydrates :=
                   carbohydrates acc + opt_num_or (usda_carbohydrates usdaData) 0 * multiplier |}
          else sumIngredients rest acc
      | None => sumIngredients rest acc
      end
  end.

(** [null] when anything in the body throws. *)
Definition calculateRecipeNutritionFromUSDA (recipe : Recipe) : option Nutrition :=
  match (let! ings := (match ingredients recipe with
                       | Some l => Normal l
                       | None => Throw (cannot_read "filter")
                       end) in
         let! main := mainIngredients ings in
         sumIngredients main no_nutrition) with
  | Normal t =>
      Some {| calories := Math_round (calories t);
              protein := round1 (protein t);
              fat := round1 (fat t);
              carbohydrates := round1 (carbohydrates t) |}
  | Throw _ => None
  end.

(** The nutrition of one meal before scaling: the declared data when
    reliable, the ingredient computation otherwise. *)
Definition mealNutritionOf (recipe : Recipe) : option Nutrition :=
  match nutrition_info recipe with
  | Some info =>
      if isReliableNutrition info
      then Some {| calories := ni_calories info; protein := ni_protein info;
                   fat := ni_fat info; carbohydrates := ni_carbohydrates info |}
      else calculateRecipeNutritionFromUSDA recipe
  | None => calculateRecipeNutritionFromUSDA recipe
  end.

(** [(meal.servings || 1) / (recipe.servings || 1)]. *)
Definition servingMultiplier (meal : Plan.MealSlot) (recipe : Recipe) : Q :=
  (opt_num_or (Plan.servings meal) 1 / opt_num_or (servings recipe) 1)%Q.

(** The loop [for (const meal of day.meals)]. *)
Fixpoint sumMeals (ms : list Plan.MealSlot) (acc : Nutrition) : Completion Nutrition :=
  match ms with
  | [] => Normal acc
  | meal :: rest =>
      let! row := recipes (Plan.recipe_id meal) in
      match row with
      | None => sumMeals rest acc
      | Some recipe =>
          match mealNutritionOf recipe with
          | Some mealNutrition =>
              let m := servingMultiplier meal recipe in
              sumMeals rest
                {| calories := calories acc + num_or (calories mealNutrition) 0 * m;
                   protein := protein acc + num_or (protein mealNutrition) 0 * m;
                   fat := fat acc + num_or (fat mealNutrition) 0 * m;
                   carbohydrates :=
                     carbohydrates acc + num_or (carbohydrates mealNutrition) 0 * m |}
          | None => sumMeals rest acc
          end
      end
  end.

(** The loop [for (const day of mealPlan.plan_data.days)]. *)
Fixpoint sumDays (ds : list Plan.DayPlan) (acc : Nutrition) : Completion Nutrition :=
  match ds with
  | [] => Normal acc
  | d :: rest =>
      let! acc' := sumMeals (Plan.meals d) acc in
      sumDays rest acc'
  end.

Definition calculatePlanNutrition (mealPlan : Plan.MealPlan) : option Nutrition :=
  match sumDays (Plan.days (Plan.plan_data mealPlan)) no_nutrition with
  | Normal t =>
      Some {| calories := Math_round (calories t);
              protein := Math_round (protein t);
              fat := Math_round (fat t);
              carbohydrates := Math_round (carbohydrates t) |}
  | Throw _ => None
  end.

(** Nothing in the [try] of [validateNutrition] throws once
    [calculatePlanNutrition] has returned, so its [catch] is not reached. *)
Definition validateNutrition (mealPlan : Plan.MealPlan)
    (blueprint : Blueprint.UserBlueprint) : NutritionValidationResult :=
  let dayCount :=
    inject_Z (Z.of_nat (length (Plan.days (Plan.plan_data mealPlan)))) in
  match calculatePlanNutrition mealPlan with
  | None =>
      {| is_valid := false;
         total_nutrition := no_nutrition;
         daily_average := no_nutrition;
         target_deviations :=
           {| calories_deviation := 100; protein_deviation := 100;
              fat_deviation := 100; carbohydrates_deviation := 100 |};
         within_15_percent_threshold := false;
         missing_nutrition_data := ["Complete nutrition calculation failed"];
         suggestions := ["Unable to validate nutrition - insufficient data"] |}
  | Some totalNutrition =>
      match Blueprint.nutritional_targets blueprint with
      | None =>
          {| is_valid := false;
             total_nutrition := totalNutrition;
             daily_average := calculateDailyAverage totalNutrition dayCount;
             target_deviations :=
               {| calories_deviation := 0; protein_deviation := 0;
                  fat_deviation := 0; carbohydrates_deviation := 0 |};
             within_15_percent_threshold := false;
             missing_nutrition_data := ["User nutritional targets not calculated"];
             suggestions := ["Complete user profile to enable nutritional validation"] |}
      | Some targets =>
          let dailyAverage := calculateDailyAverage totalNutrition dayCount in
          let deviations :=
            {| calories_deviation :=
                 calculateDeviation (calories dailyAverage) (Blueprint.daily_calories targets);
               protein_deviation :=
                 calculateDeviation (protein dailyAverage) (Blueprint.daily_protein targets);
               fat_deviation :=
                 calculateDeviation (fat dailyAverage) (Blueprint.daily_fat targets);
               carbohydrates_deviation :=
                 calculateDeviation (carbohydrates dailyAverage)
                   (Blueprint.daily_carbohydrates targets) |} in
          let within := within15Percent deviations in
          {| is_valid := within;
             total_nutrition := totalNutrition;
             daily_average := dailyAverage;
             target_deviations := deviations;
             within_15_percent_threshold := within;
             missing_nutrition_data := [];
             suggestions := if within then [] else generateNutritionSuggestions deviations |}
      end
  end.

End WithServices.

(** ** Coherence review and the validation loop *)

Record CoherenceReview : Type := {
  review_rating : JSValue;
  review_feedback : JSValue
}.

Definition parseCoherenceResponse (response : JsonExtract) : CoherenceReview :=
  match response with
  | ParsedObject parsed =>
      {| review_rating := js_or (get_property parsed "rating") (JNum 0);
         review_feedback :=
           js_or (get_property parsed "feedback") (JStr "No feedback provided") |}
  | NoJson | InvalidJson _ =>
      {| review_rating := JNum 0;
         review_feedback := JStr "Failed to parse coherence response" |}
  end.

Record CoherenceResult : Type := {
  coherence_success : bool;
  coherence_rating : JSValue;
  feedback : JSValue;
  coherence_tokens_used : option Q;
  coherence_cost_cents : option Q
}.

(** [reply]: what the request to the messages endpoint gave, [Throw] when the
    request failed, the status was not ok or the body had no text. *)
Definition validateCoherence (reply : Completion ClaudeMessage) : CoherenceResult :=
  match reply with
  | Normal data =>
      let result := parseCoherenceResponse (text data) in
      {| coherence_success := true;
         coherence_rating := review_rating result;
         feedback := review_feedback result;
         coherence_tokens_used := Some (tokensOf data);
         coherence_cost_cents := Some (costOf data) |}
  | Throw error =>
      {| coherence_success := false;
         coherence_rating := JNum 0;
         feedback := JStr ("Coherence validation failed: " +:+ error_message error);
         coherence_tokens_used := None;
         coherence_cost_cents := None |}
  end.

(** What [assembleMealPlan] returns: [success: false] with an error, or
    [success: true] with the plan it parsed; and the usage of its request. *)
Record AssemblyResult : Type := {
  assembly_outcome : option string + Plan.MealPlan;
  assembly_claude_requests : option Q;
  assembly_tokens_used : option Q;
  assembly_cost_cents : option Q
}.

(** The result shape of [improvePlanCoherence] and [fixNutritionalIssues]. *)
Record StepResult : Type := {
  step_success : bool;
  step_meal_plan : option Plan.MealPlan;
  step_error : option string;
  step_claude_requests : option Q;
  step_tokens_used : option Q;
  step_cost_cents : option Q
}.

Definition improvePlanCoherence (plan : Plan.MealPlan) (feedback : JSValue) : StepResult :=
  {| step_success := false; step_meal_plan := None;
     step_error := Some "Plan improvement not yet implemented";
     step_claude_requests := None; step_tokens_used := None; step_cost_cents := None |}.

Definition fixNutritionalIssues (plan : Plan.MealPlan)
    (issues : NutritionValidationResult) : StepResult :=
  {| step_success := false; step_meal_plan := None;
     step_error := Some "Nutritional fixing not yet implemented";
     step_claude_requests := None; step_tokens_used := None; step_cost_cents := None |}.

Record ValidateResult : Type := {
  success : bool;
  meal_plan : option Plan.MealPlan;
  nutritional_accuracy : option TargetDeviations;
  error : option string;
  claude_requests : option Q;
  tokens_used : option Q;
  cost_cents : option Q
}.

(** The counters [claudeRequests], [totalTokensUsed], [totalCostCents]. *)
Record Tally : Type := {
  claudeRequests : Q;
  totalTokensUsed : Q;
  totalCostCents : Q
}.

Definition maxRetries : nat := 3.

(** One turn of the [while] of [validateAndRefine]: it returns, or it goes on
    with a plan, the last failed nutrition result and the counters. *)
Inductive PassOutcome : Type :=
| PassReturns (result : ValidateResult)
| PassContinues (currentPlan : Plan.MealPlan)
    (lastValidationResult : option NutritionValidationResult) (tally : Tally).

(** [plan = result.meal_plan!] *)
Definition replaced_plan (r : StepResult) (currentPlan : Plan.MealPlan) : Plan.MealPlan :=
  match step_meal_plan r with
  | Some p => p
  | None => currentPlan
  end.

Definition validationPass (nutritionResult : NutritionValidationResult)
    (coherenceReply : Completion ClaudeMessage)
    (currentPlan : Plan.MealPlan)
    (lastValidationResult : option NutritionValidationResult) (tally : Tally)
  : PassOutcome :=
  if is_valid nutritionResult then
    let coherenceResult := validateCoherence coherenceReply in
    let tally1 :=
      {| claudeRequests := claudeRequests tally + 1;
         totalTokensUsed :=
           totalTokensUsed tally + opt_num_or (coherence_tokens_used coherenceResult) 0;
         totalCostCents :=
           totalCostCents tally + opt_num_or (coherence_cost_cents coherenceResult) 0 |} in
    if coherence_success coherenceResult && js_geb (coherence_rating coherenceResult) 7 then
      PassReturns
        {| success := true;
           meal_plan := Some currentPlan;
           nutritional_accuracy := Some (target_deviations nutritionResult);
           error := None;
           claude_requests := Some (claudeRequests tally1);
           tokens_used := Some (totalTokensUsed tally1);
           cost_cents := Some (totalCostCents tally1) |}
    else
      let improvementResult := improvePlanCoherence currentPlan (feedback coherenceResult) in
      let tally2 :=
        {| claudeRequests :=
             claudeRequests tally1 + opt_num_or (step_claude_requests improvementResult) 0;
           totalTokensUsed :=
             totalTokensUsed tally1 + opt_num_or (step_tokens_used improvementResult) 0;
           totalCostCents :=
             totalCostCents tally1 + opt_num_or (step_cost_cents improvementResult) 0 |} in
      PassContinues
        (if step_success improvementResult
         then replaced_plan improvementResult currentPlan else currentPlan)
        lastValidationResult tally2
  else
    let nutritionFix := fixNutritionalIssues currentPlan nutritionResult in
    if step_success nutritionFix
    then PassContinues (replaced_plan nutritionFix currentPlan) lastValidationResult tally
    else PassContinues currentPlan (Some nutritionResult) tally.

(** [suggestions?.join(', ') || 'Unknown validation error']. *)
Definition lastIssue (lastValidationResult : option NutritionValidationResult) : string :=
  match lastValidationResult with
  | Some r =>
      let joined := String.concat ", " (suggestions r) in
      if str_truthy joined then joined else "Unknown validation error"
  | None => "Unknown validation error"
  end.

Section WithServices.

Variable recipes : string -> Completion (option Recipe).
Variable lookupUSDANutrition : string -> option USDAData.

(** [coherenceReply n]: what the review request made in turn [n] gives. *)
Variable coherenceReply : nat -> Completion ClaudeMessage.

Variable context : Blueprint.GenerationContext.

(** [while (retryCount < maxRetries) { ...; retryCount++ }] and the [return]
    after it. *)
Equations validationLoop (retryCount : nat) (currentPlan : Plan.MealPlan)
    (lastValidationResult : option NutritionValidationResult) (tally : Tally)
  : ValidateResult by wf (maxRetries - retryCount)%nat lt :=
  validationLoop retryCount currentPlan lastValidationResult tally
    with decide (retryCount < maxRetries)%nat := {
    | left _ with validationPass
                    (validateNutrition recipes lookupUSDANutrition currentPlan
                       (Blueprint.user_blueprint context))
                    (coherenceReply retryCount)
                    currentPlan lastValidationResult tally := {
        | PassReturns result => result
        | PassContinues plan' last' tally' =>
            validationLoop (S retryCount) plan' last' tally' }
    | right _ =>
        {| success := false;
           meal_plan := None;
           nutritional_accuracy := None;
           error := Some ("Validation failed after 3 attempts. Last issue: "
                          +:+ lastIssue lastValidationResult);
           claude_requests := Some (claudeRequests tally);
           tokens_used := Some (totalTokensUsed tally);
           cost_cents := Some (totalCostCents tally) |} }.
Next Obligation. unfold maxRetries in *. lia. Qed.

(** [assemblyResult]: what [assembleMealPlan(candidates, context)] returned.
    Nothing called in the [try] throws, so its [catch] is not reached. *)
Definition validateAndRefine (assemblyResult : AssemblyResult) : ValidateResult :=
  let tally :=
    {| claudeRequests := 0 + opt_num_or (assembly_claude_requests assemblyResult) 0;
       totalTokensUsed := 0 + opt_num_or (assembly_tokens_used assemblyResult) 0;
       totalCostCents := 0 + opt_num_or (assembly_cost_cents assemblyResult) 0 |} in
  match assembly_outcome assemblyResult with
  | inl assembly_error =>
      {| success := false; meal_plan := None; nutritional_accuracy := None;
         error := assembly_error;
         claude_requests := Some (claudeRequests tally);
         tokens_used := Some (totalTokensUsed tally);
         cost_cents := Some (totalCostCents tally) |}
  | inr currentPlan => validationLoop 0 currentPlan None tally
  end.

End WithServices.

End Council.

(** * Candidate selector (agents/candidate-selector.ts) *)

Module Selector.

(** The columns of a recipe the selector reads after the query. *)
Record Recipe : Type := {
  id : string;
  cuisine_type : option string;
  meal_type : list string;
  difficulty_level : option string;
  is_premium : bool;
  rating_average : Q
}.

Record RecipeCandidate : Type := {
  recipe : Recipe;
  base_score : Q;
  ai_personalization_score : Q;
  final_score : Q;
  match_reasons : list string;
  penalty_reasons : list string
}.

Record ScoringCriteria : Type := {
  cuisine_match_weight : Q;
  nutrition_match_weight : Q;
  prep_time_weight : Q;
  user_rating_weight : Q;
  variety_weight : Q;
  premium_bonus : Q;
  recent_favorite_bonus : Q;
  seasonal_bonus : Q
}.

(** An entry of [recipe_scores], typed as the prompt asks for it. *)
Record ScoreData : Type := {
  score : option Q;
  scored_match_reasons : option (list string);
  scored_penalty_reasons : option (list string)
}.

(** The reply of the scoring request after the match and [JSON.parse]:
    [recipe_scores] is [None] when the parsed object has none, and holds its
    truthy entries otherwise, an entry without the fields of the prompt
    reading as one whose fields are missing. *)
Inductive ScoringReply : Type :=
| NoJsonFound
| JsonParseError (message : string)
| ScoringObject (recipe_scores : option (gmap string ScoreData)).

Record ParseResult : Type := {
  parse_success : bool;
  parsed_candidates : option (list RecipeCandidate);
  parse_error : option string
}.

Definition parse_failure (message : string) : ParseResult :=
  {| parse_success := false;
     parsed_candidates := None;
     parse_error := Some ("Failed to parse AI response: " +:+ message) |}.

(** The function mapped over [recipes] in [parseAIScoringResponse]. *)
Definition scoreRecipe (recipeScores : gmap string ScoreData) (recipe : Recipe)
  : RecipeCandidate :=
  match recipeScores !! id recipe with
  | None =>
      {| recipe := recipe;
         base_score := 50;
         ai_personalization_score := 50;
         final_score := 50;
         match_reasons := [];
         penalty_reasons := ["No AI score available"] |}
  | Some scoreData =>
      {| recipe := recipe;
         base_score := rating_average recipe * 20;
         ai_personalization_score := opt_num_or (score scoreData) 50;
         final_score := 0;
         match_reasons := default [] (scored_match_reasons scoreData);
         penalty_reasons := default [] (scored_penalty_reasons scoreData) |}
  end.

Definition parseAIScoringResponse (aiResponse : ScoringReply) (recipes : list Recipe)
  : ParseResult :=
  match aiResponse with
  | NoJsonFound => parse_failure "No JSON found in AI response"
  | JsonParseError message => parse_failure message
  | ScoringObject None => parse_failure "No recipe_scores found in AI response"
  | ScoringObject (Some recipeScores) =>
      {| parse_success := true;
         parsed_candidates := Some (map (scoreRecipe recipeScores) recipes);
         parse_error := None |}
  end.

(** [list?.length ? a : b]. *)
Definition has_length {A} (l : option (list A)) : bool :=
  match l with
  | Some (_ :: _) => true
  | _ => false
  end.

Definition buildScoringCriteria (blueprint : Blueprint.UserBlueprint)
    (preferences : Blueprint.GenerationPreferences) : ScoringCriteria :=
  {| cuisine_match_weight :=
       if has_length (Blueprint.cultural_preferences blueprint) then 0.3 else 0.1;
     nutrition_match_weight :=
       if has_length (Blueprint.focus_macros preferences) then 0.4 else 0.2;
     prep_time_weight :=
       if negb (Qeq_bool (opt_num_or (Blueprint.cooking_time_preference blueprint) 0) 0)
       then 0.2 else 0.1;
     user_rating_weight := 0.2;
     variety_weight :=
       match Blueprint.enforce_variety preferences with
       | Some false => 0.05
       | _ => 0.15
       end;
     premium_bonus :=
       if Blueprint.access_to_premium_content blueprint then 1.1 else 1.0;
     recent_favorite_bonus := 1.2;
     seasonal_bonus := 1.05 |}.

(** The loop [for (const rating of recentLoves)]. *)
Fixpoint favoriteLoop (recentLoves : list Blueprint.RecentRating) (recipe : Recipe) : Q :=
  match recentLoves with
  | [] => 1.0
  | rating :: rest =>
      if String.eqb (Blueprint.rated_recipe_id rating) (id recipe)
      then 1.3
      else favoriteLoop rest recipe
  end.

Definition getRecentFavoriteBonus (recipe : Recipe) (blueprint : Blueprint.UserBlueprint) : Q :=
  let recentLoves :=
    match Blueprint.recent_ratings blueprint with
    | Some ratings => filter (fun r => Blueprint.rating r = "love") ratings
    | None => []
    end in
  favoriteLoop recentLoves recipe.

(** The loop [for (const swap of recentSwaps)]. *)
Fixpoint swapLoop (recentSwaps : list Blueprint.RecentSwap) (recipe : Recipe) : Q :=
  match recentSwaps with
  | [] => 1.0
  | swap :: rest =>
      if String.eqb (Blueprint.original_recipe_id swap) (id recipe)
      then 0.7
      else swapLoop rest recipe
  end.

Definition getSwapPenalty (recipe : Recipe) (blueprint : Blueprint.UserBlueprint) : Q :=
  swapLoop (default [] (Blueprint.recent_swaps blueprint)) recipe.

Definition calculateFinalScore (candidate : RecipeCandidate) (criteria : ScoringCriteria)
    (blueprint : Blueprint.UserBlueprint) : Q :=
  let score := 0%Q in
  let score := (score + base_score candidate * 0.3)%Q in
  let score := (score + ai_personalization_score candidate * 0.4)%Q in
  let recentFavoriteBonus := getRecentFavoriteBonus (recipe candidate) blueprint in
  let score := (score * recentFavoriteBonus)%Q in
  let score :=
    if is_premium (recipe candidate) && Blueprint.access_to_premium_content blueprint
    then (score * premium_bonus criteria)%Q
    else score in
  let swapPenalty := getSwapPenalty (recipe candidate) blueprint in
  let score := (score * swapPenalty)%Q in
  Math_min (Math_max score 0) 100.

(** ** Diversity-constrained selection *)

Definition targetCount : nat := 30.

(** [Math.ceil(targetCount / 5)] and [Math.ceil(targetCount / 3)]. *)
Definition cuisineLimit : nat :=
  Z.to_nat (Qceiling (inject_Z (Z.of_nat targetCount) / 5)).
Definition mealTypeLimit : nat :=
  Z.to_nat (Qceiling (inject_Z (Z.of_nat targetCount) / 3)).

(** The state of the loop of [selectDiverseSet]. *)
Record Diversity : Type := {
  selected : list RecipeCandidate;
  cuisineCount : gmap string nat;
  mealTypeCount : gmap string nat;
  difficultyCount : gmap string nat
}.

(** [counter[key] || 0]. *)
Definition count_of (counter : gmap string nat) (key : string) : nat :=
  default 0%nat (counter !! key).

(** [counter[key] = (counter[key] || 0) + 1]. *)
Definition increment (counter : gmap string nat) (key : string) : gmap string nat :=
  <[key := (count_of counter key + 1)%nat]> counter.

(** [if (text) ...]: a text that is there and not empty. *)
Definition present (text : option string) : option string :=
  match text with
  | Some s => if str_truthy s then Some s else None
  | None => None
  end.

Definition skipForDiversity (st : Diversity) (r : Recipe) : bool :=
  match present (cuisine_type r) with
  | Some cuisine => (cuisineLimit <=? count_of (cuisineCount st) cuisine)%nat
  | None => false
  end
  || existsb (fun mealType => (mealTypeLimit <=? count_of (mealTypeCount st) mealType)%nat)
       (meal_type r).

(** [selected.push(candidate)] and the three counter updates. *)
Definition accept (st : Diversity) (candidate : RecipeCandidate) : Diversity :=
  let r := recipe candidate in
  {| selected := selected st ++ [candidate];
     cuisineCount :=
       match present (cuisine_type r) with
       | Some cuisine => increment (cuisineCount st) cuisine
       | None => cuisineCount st
       end;
     mealTypeCount := foldl increment (mealTypeCount st) (meal_type r);
     difficultyCount :=
       match present (difficulty_level r) with
       | Some difficulty => increment (difficultyCount st) difficulty
       | None => difficultyCount st
       end |}.

(** The loop [for (const candidate of candidates)], with its [break] and
    [continue]. *)
Fixpoint selectLoop (candidates : list RecipeCandidate) (st : Diversity) : Diversity :=
  match candidates with
  | [] => st
  | candidate :: rest =>
      if (targetCount <=? length (selected st))%nat then st
      else if skipForDiversity st (recipe candidate) && (15 <? length (selected st))%nat
      then selectLoop rest st
      else selectLoop rest (accept st candidate)
  end.

Definition selectDiverseSet (candidates : list RecipeCandidate)
    (blueprint : Blueprint.UserBlueprint) : list RecipeCandidate :=
  selected (selectLoop candidates
              {| selected := []; cuisineCount := ∅; mealTypeCount := ∅;
                 difficultyCount := ∅ |}).

(** [scoredCandidates.sort((a, b) => b.final_score - a.final_score)]: a
    stable sort, highest score first. *)
Fixpoint insertByScore (c : RecipeCandidate) (sorted : list RecipeCandidate)
  : list RecipeCandidate :=
  match sorted with
  | [] => [c]
  | x :: rest =>
      if Qle_bool (final_score x - final_score c) 0
      then c :: sorted
      else x :: insertByScore c rest
  end.

Definition sortByScore (l : list RecipeCandidate) : list RecipeCandidate :=
  foldr insertByScore [] l.

Definition withFinalScore (criteria : ScoringCriteria) (blueprint : Blueprint.UserBlueprint)
    (candidate : RecipeCandidate) : RecipeCandidate :=
  {| recipe := recipe candidate;
     base_score := base_score candidate;
     ai_personalization_score := ai_personalization_score candidate;
     final_score := calculateFinalScore candidate criteria blueprint;
     match_reasons := match_reasons candidate;
     penalty_reasons := penalty_reasons candidate |}.

Definition rankAndSelectFinalCandidates (scoredCandidates : list RecipeCandidate)
    (blueprint : Blueprint.UserBlueprint) (preferences : Blueprint.GenerationPreferences)
  : list RecipeCandidate :=
  let criteria := buildScoringCriteria blueprint preferences in
  let scored := map (withFinalScore criteria blueprint) scoredCandidates in
  selectDiverseSet (sortByScore scored) blueprint.

(** ** The entry point *)

Record ScoringMessage : Type := {
  scoring_text : ScoringReply;
  scoring_usage : option Usage
}.

Definition scoringTokens (m : ScoringMessage) : Q :=
  tokensOf {| text := NoJson; usage := scoring_usage m |}.
Definition scoringCost (m : ScoringMessage) : Q :=
  costOf {| text := NoJson; usage := scoring_usage m |}.

Record ScoringResult : Type := {
  scoring_success : bool;
  scoredCandidates : option (list RecipeCandidate);
  scoring_error : option string;
  scoring_tokens_used : option Q;
  scoring_cost_cents : option Q
}.

(** [reply]: what the scoring request gave, [Throw] when it failed. *)
Definition performAIScoring (reply : Completion ScoringMessage) (recipes : list Recipe)
  : ScoringResult :=
  match reply with
  | Normal data =>
      let scoringResult := parseAIScoringResponse (scoring_text data) recipes in
      {| scoring_success := parse_success scoringResult;
         scoredCandidates := parsed_candidates scoringResult;
         scoring_error := parse_error scoringResult;
         scoring_tokens_used := Some (scoringTokens data);
         scoring_cost_cents := Some (scoringCost data) |}
  | Throw error =>
      {| scoring_success := false;
         scoredCandidates := None;
         scoring_error := Some ("AI scoring failed: " +:+ error_message error);
         scoring_tokens_used := None;
         scoring_cost_cents := None |}
  end.

Record SelectionResult : Type := {
  success : bool;
  candidates : option (list RecipeCandidate);
  error : option string;
  claude_requests : option Q;
  tokens_used : option Q;
  cost_cents : option Q
}.

(** [sqlCandidates]: what [performSQLFiltering] returned, the working set of
    at most 50 recipes, or the error it threw.
    [reply]: what the scoring request gave. *)
Definition selectCandidates (sqlCandidates : Completion (list Recipe))
    (reply : Completion ScoringMessage)
    (blueprint : Blueprint.UserBlueprint) (preferences : Blueprint.GenerationPreferences)
  : SelectionResult :=
  match sqlCandidates with
  | Throw error =>
      {| success := false; candidates := None; error := Some (error_message error);
         claude_requests := None; tokens_used := None; cost_cents := None |}
  | Normal [] =>
      {| success := false; candidates := None;
         error := Some "No recipes found matching dietary restrictions and constraints";
         claude_requests := None; tokens_used := None; cost_cents := None |}
  | Normal working =>
      let scoringResult := performAIScoring reply working in
      if negb (scoring_success scoringResult) then
        {| success := false; candidates := None;
           error := scoring_error scoringResult;
           claude_requests := Some 1%Q;
           tokens_used := Some (opt_num_or (scoring_tokens_used scoringResult) 0);
           cost_cents := Some (opt_num_or (scoring_cost_cents scoringResult) 0) |}
      else
        {| success := true;
           candidates :=
             Some (rankAndSelectFinalCandidates
                     (default [] (scoredCandidates scoringResult)) blueprint preferences);
           error := None;
           claude_requests := Some 1%Q;
           tokens_used := Some (opt_num_or (scoring_tokens_used scoringResult) 0);
           cost_cents := Some (opt_num_or (scoring_cost_cents scoringResult) 0) |}
  end.

End Selector.

(** * Plan generator (supabase/functions/plan-generator/index.ts) *)

Module Generator.

(** ** Names in scope

    The value bound to a name: a number, or something else. *)
Inductive Binding : Type :=
| number (n : nat)
| other.

(** What the module declares by [import], [const] and [function]; type-only
    imports bind nothing. *)
Definition module_scope : list string :=
  ["serve"; "createClient"; "z"; "uuidv4";
   "validateUserBlueprint"; "CandidateSelector"; "NutritionCouncil";
   "WowLayerAgent"; "logGenerationEvent";
   "PlanGenerationRequestSchema";
   "validateRequest"; "ingestUserBlueprint"; "generateMealPlanWithRetry";
   "createErrorResponse"; "getNextMonday"; "calculateNutritionalTargets";
   "generateFallbackPlan"; "saveMealPlan"].

(** The globals of the host the module names. *)
Definition host_scope : list string :=
  ["console"; "Deno"; "Date"; "Math"; "JSON"; "Response"; "Error"].

(** The parameters of [generateMealPlanWithRetry] and the [const]/[let] of
    its body. *)
Definition function_scope (retryCount : nat) : list (string * Binding) :=
  [("supabase", other); ("context", other); ("preferences", other);
   ("maxRetries", number 3); ("retryCount", number retryCount);
   ("lastError", other); ("totalClaudeRequests", other);
   ("totalTokensUsed", other); ("totalCostCents", other)].

(** The [const]s of the blocks that hold the three [return]s: the [try] in
    the loop, the [try] of the fallback, its [catch]. *)
Definition round_scope (retryCount : nat) : list (string * Binding) :=
  [("currentContext", other); ("candidateSelector", other);
   ("candidatesResult", other); ("nutritionCouncil", other);
   ("validationResult", other); ("wowAgent", other);
   ("enhancedResult", other); ("finalPlan", other)]
  ++ function_scope retryCount.

Definition fallback_scope (retryCount : nat) : list (string * Binding) :=
  ("fallbackPlan", other) :: function_scope retryCount.

Definition catch_scope (retryCount : nat) : list (string * Binding) :=
  ("fallbackError", other) :: function_scope retryCount.

(** Reading the name [x]: the innermost binding, a [ReferenceError] when no
    scope declares it. *)
Definition identifier (locals : list (string * Binding)) (x : string) : Completion Binding :=
  match list_find (fun b => String.eqb (fst b) x) locals with
  | Some (_, (_, b)) => Normal b
  | None =>
      if existsb (String.eqb x) (module_scope ++ host_scope)
      then Normal other
      else Throw (ReferenceError x)
  end.

(** ** The fallback plan *)

(** The outcome of the query for fallback recipes: [{ data, error }]. *)
Record FallbackQuery : Type := {
  data : option (list Selector.Recipe);
  query_error : bool
}.

Definition days : list string := ["monday"; "tuesday"; "wednesday"].
Definition mealTypes : list string := ["breakfast"; "lunch"; "dinner"].

(** The function mapped over [mealTypes]; reading [.id] of an element that
    is not there throws. *)
Definition fallbackMeal (fallbackRecipes : list Selector.Recipe) (dayIndex : nat)
    (mealIndex : nat) (mealType : string) : Completion Plan.MealSlot :=
  let recipeIndex := ((dayIndex * 3 + mealIndex) mod length fallbackRecipes)%nat in
  match fallbackRecipes !! recipeIndex with
  | Some r =>
      Normal {| Plan.meal_type := mealType;
                Plan.recipe_id := Selector.id r;
                Plan.servings := None;
                Plan.completed := false |}
  | None => Throw (TypeError "Cannot read properties of undefined (reading 'id')")
  end.

(** [array.map((x, index) => f(index, x))] for an [f] that may throw. *)
Fixpoint mapWithIndex {A B} (f : nat -> A -> Completion B) (start : nat) (l : list A)
  : Completion (list B) :=
  match l with
  | [] => Normal []
  | x :: rest =>
      let! y := f start x in
      let! ys := mapWithIndex f (S start) rest in
      Normal (y :: ys)
  end.

Definition fallbackDay (fallbackRecipes : list Selector.Recipe) (week_start : Z)
    (dayIndex : nat) (day : string) : Completion Plan.DayPlan :=
  let! meals := mapWithIndex (fallbackMeal fallbackRecipes dayIndex) 0 mealTypes in
  Normal {| Plan.day := day;
            Plan.date :=
              Plan.date_of_instant (week_start + Z.of_nat dayIndex * 24 * 60 * 60 * 1000);
            Plan.meals := meals |}.

(** [query]: what the query for fallback recipes gave; [fresh_id]: what
    [uuidv4()] gives. *)
Definition generateFallbackPlan (query : Completion FallbackQuery)
    (context : Blueprint.GenerationContext) (fresh_id : string)
  : Completion Plan.MealPlan :=
  let! result := query in
  match query_error result, data result with
  | false, Some ((_ :: _) as fallbackRecipes) =>
      let! planDays :=
        mapWithIndex (fallbackDay fallbackRecipes (Blueprint.week_start_date context)) 0 days in
      Normal
        {| Plan.id := fresh_id;
           Plan.user_id := Blueprint.profile_id (Blueprint.user_blueprint context);
           Plan.intake_id := Blueprint.intake_id (Blueprint.user_blueprint context);
           Plan.week_theme := "Getting Started";
           Plan.week_start_date := Blueprint.week_start_date context;
           Plan.status := "active";
           Plan.plan_data :=
             {| Plan.days := planDays;
                Plan.total_recipes := 9;
                Plan.unique_recipes := Nat.min 9 (length fallbackRecipes);
                Plan.variety_score := 60 |};
           Plan.generated_by := "fallback_system";
           Plan.generation_id := Blueprint.generation_id context;
           Plan.completion_percentage := 0;
           Plan.is_public := false;
           Plan.clone_count := 0 |}
  | _, _ => Throw (Error "Failed to fetch fallback recipes")
  end.

(** ** The retry loop *)

Record GenerationError : Type := {
  stage : string;
  error_code : string;
  message : string;
  recoverable : bool;
  suggested_action : string
}.

Record PlanGenerationResult : Type := {
  success : bool;
  meal_plan : option Plan.MealPlan;
  generation_id : string;
  generation_time_ms : Q;
  retry_count : Binding;
  claude_requests : Q;
  claude_tokens_used : Q;
  claude_cost_cents : Q;
  nutritional_accuracy : option Council.TargetDeviations;
  used_fallback : bool;
  fallback_reason : option string;
  error : option GenerationError
}.

Record EnhanceResult : Type := {
  enhanced_meal_plan : option Plan.MealPlan;
  enhance_claude_requests : option Q;
  enhance_tokens_used : option Q;
  enhance_cost_cents : option Q
}.

(** The collaborators of one generation request.  The first four are asked
    once per round, [n] being the value of [retryCount] in that round. *)
Record Services : Type := {
  selectCandidates : nat -> Completion Selector.SelectionResult;
  validateAndRefine :
    nat -> option (list Selector.RecipeCandidate) -> Completion Council.ValidateResult;
  enhancePlan : nat -> option Plan.MealPlan -> Completion EnhanceResult;
  saveMealPlan : nat -> option Plan.MealPlan -> Completion Plan.MealPlan;
  fallbackQuery : Completion FallbackQuery;
  uuidv4 : string
}.

(** What [lastError] holds: a caught exception, or the [error] text of a
    failed validation. *)
Inductive LastError : Type :=
| caught (e : JsError)
| validation_error (text : option string).

(** [${lastError?.message}]: a text has no [message]. *)
Definition lastErrorMessage (lastError : option LastError) : string :=
  match lastError with
  | Some (caught e) => error_message e
  | Some (validation_error _) | None => "undefined"
  end.

(** [${value}] for a text that may be missing. *)
Definition render (text : option string) : string := default "undefined" text.

Record Totals : Type := {
  totalClaudeRequests : Q;
  totalTokensUsed : Q;
  totalCostCents : Q
}.

Definition addUsage (t : Totals) (requests tokens cost : option Q) : Totals :=
  {| totalClaudeRequests := totalClaudeRequests t + opt_num_or requests 0;
     totalTokensUsed := totalTokensUsed t + opt_num_or tokens 0;
     totalCostCents := totalCostCents t + opt_num_or cost 0 |}.

(** What the console shows of the control flow. *)
Inductive LogLine : Type :=
| attempt_started (attempt : nat)
| circuit_breaker_triggered.

(** One turn of the [while]: the [try] block returns, or [lastError] is set
    from the failed validation or by the [catch]. *)
Inductive RoundOutcome : Type :=
| RoundReturns (result : PlanGenerationResult)
| RoundFails (lastError : LastError) (totals : Totals).

Definition round (sv : Services) (context : Blueprint.GenerationContext)
    (retryCount : nat) (totals : Totals) : RoundOutcome :=
  match selectCandidates sv retryCount with
  | Throw e => RoundFails (caught e) totals
  | Normal candidatesResult =>
      if negb (Selector.success candidatesResult) then
        RoundFails
          (caught (Error ("Candidate selection failed: "
                          +:+ render (Selector.error candidatesResult))))
          totals
      else
        let totals1 :=
          addUsage totals (Selector.claude_requests candidatesResult)
            (Selector.tokens_used candidatesResult) (Selector.cost_cents candidatesResult) in
        match validateAndRefine sv retryCount (Selector.candidates candidatesResult) with
        | Throw e => RoundFails (caught e) totals1
        | Normal validationResult =>
            let totals2 :=
              addUsage totals1 (Council.claude_requests validationResult)
                (Council.tokens_used validationResult) (Council.cost_cents validationResult) in
            if Council.success validationResult then
              match enhancePlan sv retryCount (Council.meal_plan validationResult) with
              | Throw e => RoundFails (caught e) totals2
              | Normal enhancedResult =>
                  let totals3 :=
                    addUsage totals2 (enhance_claude_requests enhancedResult)
                      (enhance_tokens_used enhancedResult) (enhance_cost_cents enhancedResult) in
                  match saveMealPlan sv retryCount (enhanced_meal_plan enhancedResult) with
                  | Throw e => RoundFails (caught e) totals3
                  | Normal finalPlan =>
                      match identifier (round_scope retryCount) "retry_count" with
                      | Throw e => RoundFails (caught e) totals3
                      | Normal retry_count =>
                          RoundReturns
                            {| success := true;
                               meal_plan := Some finalPlan;
                               generation_id := Blueprint.generation_id context;
                               generation_time_ms := 0;
                               retry_count := retry_count;
                               claude_requests := totalClaudeRequests totals3;
                               claude_tokens_used := totalTokensUsed totals3;
                               claude_cost_cents := totalCostCents totals3;
                               nutritional_accuracy :=
                                 Council.nutritional_accuracy validationResult;
                               used_fallback := false;
                               fallback_reason := None;
                               error := None |}
                      end
                  end
              end
            else RoundFails (validation_error (Council.error validationResult)) totals2
        end
  end.

Definition maxRetries : nat := 3.

(** The [return] in the [catch (fallbackError)] block. *)
Definition completeFailure (context : Blueprint.GenerationContext) (retryCount : nat)
    (lastError : option LastError) (totals : Totals) (fallbackError : JsError)
  : Completion PlanGenerationResult :=
  let! retry_count := identifier (catch_scope retryCount) "retry_count" in
  Normal
    {| success := false;
       meal_plan := None;
       generation_id := Blueprint.generation_id context;
       generation_time_ms := 0;
       retry_count := retry_count;
       claude_requests := totalClaudeRequests totals;
       claude_tokens_used := totalTokensUsed totals;
       claude_cost_cents := totalCostCents totals;
       nutritional_accuracy := None;
       used_fallback := false;
       fallback_reason := None;
       error :=
         Some {| stage := "fallback_generation";
                 error_code := "COMPLETE_FAILURE";
                 message :=
                   "All generation attempts failed. Last error: "
                   +:+ lastErrorMessage lastError +:+ ". Fallback error: "
                   +:+ error_message fallbackError;
                 recoverable := true;
                 suggested_action := "Please try again in a few minutes" |} |}.

(** What follows the [while]: the fallback plan in a [try], its [catch]. *)
Definition circuitBreaker (sv : Services) (context : Blueprint.GenerationContext)
    (retryCount : nat) (lastError : option LastError) (totals : Totals)
  : Completion PlanGenerationResult :=
  match
    (let! fallbackPlan := generateFallbackPlan (fallbackQuery sv) context (uuidv4 sv) in
     let! retry_count := identifier (fallback_scope retryCount) "retry_count" in
     Normal
       {| success := true;
          meal_plan := Some fallbackPlan;
          generation_id := Blueprint.generation_id context;
          generation_time_ms := 0;
          retry_count := retry_count;
          claude_requests := totalClaudeRequests totals;
          claude_tokens_used := totalTokensUsed totals;
          claude_cost_cents := totalCostCents totals;
          nutritional_accuracy := None;
          used_fallback := true;
          fallback_reason :=
            Some ("Generation failed after 3 attempts: " +:+ lastErrorMessage lastError);
          error := None |})
  with
  | Normal result => Normal result
  | Throw fallbackError => completeFailure context retryCount lastError totals fallbackError
  end.

Section WithServices.

Variable sv : Services.
Variable context : Blueprint.GenerationContext.

(** [while (retryCount < maxRetries) { try ... catch ...; retryCount++ }] and
    what follows it; the result comes with the lines logged on the way. *)
Equations retryLoop (retryCount : nat) (lastError : option LastError) (totals : Totals)
    (log : list LogLine)
  : Completion PlanGenerationResult * list LogLine
  by wf (maxRetries - retryCount)%nat lt :=
  retryLoop retryCount lastError totals log
    with decide (retryCount < maxRetries)%nat := {
    | left _ with round sv context retryCount totals := {
        | RoundReturns result =>
            (Normal result, log ++ [attempt_started (retryCount + 1)])
        | RoundFails lastError' totals' =>
            retryLoop (S retryCount) (Some lastError') totals'
              (log ++ [attempt_started (retryCount + 1)]) }
    | right _ =>
        (circuitBreaker sv context retryCount lastError totals,
         log ++ [circuit_breaker_triggered]) }.
Next Obligation. unfold maxRetries in *. lia. Qed.

Definition generateMealPlanWithRetry : Completion PlanGenerationResult * list LogLine :=
  retryLoop 0 None
    {| totalClaudeRequests := 0; totalTokensUsed := 0; totalCostCents := 0 |} [].

End WithServices.

End Generator.

(** * Vocabulary of the properties *)

Section ValidationVocabulary.
Import Db.



(** Declared data with calories above zero and no negative macro. *)
Definition reliable (info : NutritionInfo) : Prop :=
  (0 < ni_calories info)%Q ∧ (0 <= ni_protein info)%Q ∧ (0 <= ni_fat info)%Q
  ∧ (0 <= ni_carbohydrates info)%Q.

Definition declaredReliable (recipe : Recipe) : Prop :=
  ∃ info, nutrition_info recipe = Some info ∧ reliable info.

(** The declared servings are zero or not there. *)
Definition zeroServings (recipe : Recipe) : Prop :=
  match servings recipe with
  | Some s => (s == 0)%Q
  | None => True
  end.



(** The reply holds a JSON object whose [rating] is a number. *)
Definition numericRating (response : JsonExtract) : Prop :=
  ∃ parsed q, response = ParsedObject parsed ∧ get_property parsed "rating" = JNum q.

(** The reply holds no JSON object that parses, or one whose [rating] is
    missing or falsy. *)
Definition noRating (response : JsonExtract) : Prop :=
  match response with
  | NoJson | InvalidJson _ => True
  | ParsedObject parsed => truthy (get_property parsed "rating") = false
  end.

End ValidationVocabulary.

Section SelectionVocabulary.
Import Selector.

Definition lovedRecently (blueprint : Blueprint.UserBlueprint) (r : Recipe) : bool :=
  existsb (fun x => bool_decide (Blueprint.rating x = "love")
                    && String.eqb (Blueprint.rated_recipe_id x) (id r))
    (default [] (Blueprint.recent_ratings blueprint)).

Definition swappedAway (blueprint : Blueprint.UserBlueprint) (r : Recipe) : bool :=
  existsb (fun s => String.eqb (Blueprint.original_recipe_id s) (id r))
    (default [] (Blueprint.recent_swaps blueprint)).

Definition clamp (x : Q) : Q := Math_min (Math_max x 0) 100.

Definition occurrences (key : string) (l : list string) : nat :=
  length (filter (fun x => x = key) l).

(** How many of the accepted candidates count towards [cuisine], and how many
    meal-type tags equal to [mealType] they carry. *)
Definition cuisineUses (accepted : list RecipeCandidate) (cuisine : string) : nat :=
  sum_list_with
    (fun c => if decide (present (cuisine_type (recipe c)) = Some cuisine) then 1 else 0)%nat
    accepted.

Definition mealTypeUses (accepted : list RecipeCandidate) (mealType : string) : nat :=
  sum_list_with (fun c => occurrences mealType (meal_type (recipe c))) accepted.

(** Accepting [c] after [accepted] keeps its cuisine and each of its meal
    types within the caps. *)
Definition withinCaps (accepted : list RecipeCandidate) (c : RecipeCandidate) : Prop :=
  (∀ cuisine, present (cuisine_type (recipe c)) = Some cuisine ->
              (cuisineUses accepted cuisine < cuisineLimit)%nat)
  ∧ (∀ mealType, mealType ∈ meal_type (recipe c) ->
                 (mealTypeUses accepted mealType < mealTypeLimit)%nat).

(** The counters of the loop agree with what was accepted. *)
Definition countersAgree (st : Diversity) : Prop :=
  (∀ cuisine, count_of (cuisineCount st) cuisine = cuisineUses (selected st) cuisine)
  ∧ (∀ mealType, count_of (mealTypeCount st) mealType = mealTypeUses (selected st) mealType).


Definition noneSelected : Diversity :=
  {| selected := []; cuisineCount := ∅; mealTypeCount := ∅; difficultyCount := ∅ |}.

(** The candidate made for a recipe without an entry. *)
Definition unscored (r : Recipe) : RecipeCandidate :=
  {| recipe := r; base_score := 50; ai_personalization_score := 50; final_score := 50;
     match_reasons := []; penalty_reasons := ["No AI score available"] |}.

End SelectionVocabulary.

Section PlanVocabulary.


End PlanVocabulary.

(** * Sample inputs *)

Section Samples.

Definition sampleBlueprint : Blueprint.UserBlueprint :=
  {| Blueprint.profile_id := "user-1";
     Blueprint.intake_id := "intake-1";
     Blueprint.cultural_preferences := Some ["italian"];
     Blueprint.cooking_time_preference := Some 30%Q;
     Blueprint.access_to_premium_content := false;
     Blueprint.nutritional_targets :=
       Some {| Blueprint.daily_calories := 2000; Blueprint.daily_protein := 150;
               Blueprint.daily_fat := 67; Blueprint.daily_carbohydrates := 250 |};
     Blueprint.recent_ratings := Some [];
     Blueprint.recent_swaps := Some [] |}.

Definition sampleContext : Blueprint.GenerationContext :=
  {| Blueprint.user_blueprint := sampleBlueprint;
     Blueprint.generation_id := "generation-1";
     Blueprint.week_start_date := 1767571200000;
     Blueprint.retry_count := Some 0%nat |}.

Definition samplePreferences : Blueprint.GenerationPreferences :=
  {| Blueprint.enforce_variety := Some true; Blueprint.focus_macros := None |}.

(** A recipe with reliable declared data: three servings a day are within
    one and a half percent of the sample targets. *)
Definition sampleRow : Db.Recipe :=
  {| Db.title := "Chicken rice bowl";
     Db.nutrition_info :=
       Some {| Db.ni_calories := 667; Db.ni_protein := 50; Db.ni_fat := 22;
               Db.ni_carbohydrates := 83; Db.ni_fiber := Some 8%Q |};
     Db.ingredients :=
       Some [{| Db.name := Some "chicken breast"; Db.amount := 200; Db.unit := Some "g" |};
             {| Db.name := Some "rice"; Db.amount := 1; Db.unit := Some "cup" |}];
     Db.servings := Some 1%Q |}.

(** The same recipe with servings declared as -2. *)
Definition negativeServingsRow : Db.Recipe :=
  {| Db.title := Db.title sampleRow;
     Db.nutrition_info := Db.nutrition_info sampleRow;
     Db.ingredients := Db.ingredients sampleRow;
     Db.servings := Some (-2)%Q |}.

(** The same recipe with servings declared as 0. *)
Definition zeroServingsRow : Db.Recipe :=
  {| Db.title := Db.title sampleRow;
     Db.nutrition_info := Db.nutrition_info sampleRow;
     Db.ingredients := Db.ingredients sampleRow;
     Db.servings := Some 0%Q |}.

(** A recipe without declared data. *)
Definition undeclaredRow : Db.Recipe :=
  {| Db.title := "Garden salad";
     Db.nutrition_info := None;
     Db.ingredients :=
       Some [{| Db.name := Some "lettuce"; Db.amount := 100; Db.unit := Some "g" |}];
     Db.servings := Some 2%Q |}.

(** A recipe without declared data, one ingredient of which has no unit. *)
Definition unitlessRow : Db.Recipe :=
  {| Db.title := "Beef stew";
     Db.nutrition_info := None;
     Db.ingredients :=
       Some [{| Db.name := Some "beef"; Db.amount := 2; Db.unit := None |}];
     Db.servings := Some 4%Q |}.

Definition sampleRecipes (recipeId : string) : option Db.Recipe :=
  if String.eqb recipeId "r1" then Some sampleRow
  else if String.eqb recipeId "r2" then Some negativeServingsRow
  else if String.eqb recipeId "r3" then Some undeclaredRow
  else if String.eqb recipeId "r4" then Some unitlessRow
  else if String.eqb recipeId "r5" then Some zeroServingsRow
  else None.

Definition sampleUSDA (ingredientName : string) : option Db.USDAData :=
  if String.eqb ingredientName "lettuce" then
    Some {| Db.usda_calories := Some 15%Q; Db.usda_protein := Some 1.4%Q;
            Db.usda_fat := Some 0.2%Q; Db.usda_carbohydrates := Some 2.9%Q;
            Db.usda_fiber := Some 1.3%Q |}
  else if String.eqb ingredientName "beef" then
    Some {| Db.usda_calories := Some 250%Q; Db.usda_protein := Some 26%Q;
            Db.usda_fat := Some 15%Q; Db.usda_carbohydrates := Some 0%Q;
            Db.usda_fiber := Some 0%Q |}
  else None.

Definition sampleTargets : Validator.Targets :=
  {| Validator.daily_calories := 2000; Validator.daily_protein := 150;
     Validator.daily_fat := 67; Validator.daily_carbohydrates := 250;
     Validator.daily_fiber := None |}.

Definition sampleDays : list Validator.Day :=
  [{| Validator.day := Some "monday";
      Validator.meals :=
        [{| Validator.recipe_id := "r1"; Validator.meal_servings := Some 1%Q |};
         {| Validator.recipe_id := "r1"; Validator.meal_servings := Some 1%Q |};
         {| Validator.recipe_id := "r1"; Validator.meal_servings := Some 1%Q |}] |}].

Definition sampleSlot (mealType : string) : Plan.MealSlot :=
  {| Plan.meal_type := mealType; Plan.recipe_id := "r1"; Plan.servings := None;
     Plan.completed := false |}.

Definition samplePlan : Plan.MealPlan :=
  {| Plan.id := "plan-1";
     Plan.user_id := "user-1";
     Plan.intake_id := "intake-1";
     Plan.week_theme := "Personalized Weekly Plan";
     Plan.week_start_date := 1767571200000;
     Plan.status := "active";
     Plan.plan_data :=
       {| Plan.days :=
            [{| Plan.day := "monday"; Plan.date := Plan.date_text "2026-01-05";
                Plan.meals := [sampleSlot "breakfast"; sampleSlot "lunch"; sampleSlot "dinner"] |}];
          Plan.total_recipes := 3;
          Plan.unique_recipes := 1;
          Plan.variety_score := 80 |};
     Plan.generated_by := "claude";
     Plan.generation_id := "generation-1";
     Plan.completion_percentage := 0;
     Plan.is_public := false;
     Plan.clone_count := 0 |}.

Definition councilRecipes (recipeId : string) : Completion (option Db.Recipe) :=
  Normal (sampleRecipes recipeId).

Definition noTally : Council.Tally :=
  {| Council.claudeRequests := 0; Council.totalTokensUsed := 0;
     Council.totalCostCents := 0 |}.

(** A review that rates the plan 5. *)
Definition lowRatedReply : Completion ClaudeMessage :=
  Normal {| text := ParsedObject [("rating", JNum 5); ("feedback", JStr "Too repetitive")];
            usage := Some {| input_tokens := 500; output_tokens := 100 |} |}.

(** A review whose rating is the text "8" and not a number. *)
Definition stringRatedReply : JsonExtract :=
  ParsedObject [("rating", JStr "8"); ("feedback", JStr "Good variety")].

(** A review with feedback and no rating. *)
Definition unratedReply : JsonExtract :=
  ParsedObject [("feedback", JStr "Looks fine")].

Definition sampleAssembly : Council.AssemblyResult :=
  {| Council.assembly_outcome := inr samplePlan;
     Council.assembly_claude_requests := Some 1%Q;
     Council.assembly_tokens_used := Some 1500%Q;
     Council.assembly_cost_cents := Some 1%Q |}.

(** ** Recipes for the selector *)

Definition cuisineRecipe (recipeId cuisine : string) : Selector.Recipe :=
  {| Selector.id := recipeId;
     Selector.cuisine_type := Some cuisine;
     Selector.meal_type := ["dinner"];
     Selector.difficulty_level := Some "easy";
     Selector.is_premium := false;
     Selector.rating_average := 4.5 |}.

Definition plainRecipe (recipeId : string) : Selector.Recipe :=
  {| Selector.id := recipeId;
     Selector.cuisine_type := None;
     Selector.meal_type := [];
     Selector.difficulty_level := None;
     Selector.is_premium := false;
     Selector.rating_average := 5 |}.

Definition candidateOf (r : Selector.Recipe) : Selector.RecipeCandidate :=
  {| Selector.recipe := r;
     Selector.base_score := 90;
     Selector.ai_personalization_score := 80;
     Selector.final_score := 59;
     Selector.match_reasons := [];
     Selector.penalty_reasons := [] |}.



Definition thirtyIds : list string :=
  ["r01"; "r02"; "r03"; "r04"; "r05"; "r06"; "r07"; "r08"; "r09"; "r10";
   "r11"; "r12"; "r13"; "r14"; "r15"; "r16"; "r17"; "r18"; "r19"; "r20";
   "r21"; "r22"; "r23"; "r24"; "r25"; "r26"; "r27"; "r28"; "r29"; "r30"].

(** A working set of 31 recipes; the scorer has an entry, with score 100, for
    the first thirty. *)
Definition crowdedWorkingSet : list Selector.Recipe :=
  map plainRecipe (thirtyIds ++ ["r31"]).

Definition thirtyScores : gmap string Selector.ScoreData :=
  list_to_map
    (map (fun recipeId =>
            (recipeId, {| Selector.score := Some 100%Q;
                          Selector.scored_match_reasons := Some ["Matches the diet"];
                          Selector.scored_penalty_reasons := None |}))
       thirtyIds).

Definition partialReply : Completion Selector.ScoringMessage :=
  Normal {| Selector.scoring_text := Selector.ScoringObject (Some thirtyScores);
            Selector.scoring_usage := Some {| input_tokens := 3000; output_tokens := 900 |} |}.

(** A working set of two recipes, the scorer knowing only the first. *)
Definition smallWorkingSet : list Selector.Recipe :=
  [cuisineRecipe "r01" "italian"; cuisineRecipe "x1" "thai"].

(** ** A generation request whose rounds all fail on coherence *)

Definition failingServices : Generator.Services :=
  {| Generator.selectCandidates := fun _ =>
       Normal (Selector.selectCandidates (Normal smallWorkingSet) partialReply
                 sampleBlueprint samplePreferences);
     Generator.validateAndRefine := fun _ _ =>
       Normal (Council.validateAndRefine councilRecipes sampleUSDA (fun _ => lowRatedReply)
                 sampleContext sampleAssembly);
     Generator.enhancePlan := fun _ plan =>
       Normal {| Generator.enhanced_meal_plan := plan;
                 Generator.enhance_claude_requests := Some 0%Q;
                 Generator.enhance_tokens_used := Some 0%Q;
                 Generator.enhance_cost_cents := Some 0%Q |};
     Generator.saveMealPlan := fun _ plan =>
       match plan with
       | Some p => Normal p
       | None => Throw (TypeError "Cannot read properties of undefined (reading 'id')")
       end;
     Generator.fallbackQuery :=
       Normal {| Generator.data := Some smallWorkingSet; Generator.query_error := false |};
     Generator.uuidv4 := "3f2b8c1e-0d4a-4e6b-9a57-5c1d2e3f4a5b" |}.

End Samples.

(** * Further sources

    The functions below are those the sources above call or are called by,
    and the rest of their files: the assembly of the plan from the reply of
    the language model ([agents/nutrition-council.ts], module [Assembly]), the
    request gate, the nutritional targets and the ingestion of the blueprint
    ([plan-generator/index.ts], module [Ingestion]) with the records of
    [types/blueprint.ts] they read (module [UserData]), the validation of the
    blueprint ([plan-generator/utils/blueprint-validator.ts], module
    [BlueprintValidator]), and the grocery list of the wow layer
    ([agents/wow-layer.ts], module [WowLayer]).  The conventions are those of
    the beginning of the file. *)

From Stdlib Require Import Lqa.

(** ** Meal assembly (agents/nutrition-council.ts) *)

Module Assembly.

(** The reply of the assembly request after the match and [JSON.parse],
    typed as the prompt asks for it: a week theme, and days that each name
    a day, a date and meals.  [days] is [None] when the parsed object has no
    [days] or one that is not an array; the [meals] of a day are [None]
    when there are none to map over. *)
Record MealReply : Type := {
  reply_meal_type : string;
  reply_recipe_id : string;
  reply_servings : option Q
}.

Record DayReply : Type := {
  reply_day : string;
  reply_date : string;
  reply_meals : option (list MealReply)
}.

Inductive PlanReply : Type :=
| NoJsonFound
| JsonParseError (message : string)
| PlanObject (week_theme : option string) (days : option (list DayReply)).

(** [{ ...meal, completed: false }]. *)
Definition slotOf (meal : MealReply) : Plan.MealSlot :=
  {| Plan.meal_type := reply_meal_type meal;
     Plan.recipe_id := reply_recipe_id meal;
     Plan.servings := reply_servings meal;
     Plan.completed := false |}.

(** [{ ...day, meals: day.meals.map(...) }]; [day.meals.map] throws when
    there is nothing to map over. *)
Definition dayOf (d : DayReply) : Completion Plan.DayPlan :=
  match reply_meals d with
  | Some meals =>
      Normal {| Plan.day := reply_day d;
                Plan.date := Plan.date_text (reply_date d);
                Plan.meals := map slotOf meals |}
  | None => Throw (Council.cannot_read "map")
  end.

(** [parsed.days.map(day => ...)] for a function that may throw. *)
Fixpoint daysOf (ds : list DayReply) : Completion (list Plan.DayPlan) :=
  match ds with
  | [] => Normal []
  | d :: rest =>
      let! d' := dayOf d in
      let! rest' := daysOf rest in
      Normal (d' :: rest')
  end.

(** [parsed.days.reduce((sum, day) => sum + day.meals.length, 0)], evaluated
    after the days were mapped, so every day has meals. *)
Definition countMeals (ds : list Plan.DayPlan) : nat :=
  foldl (fun sum d => (sum + length (Plan.meals d))%nat) 0%nat ds.

(** [new Set(parsed.days.flatMap(day => day.meals.map(meal => meal.recipe_id))).size]. *)
Definition countUnique (ds : list Plan.DayPlan) : nat :=
  size (list_to_set (flat_map (fun d => map Plan.recipe_id (Plan.meals d)) ds)
        : gset string).

Record ParsedPlan : Type := {
  parsed_success : bool;
  parsed_meal_plan : option Plan.MealPlan;
  parsed_error : option string
}.

(** [fresh_id]: what [uuidv4()] gives.  The candidates are a parameter the
    body does not read. *)
Definition parseMealPlanResponse (response : PlanReply)
    (candidates : list Selector.RecipeCandidate)
    (context : Blueprint.GenerationContext) (fresh_id : string) : ParsedPlan :=
  match
    (match response with
     | NoJsonFound => Throw (Error "No JSON found in response")
     | JsonParseError message => Throw (Error message)
     | PlanObject _ None => Throw (Error "Invalid plan structure - missing days array")
     | PlanObject week_theme (Some days) =>
         let! planDays := daysOf days in
         Normal
           {| Plan.id := fresh_id;
              Plan.user_id := Blueprint.profile_id (Blueprint.user_blueprint context);
              Plan.intake_id := Blueprint.intake_id (Blueprint.user_blueprint context);
              Plan.week_theme :=
                match week_theme with
                | Some theme => if str_truthy theme then theme else "Personalized Weekly Plan"
                | None => "Personalized Weekly Plan"
                end;
              Plan.week_start_date := Blueprint.week_start_date context;
              Plan.status := "active";
              Plan.plan_data :=
                {| Plan.days := planDays;
                   Plan.total_recipes := countMeals planDays;
                   Plan.unique_recipes := countUnique planDays;
                   Plan.variety_score := 80 |};
              Plan.generated_by := "claude";
              Plan.generation_id := Blueprint.generation_id context;
              Plan.completion_percentage := 0;
              Plan.is_public := false;
              Plan.clone_count := 0 |}
     end)
  with
  | Normal mealPlan =>
      {| parsed_success := true; parsed_meal_plan := Some mealPlan; parsed_error := None |}
  | Throw error =>
      {| parsed_success := false; parsed_meal_plan := None;
         parsed_error := Some ("Failed to parse meal plan: " +:+ error_message error) |}
  end.

(** What the assembly request gave when it did not throw. *)
Record AssemblyMessage : Type := {
  assembly_text : PlanReply;
  assembly_usage : option Usage
}.

(** [reply]: what the request to the messages endpoint gave, [Throw] when the
    request failed, the status was not ok or the body had no text. *)
Definition assembleMealPlan (reply : Completion AssemblyMessage)
    (candidates : list Selector.RecipeCandidate)
    (context : Blueprint.GenerationContext) (fresh_id : string)
  : Council.AssemblyResult :=
  match reply with
  | Normal data =>
      let parsedPlan := parseMealPlanResponse (assembly_text data) candidates context fresh_id in
      let tokens := tokensOf {| text := NoJson; usage := assembly_usage data |} in
      let cost := costOf {| text := NoJson; usage := assembly_usage data |} in
      match parsed_meal_plan parsedPlan with
      | Some mealPlan =>
          {| Council.assembly_outcome := inr mealPlan;
             Council.assembly_claude_requests := Some 1%Q;
             Council.assembly_tokens_used := Some tokens;
             Council.assembly_cost_cents := Some cost |}
      | None =>
          {| Council.assembly_outcome := inl (parsed_error parsedPlan);
             Council.assembly_claude_requests := Some 1%Q;
             Council.assembly_tokens_used := Some tokens;
             Council.assembly_cost_cents := Some cost |}
      end
  | Throw error =>
      {| Council.assembly_outcome :=
           inl (Some ("Meal assembly failed: " +:+ error_message error));
         Council.assembly_claude_requests := None;
         Council.assembly_tokens_used := None;
         Council.assembly_cost_cents := None |}
  end.

End Assembly.


(** ** The complete blueprint (types/blueprint.ts) *)

Module UserData.

(** Rows as the queries return them: a column may be [null]. *)
Record UserProfile : Type := {
  id : string;
  date_of_birth : option string;
  height_cm : option Q;
  weight_kg : option Q;
  activity_level : option string;
  streak_days : Q
}.

(** [flavor_preferences], an object, is read for its presence only. *)
Record UserIntake : Type := {
  intake_id : string;
  diet_type : option string;
  allergies : option (list string);
  dislikes : option (list string);
  budget_range : option string;
  cooking_time_preference : option Q;
  cooking_skill_level : option string;
  household_size : option Q;
  flavor_preferences : bool;
  cultural_preferences : option (list string)
}.

Record SubscriptionPlan : Type := {
  plan_generation_limit : Q;
  access_to_premium_content : bool;
  advanced_wow_layers : bool
}.

Record UserSubscription : Type := {
  status : string;
  subscription_plans : SubscriptionPlan
}.

(** [calculation_method] is always ['mifflin_st_jeor'] and is left out. *)
Record NutritionalTargets : Type := {
  daily_calories : Q;
  daily_protein : Q;
  daily_fat : Q;
  daily_carbohydrates : Q;
  bmr : Q;
  tdee : Q
}.

Record UserBlueprint : Type := {
  profile : option UserProfile;
  intake : option UserIntake;
  subscription : option UserSubscription;
  nutritional_targets : option NutritionalTargets;
  recent_ratings : option (list Blueprint.RecentRating);
  recent_swaps : option (list Blueprint.RecentSwap)
}.

(** Truthiness of a text or a number that may be missing. *)
Definition text_truthy (s : option string) : bool :=
  match s with
  | Some t => str_truthy t
  | None => false
  end.

Definition number_truthy (x : option Q) : bool :=
  match x with
  | Some q => negb (Qeq_bool q 0)
  | None => false
  end.

End UserData.

(** ** Blueprint validation (plan-generator/utils/blueprint-validator.ts) *)

Module BlueprintValidator.
Import UserData.

Record BlueprintValidation : Type := {
  is_valid : bool;
  missing_fields : list string;
  warnings : list string;
  nutritional_targets_calculated : bool;
  can_generate_plan : bool
}.

(** [cond ? [x] : []], for the pushes under an [if]. *)
Definition pushed (cond : bool) (x : string) : list string := if cond then [x] else [].

Definition validateUserBlueprint (blueprint : UserBlueprint) : BlueprintValidation :=
  let missing := [] in
  let warnings := [] in
  let missing :=
    missing ++ pushed (negb (bool_decide (is_Some (profile blueprint)))) "user_profile" in
  let '(missing, warnings) :=
    match intake blueprint with
    | None => (missing ++ ["user_intake"], warnings)
    | Some intake =>
        let missing := missing ++ pushed (negb (text_truthy (diet_type intake))) "diet_type" in
        let warnings :=
          warnings ++ pushed (negb (text_truthy (cooking_skill_level intake)))
                        "cooking_skill_level_missing" in
        let warnings :=
          warnings ++ pushed (negb (number_truthy (cooking_time_preference intake)))
                        "cooking_time_preference_missing" in
        let missing :=
          missing ++
          pushed (negb (number_truthy (household_size intake))
                  || match household_size intake with
                     | Some n => negb (Qle_bool 1 n)
                     | None => false
                     end)
            "household_size" in
        (missing, warnings)
    end in
  let missing :=
    missing ++
    pushed (match subscription blueprint with
            | Some s => negb (String.eqb (status s) "active")
            | None => true
            end)
      "active_subscription" in
  let '(nutritionalTargetsCalculated, warnings) :=
    match profile blueprint, intake blueprint with
    | Some profile, Some _ =>
        if number_truthy (weight_kg profile) && number_truthy (height_cm profile)
           && text_truthy (date_of_birth profile)
        then (true, warnings)
        else (false, warnings ++ ["insufficient_data_for_nutritional_targets"])
    | _, _ => (false, warnings)
    end in
  let warnings :=
    warnings ++
    pushed (negb (Selector.has_length (recent_ratings blueprint))
            && negb (Selector.has_length (recent_swaps blueprint)))
      "limited_personalization_data" in
  let isValid := bool_decide (length missing = 0%nat) in
  let canGeneratePlan :=
    isValid && (nutritionalTargetsCalculated
                || bool_decide (is_Some (nutritional_targets blueprint))) in
  {| is_valid := isValid;
     missing_fields := missing;
     warnings := warnings;
     nutritional_targets_calculated := nutritionalTargetsCalculated;
     can_generate_plan := canGeneratePlan |}.



Record ValidationMessages : Type := {
  missing_messages : list string;
  warning_messages : list string;
  suggestions : list string
}.

Definition missingMessage (field : string) : string :=
  if String.eqb field "user_profile" then "Your profile information is incomplete"
  else if String.eqb field "user_intake" then "Please complete your dietary preferences"
  else if String.eqb field "diet_type"
  then "Please select your dietary preference (vegan, keto, etc.)"
  else if String.eqb field "household_size"
  then "Please specify how many people you're cooking for"
  else if String.eqb field "active_subscription"
  then "An active subscription is required to generate meal plans"
  else "Missing required field: " +:+ field.

(** The message and the suggestion of a warning the [switch] knows. *)
Definition warningMessage (warning : string) : option (string * string) :=
  if String.eqb warning "cooking_skill_level_missing" then
    Some ("Consider adding your cooking skill level for better recipe recommendations",
          "Set your cooking skill level in preferences")
  else if String.eqb warning "cooking_time_preference_missing" then
    Some ("No cooking time preference set - we'll assume you prefer quick meals",
          "Set your preferred cooking time in preferences")
  else if String.eqb warning "insufficient_data_for_nutritional_targets" then
    Some ("Add your height, weight, and age for personalized nutrition targets",
          "Complete your profile for better nutritional matching")
  else if String.eqb warning "limited_personalization_data" then
    Some ("Rate some recipes to help us learn your preferences",
          "Try rating meals as you cook them to improve future recommendations")
  else None.

Definition getBlueprintValidationMessages (validation : BlueprintValidation)
  : ValidationMessages :=
  {| missing_messages := map missingMessage (missing_fields validation);
     warning_messages := omap (fun w => fst <$> warningMessage w) (warnings validation);
     suggestions := omap (fun w => snd <$> warningMessage w) (warnings validation) |}.

End BlueprintValidator.

(** ** Request validation and blueprint ingestion (plan-generator/index.ts) *)

Module Ingestion.
Import UserData.

(** [dayOfWeek === 0 ? 1 : 8 - dayOfWeek] of [getNextMonday], for the day
    of the week [getDay()] gives, 0 being Sunday. *)
Definition daysUntilMonday (dayOfWeek : Z) : Z :=
  if (dayOfWeek =? 0)%Z then 1%Z else (8 - dayOfWeek)%Z.

Definition activityMultipliers : gmap string Q :=
  list_to_map
    [("sedentary", 1.2%Q); ("light", 1.375%Q); ("moderate", 1.55%Q);
     ("active", 1.725%Q); ("very_active", 1.9%Q)].

(** [age]: the difference of the two [getFullYear()], for a date of birth
    that reads as a date.  [intake] is a parameter the body does not read. *)
Definition calculateNutritionalTargets (age : Q) (profile : UserProfile)
    (intake : option UserIntake) : option NutritionalTargets :=
  if negb (number_truthy (weight_kg profile)) || negb (number_truthy (height_cm profile))
     || negb (text_truthy (date_of_birth profile))
  then None
  else
    let weight := default 0%Q (weight_kg profile) in
    let height := default 0%Q (height_cm profile) in
    let bmr := (10 * weight + 6.25 * height - 5 * age + 5)%Q in
    let tdee :=
      (bmr * opt_num_or (activity_level profile ≫= fun level => activityMultipliers !! level)
               1.2)%Q in
    let proteinRatio := 0.25%Q in
    let fatRatio := 0.30%Q in
    let carbRatio := 0.45%Q in
    Some {| daily_calories := Math_round tdee;
            daily_protein := Math_round (tdee * proteinRatio / 4);
            daily_fat := Math_round (tdee * fatRatio / 9);
            daily_carbohydrates := Math_round (tdee * carbRatio / 4);
            bmr := Math_round bmr;
            tdee := Math_round tdee |}.

(** What a query gave: [{ data, error }], the error by its message. *)
Record Fetched (A : Type) : Type := {
  fetched : option A;
  fetch_error : option string
}.
Arguments fetched {A} _.
Arguments fetch_error {A} _.

Record IngestResult : Type := {
  ingest_success : bool;
  ingest_data : option UserBlueprint;
  ingest_error : option string
}.

Definition cannot_read_of_null (what : string) : JsError :=
  TypeError ("Cannot read properties of null (reading '" +:+ what +:+ "')").

(** The three queries are given with what they returned, the two queries for
    events with their rows already mapped; [age] as for
    [calculateNutritionalTargets].  Reading a column of a row that is [null]
    throws, and the [catch] turns what is thrown into a failure. *)
Definition ingestUserBlueprint (age : Q)
    (profileRow : Fetched UserProfile) (intakeRow : Fetched UserIntake)
    (subscriptionRow : Fetched UserSubscription)
    (recentRatings : option (list Blueprint.RecentRating))
    (recentSwaps : option (list Blueprint.RecentSwap)) : IngestResult :=
  match
    (let! _ := (match fetch_error profileRow with
                | Some message => Throw (Error ("Failed to fetch user profile: " +:+ message))
                | None => Normal tt
                end) in
     let! _ := (match fetch_error intakeRow with
                | Some message => Throw (Error ("Failed to fetch user intake: " +:+ message))
                | None => Normal tt
                end) in
     let! _ := (match fetch_error subscriptionRow with
                | Some message => Throw (Error ("Failed to fetch subscription: " +:+ message))
                | None => Normal tt
                end) in
     let! nutritionalTargets :=
       (match fetched profileRow with
        | Some profile => Normal (calculateNutritionalTargets age profile (fetched intakeRow))
        | None => Throw (cannot_read_of_null "weight_kg")
        end) in
     let! _ := (match fetched subscriptionRow with
                | Some _ => Normal tt
                | None => Throw (cannot_read_of_null "subscription_plans")
                end) in
     let blueprint :=
       {| profile := fetched profileRow;
          intake := fetched intakeRow;
          subscription := fetched subscriptionRow;
          nutritional_targets := nutritionalTargets;
          recent_ratings := Some (default [] recentRatings);
          recent_swaps := Some (default [] recentSwaps) |} in
     let validation := BlueprintValidator.validateUserBlueprint blueprint in
     Normal
       (if negb (BlueprintValidator.can_generate_plan validation) then
          {| ingest_success := false;
             ingest_data := None;
             ingest_error :=
               Some ("Incomplete user profile: "
                     +:+ String.concat ", " (BlueprintValidator.missing_fields validation)) |}
        else
          {| ingest_success := true; ingest_data := Some blueprint; ingest_error := None |}))
  with
  | Normal result => result
  | Throw error =>
      {| ingest_success := false; ingest_data := None;
         ingest_error := Some (error_message error) |}
  end.

(** *** Stage 0: the request gate *)

Inductive RequestError : Type :=
| Unauthorized
| InvalidRequestFormat (message : string)
| NoActiveSubscription
| MonthlyLimitReached (planLimit : Q)
| ValidationError (message : string).

Definition statusOf (e : RequestError) : nat :=
  match e with
  | Unauthorized => 401
  | InvalidRequestFormat _ => 422
  | NoActiveSubscription => 403
  | MonthlyLimitReached _ => 429
  | ValidationError _ => 500
  end%nat.

(** [{ data: { user }, error }] of [auth.getUser()]. *)
Record AuthOutcome : Type := {
  user : option string;
  userError : bool
}.

(** [{ data: subscription, error }] of the query for the subscription. *)
Record SubscriptionOutcome : Type := {
  subscribed : option UserSubscription;
  subError : bool
}.

Record ValidRequest (Request : Type) : Type := {
  request_user : string;
  request_data : Request;
  request_subscription : UserSubscription
}.
Arguments request_user {Request} _.
Arguments request_data {Request} _.
Arguments request_subscription {Request} _.

(** [null >= n] compares 0 with [n]. *)
Definition count_geb (count : option Q) (n : Q) : bool := geb (default 0%Q count) n.

(** The calls are given with their outcomes: [auth], the session;
    [requestData], the body after [JSON.parse] and the schema, [Throw] when
    either refuses it; [subscriptionQuery]; [monthlyPlans], the [count] of
    the plans of the month, [None] when the query gives none.  A call that
    throws is caught by the outer [try]. *)
Definition validateRequest {Request : Type}
    (auth : Completion AuthOutcome)
    (requestData : Completion Request)
    (subscriptionQuery : Completion SubscriptionOutcome)
    (monthlyPlans : Completion (option Q))
  : RequestError + ValidRequest Request :=
  match
    (let! session := auth in
     match userError session, user session with
     | false, Some user =>
         match requestData with
         | Throw validationError => Normal (inl (InvalidRequestFormat (error_message validationError)))
         | Normal request =>
             let! sub := subscriptionQuery in
             match subError sub, subscribed sub with
             | false, Some subscription =>
                 let planLimit := plan_generation_limit (subscription_plans subscription) in
                 let passed :=
                   inr {| request_user := user; request_data := request;
                          request_subscription := subscription |} in
                 if negb (Qeq_bool planLimit (-1)) then
                   let! count := monthlyPlans in
                   if count_geb count planLimit
                   then Normal (inl (MonthlyLimitReached planLimit))
                   else Normal passed
                 else Normal passed
             | _, _ => Normal (inl NoActiveSubscription)
             end
         end
     | _, _ => Normal (inl Unauthorized)
     end)
  with
  | Normal outcome => outcome
  | Throw error => inl (ValidationError (error_message error))
  end.

End Ingestion.

(** ** Wow layer (agents/wow-layer.ts): the grocery list *)

Module WowLayer.

Inductive GroceryCategory : Type :=
| produce | meat_seafood | dairy_eggs | pantry | frozen | bakery | beverages
| condiments | spices.

(** [a-z] or [0-9]. *)
Definition is_lower_alphanumeric (c : Ascii.ascii) : bool :=
  let n := Ascii.N_of_ascii c in
  ((97 <=? n)%N && (n <=? 122)%N) || ((48 <=? n)%N && (n <=? 57)%N).

(** [s.replace(/[^a-z0-9\s]/g, '')]. *)
Fixpoint keepPlain (s : string) : string :=
  match s with
  | EmptyString => EmptyString
  | String c r =>
      if is_lower_alphanumeric c || is_whitespace c
      then String c (keepPlain r)
      else keepPlain r
  end.

(** [s.replace(/\s+/g, ' ')]; [inRun]: the character before was white
    space. *)
Fixpoint collapseSpaces (inRun : bool) (s : string) : string :=
  match s with
  | EmptyString => EmptyString
  | String c r =>
      if is_whitespace c
      then if inRun then collapseSpaces true r else String " " (collapseSpaces true r)
      else String c (collapseSpaces false r)
  end.

Definition normalizeIngredientName (name : string) : string :=
  trim (collapseSpaces false (keepPlain (toLowerCase name))).

(** The table of [categorizeIngredient], in the order of its literal. *)
Definition categories : list (string * GroceryCategory) :=
  [("onion", produce); ("garlic", produce); ("tomato", produce); ("lettuce", produce);
   ("carrot", produce); ("potato", produce); ("bell pepper", produce); ("spinach", produce);
   ("apple", produce); ("banana", produce); ("lemon", produce); ("lime", produce);
   ("chicken", meat_seafood); ("beef", meat_seafood); ("pork", meat_seafood);
   ("fish", meat_seafood); ("salmon", meat_seafood); ("shrimp", meat_seafood);
   ("turkey", meat_seafood);
   ("milk", dairy_eggs); ("cheese", dairy_eggs); ("butter", dairy_eggs); ("egg", dairy_eggs);
   ("yogurt", dairy_eggs); ("cream", dairy_eggs);
   ("rice", pantry); ("pasta", pantry); ("flour", pantry); ("sugar", pantry);
   ("oil", pantry); ("vinegar", pantry); ("beans", pantry); ("lentils", pantry);
   ("salt", spices); ("pepper", spices); ("garlic powder", spices); ("paprika", spices);
   ("soy sauce", condiments); ("olive oil", condiments); ("ketchup", condiments)].

(** The loop [for (const [ingredient, category] of Object.entries(categories))]. *)
Fixpoint firstMatch (normalized : string) (entries : list (string * GroceryCategory))
  : option GroceryCategory :=
  match entries with
  | [] => None
  | (ingredient, category) :: rest =>
      if includes normalized ingredient then Some category
      else firstMatch normalized rest
  end.

Definition categorizeIngredient (name : string) : GroceryCategory :=
  let normalized := toLowerCase name in
  match firstMatch normalized categories with
  | Some category => category
  | None =>
      if includes normalized "cheese" || includes normalized "milk"
         || includes normalized "butter"
      then dairy_eggs
      else if includes normalized "chicken" || includes normalized "beef"
              || includes normalized "fish"
      then meat_seafood
      else if includes normalized "oil" || includes normalized "sauce"
              || includes normalized "dressing"
      then condiments
      else pantry
  end.

(** A value of [allIngredients]. *)
Record Aggregate : Type := {
  amount : Q;
  unit : option string;
  category : GroceryCategory;
  source_recipes : list string
}.

(** The body of [for (const ingredient of recipe.ingredients)].
    [allIngredients] is an object literal: the one normalized name it
    inherits a property for is [constructor], and for it the test finds
    something that has no [source_recipes] to push to. *)
Definition addIngredient (recipe_id : string) (ingredient : Db.Ingredient)
    (allIngredients : gmap string Aggregate) : Completion (gmap string Aggregate) :=
  match Db.name ingredient with
  | None => Throw (Council.cannot_read "toLowerCase")
  | Some name =>
      let normalizedName := normalizeIngredientName name in
      let category := categorizeIngredient name in
      match allIngredients !! normalizedName with
      | Some existing =>
          Normal (<[normalizedName :=
                     {| amount := if decide (unit existing = Db.unit ingredient)
                                  then (amount existing + Db.amount ingredient)%Q
                                  else amount existing;
                        unit := unit existing;
                        category := WowLayer.category existing;
                        source_recipes := source_recipes existing ++ [recipe_id] |}]>
                    allIngredients)
      | None =>
          if String.eqb normalizedName "constructor"
          then Throw (Council.cannot_read "push")
          else Normal (<[normalizedName :=
                          {| amount := Db.amount ingredient;
                             unit := Db.unit ingredient;
                             category := category;
                             source_recipes := [recipe_id] |}]>
                         allIngredients)
      end
  end.

Fixpoint addIngredients (recipe_id : string) (ingredients : list Db.Ingredient)
    (allIngredients : gmap string Aggregate) : Completion (gmap string Aggregate) :=
  match ingredients with
  | [] => Normal allIngredients
  | ingredient :: rest =>
      let! allIngredients' := addIngredient recipe_id ingredient allIngredients in
      addIngredients recipe_id rest allIngredients'
  end.

Section WithDatabase.

(** [recipes id]: the outcome of the query for the ingredients of [id]: the
    row, nothing (an error or no row), or a rejected call. *)
Variable recipes : string -> Completion (option Db.Recipe).

(** The loop [for (const meal of day.meals)]. *)
Fixpoint addMeals (meals : list Plan.MealSlot) (allIngredients : gmap string Aggregate)
  : Completion (gmap string Aggregate) :=
  match meals with
  | [] => Normal allIngredients
  | meal :: rest =>
      let! row := recipes (Plan.recipe_id meal) in
      match row with
      | None => addMeals rest allIngredients
      | Some recipe =>
          let! ingredients :=
            (match Db.ingredients recipe with
             | Some l => Normal l
             | None => Throw (TypeError "recipe.ingredients is not iterable")
             end) in
          let! allIngredients' :=
            addIngredients (Plan.recipe_id meal) ingredients allIngredients in
          addMeals rest allIngredients'
      end
  end.

(** The loop [for (const day of mealPlan.plan_data.days)]. *)
Fixpoint addDays (days : list Plan.DayPlan) (allIngredients : gmap string Aggregate)
  : Completion (gmap string Aggregate) :=
  match days with
  | [] => Normal allIngredients
  | day :: rest =>
      let! allIngredients' := addMeals (Plan.meals day) allIngredients in
      addDays rest allIngredients'
  end.

(** The list without its view by category, which groups the same items and
    sorts them by the collation of the host. *)
Record GroceryList : Type := {
  meal_plan_id : string;
  user_id : string;
  all_ingredients : gmap string Aggregate;
  total_items : nat;
  completion_percentage : Q
}.

(** [null] when anything in the body throws. *)
Definition generateSmartGroceryList (mealPlan : Plan.MealPlan) : option GroceryList :=
  match addDays (Plan.days (Plan.plan_data mealPlan)) ∅ with
  | Normal allIngredients =>
      Some {| meal_plan_id := Plan.id mealPlan;
              user_id := Plan.user_id mealPlan;
              all_ingredients := allIngredients;
              total_items := size allIngredients;
              completion_percentage := 0 |}
  | Throw _ => None
  end.

End WithDatabase.

End WowLayer.


(** * Vocabulary of the further properties *)

Section PlanReading.
Import Db Validator.

Variable recipes : string -> option Recipe.
Variable lookupUSDANutrition : string -> option USDAData.
Variable options : Options.

(** What [validatePlan] asks of [calculateMealNutrition] for one meal. *)
Definition mealResolution (meal : Meal) : option MealNutrition :=
  calculateMealNutrition recipes lookupUSDANutrition (recipe_id meal)
    (opt_num_or (meal_servings meal) 1) (use_usda_fallback options).

(** The meals of a plan, day after day. *)
Definition planMeals (days : list Day) : list Meal := flat_map meals days.

(** The nutrition of the meals that resolve, and the recipes of those that
    do not, both in the order of the plan. *)
Definition resolvedNutrition (ms : list Meal) : list NutritionData :=
  omap (fun meal => nutrition <$> mealResolution meal) ms.

Definition unresolvedRecipes (ms : list Meal) : list string :=
  omap (fun meal => match mealResolution meal with
                    | Some _ => None
                    | None => Some (recipe_id meal)
                    end) ms.

End PlanReading.

Section NutritionSums.
Import Validator.

(** Equality of the five nutrients as rationals. *)
Definition sameNutrition (a b : NutritionData) : Prop :=
  (calories a == calories b)%Q ∧ (protein a == protein b)%Q ∧ (fat a == fat b)%Q
  ∧ (carbohydrates a == carbohydrates b)%Q ∧ (fiber a == fiber b)%Q.

(** The sum of a list of nutrition records, nutrient by nutrient. *)
Fixpoint sumNutrition (l : list NutritionData) : NutritionData :=
  match l with
  | [] => no_nutrition
  | n :: rest =>
      {| calories := calories n + calories (sumNutrition rest);
         protein := protein n + protein (sumNutrition rest);
         fat := fat n + fat (sumNutrition rest);
         carbohydrates := carbohydrates n + carbohydrates (sumNutrition rest);
         fiber := fiber n + fiber (sumNutrition rest) |}
  end.

(** A deviation the suggestions report: beyond the threshold either way. *)
Definition beyond (threshold deviation : Q) : Prop := (threshold < Qabs deviation)%Q.

End NutritionSums.

Section BreakdownReading.
Import Db Validator.

Variable recipes : string -> option Recipe.
Variable lookupUSDANutrition : string -> option USDAData.
Variable options : Options.

(** The label of a day in the breakdown: [day.day || 'unknown']. *)
Definition dayLabel (d : Day) : string :=
  match day d with
  | Some s => if str_truthy s then s else "unknown"
  | None => "unknown"
  end.

(** The entry of the detailed breakdown a day gives rise to. *)
Definition breakdownOf (d : Day) : DailyBreakdown :=
  {| db_day := dayLabel d;
     db_nutrition :=
       foldl add_nutrition no_nutrition
         (resolvedNutrition recipes lookupUSDANutrition options (meals d));
     db_meals := omap (mealResolution recipes lookupUSDANutrition options) (meals d) |}.

End BreakdownReading.

Section ReviewReading.
Import Council.

(** The review made with this reply accepts the plan: the request returned
    and [rating >= 7] holds for what was parsed. *)
Definition accepts (reply : Completion ClaudeMessage) : bool :=
  match reply with
  | Normal data => js_geb (review_rating (parseCoherenceResponse (text data))) 7
  | Throw _ => false
  end.

(** The counter a result reports is the rational [q]. *)
Definition reports (counter : option Q) (q : Q) : Prop :=
  ∃ c, counter = Some c ∧ (c == q)%Q.

(** The requests counted before the loop starts. *)
Definition assemblyRequests (assemblyResult : AssemblyResult) : Q :=
  opt_num_or (assembly_claude_requests assemblyResult) 0.

End ReviewReading.

Section PlanEditing.

(** The plan with other days; the counts kept with the days are not touched. *)
Definition withDays (plan : Plan.MealPlan) (ds : list Plan.DayPlan) : Plan.MealPlan :=
  {| Plan.id := Plan.id plan;
     Plan.user_id := Plan.user_id plan;
     Plan.intake_id := Plan.intake_id plan;
     Plan.week_theme := Plan.week_theme plan;
     Plan.week_start_date := Plan.week_start_date plan;
     Plan.status := Plan.status plan;
     Plan.plan_data :=
       {| Plan.days := ds;
          Plan.total_recipes := Plan.total_recipes (Plan.plan_data plan);
          Plan.unique_recipes := Plan.unique_recipes (Plan.plan_data plan);
          Plan.variety_score := Plan.variety_score (Plan.plan_data plan) |};
     Plan.generated_by := Plan.generated_by plan;
     Plan.generation_id := Plan.generation_id plan;
     Plan.completion_percentage := Plan.completion_percentage plan;
     Plan.is_public := Plan.is_public plan;
     Plan.clone_count := Plan.clone_count plan |}.

(** The day with other meals. *)
Definition withMeals (d : Plan.DayPlan) (ms : list Plan.MealSlot) : Plan.DayPlan :=
  {| Plan.day := Plan.day d; Plan.date := Plan.date d; Plan.meals := ms |}.

End PlanEditing.

Section RankingReading.
Import Selector.

(** Highest final score first. *)
Fixpoint descending (l : list RecipeCandidate) : Prop :=
  match l with
  | [] => True
  | c :: rest => Forall (fun x => (final_score x <= final_score c)%Q) rest ∧ descending rest
  end.

(** No cuisine and no meal type occurs in the list more often than its cap
    allows. *)
Definition alreadyDiverse (candidates : list RecipeCandidate) : Prop :=
  (∀ cuisine, (cuisineUses candidates cuisine <= cuisineLimit)%nat)
  ∧ (∀ mealType, (mealTypeUses candidates mealType <= mealTypeLimit)%nat).

(** The candidate with other scores. *)
Definition rescored (c : RecipeCandidate) (base personalization : Q) : RecipeCandidate :=
  {| recipe := recipe c;
     base_score := base;
     ai_personalization_score := personalization;
     final_score := final_score c;
     match_reasons := match_reasons c;
     penalty_reasons := penalty_reasons c |}.

End RankingReading.

Section AssemblyReading.
Import Assembly.



End AssemblyReading.

Section BlueprintReading.
Import UserData.

(** What a blueprint needs to pass validation: a profile, an intake that
    names a diet and a household of at least one, an active subscription. *)
Definition coreComplete (blueprint : UserBlueprint) : Prop :=
  is_Some (profile blueprint)
  ∧ (∃ i, intake blueprint = Some i ∧ text_truthy (diet_type i) = true
          ∧ ∃ n, household_size i = Some n ∧ (1 <= n)%Q)
  ∧ (∃ s, subscription blueprint = Some s ∧ status s = "active").

(** The profile has what the targets are computed from. *)
Definition measured (p : UserProfile) : Prop :=
  number_truthy (weight_kg p) = true ∧ number_truthy (height_cm p) = true
  ∧ text_truthy (date_of_birth p) = true.

Definition knownMissingFields : list string :=
  ["user_profile"; "user_intake"; "diet_type"; "household_size"; "active_subscription"].

Definition knownWarnings : list string :=
  ["cooking_skill_level_missing"; "cooking_time_preference_missing";
   "insufficient_data_for_nutritional_targets"; "limited_personalization_data"].

End BlueprintReading.

Section GroceryReading.
Import WowLayer.

Variable recipes : string -> Completion (option Db.Recipe).

(** The ingredients a plan asks for, each with the recipe that needs it, in
    the order the loops meet them; a meal whose recipe is not returned
    contributes none. *)
Definition mealIngredients (meal : Plan.MealSlot) : list (string * Db.Ingredient) :=
  match recipes (Plan.recipe_id meal) with
  | Normal (Some recipe) =>
      map (pair (Plan.recipe_id meal)) (default [] (Db.ingredients recipe))
  | _ => []
  end.

Definition planIngredients (mealPlan : Plan.MealPlan) : list (string * Db.Ingredient) :=
  flat_map (fun day => flat_map mealIngredients (Plan.meals day))
    (Plan.days (Plan.plan_data mealPlan)).

(** The key an ingredient is listed under. *)
Definition groceryKey (ingredient : Db.Ingredient) : string :=
  normalizeIngredientName (default EmptyString (Db.name ingredient)).

(** What the list should hold under [key]: nothing when no ingredient has
    this key; otherwise the unit and category of the first one, its amount
    plus the amounts of the later ones that have its unit, and the recipe of
    every one. *)
Definition aggregated (key : string) (needed : list (string * Db.Ingredient))
  : option Aggregate :=
  match filter (fun x => groceryKey x.2 = key) needed with
  | [] => None
  | (recipe_id, first) :: later =>
      Some {| amount :=
                foldl (fun total x =>
                         if decide (Db.unit first = Db.unit x.2)
                         then (total + Db.amount x.2)%Q else total)
                  (Db.amount first) later;
              unit := Db.unit first;
              category := categorizeIngredient (default EmptyString (Db.name first));
              source_recipes := recipe_id :: map fst later |}
  end.

(** The list built so far holds what [needed] asks for. *)
Definition holds (allIngredients : gmap string Aggregate)
    (needed : list (string * Db.Ingredient)) : Prop :=
  (∀ key, allIngredients !! key = aggregated key needed)
  ∧ Forall (fun x => is_Some (Db.name x.2) ∧ groceryKey x.2 ≠ "constructor") needed.

End GroceryReading.

(** * Sample inputs of the further properties *)

Section FurtherSamples.




(** An ingredient without name, unit or amount, and one with all three. *)
Definition namelessPinch : Db.Ingredient :=
  {| Db.name := None; Db.amount := 0; Db.unit := None |}.

Definition lettuceLeaves : Db.Ingredient :=
  {| Db.name := Some "lettuce"; Db.amount := 100; Db.unit := Some "g" |}.

(** A day of one meal, far below the sample targets; a slot for a recipe the
    database does not have. *)
Definition lightDay : Plan.DayPlan :=
  {| Plan.day := "monday"; Plan.date := Plan.date_text "2026-01-05";
     Plan.meals := [sampleSlot "lunch"] |}.

Definition ghostSlot : Plan.MealSlot :=
  {| Plan.meal_type := "dinner"; Plan.recipe_id := "r9"; Plan.servings := None;
     Plan.completed := false |}.

Definition lightPlan : Plan.MealPlan := withDays samplePlan [lightDay].

Definition lightAssembly : Council.AssemblyResult :=
  {| Council.assembly_outcome := inr lightPlan;
     Council.assembly_claude_requests := Some 1%Q;
     Council.assembly_tokens_used := Some 1500%Q;
     Council.assembly_cost_cents := Some 1%Q |}.

(** Two candidates of different cuisines. *)
Definition diversePair : list Selector.RecipeCandidate := map candidateOf smallWorkingSet.

End FurtherSamples.


(** * Properties *)

(** ** Numbers *)

Section NumberFacts.

Lemma num_or_nonzero (x d : Q) : ¬ (d == 0)%Q -> ¬ (num_or x d == 0)%Q.
Proof.
  intros Hd. unfold num_or. destruct (Qeq_bool x 0) eqn:E; [exact Hd |].
  apply Qeq_bool_neq. exact E.
Qed.

Lemma opt_num_or_nonzero (x : option Q) (d : Q) : ¬ (d == 0)%Q -> ¬ (opt_num_or x d == 0)%Q.
Proof. intros Hd. destruct x; simpl; [apply num_or_nonzero; exact Hd | exact Hd]. Qed.

Lemma num_or_zero (x d : Q) : (x == 0)%Q -> num_or x d = d.
Proof. intros H. unfold num_or. apply Qeq_bool_iff in H. rewrite H. reflexivity. Qed.

Lemma num_or_keep (x d : Q) : ¬ (x == 0)%Q -> num_or x d = x.
Proof.
  intros H. unfold num_or. destruct (Qeq_bool x 0) eqn:E; [| reflexivity].
  apply Qeq_bool_iff in E. contradiction.
Qed.

Lemma gtb_true (x y : Q) : gtb x y = true <-> (y < x)%Q.
Proof.
  unfold gtb. rewrite negb_true_iff. split.
  - intros H. apply Qnot_le_lt. intros Hle. apply Qle_bool_iff in Hle. congruence.
  - intros H. destruct (Qle_bool x y) eqn:E; [| reflexivity].
    apply Qle_bool_iff in E. exfalso. exact (Qlt_not_le _ _ H E).
Qed.

Lemma geb_true (x y : Q) : geb x y = true <-> (y <= x)%Q.
Proof. unfold geb. apply Qle_bool_iff. Qed.

Lemma Math_max_compat (x y b : Q) : (x == y)%Q -> (Math_max x b == Math_max y b)%Q.
Proof.
  intros H. unfold Math_max. rewrite (Qleb_comp x y H b b (Qeq_refl b)).
  destruct (Qle_bool y b); [reflexivity | exact H].
Qed.

Lemma Math_min_compat (x y b : Q) : (x == y)%Q -> (Math_min x b == Math_min y b)%Q.
Proof.
  intros H. unfold Math_min. rewrite (Qleb_comp x y H b b (Qeq_refl b)).
  destruct (Qle_bool y b); [exact H | reflexivity].
Qed.

Lemma clamp_compat (x y : Q) : (x == y)%Q -> (clamp x == clamp y)%Q.
Proof. intros H. unfold clamp. apply Math_min_compat, Math_max_compat, H. Qed.

Lemma clamp_range (x : Q) : (0 <= clamp x)%Q ∧ (clamp x <= 100)%Q.
Proof.
  unfold clamp, Math_min, Math_max.
  destruct (Qle_bool x 0) eqn:E0.
  - simpl. split; discriminate.
  - destruct (Qle_bool x 100) eqn:E1.
    + split; [| apply Qle_bool_iff; exact E1].
      apply Qlt_le_weak, Qnot_le_lt. intros Hle. apply Qle_bool_iff in Hle. congruence.
    + split; [discriminate | apply Qle_refl].
Qed.

End NumberFacts.

(** ** Threshold validation *)

Section ThresholdFacts.
Import Db.






(** The scenario of the specification: averages of 1985, 145, 71 and 248
    against targets of 2000, 150, 67 and 250. *)
Example deviations_of_the_scenario :
  (Validator.calculateDeviation 1985 2000 == -0.75)%Q
  ∧ (Validator.calculateDeviation 145 150 == -(10 # 3))%Q
  ∧ (Validator.calculateDeviation 71 67 == 400 # 67)%Q
  ∧ (Validator.calculateDeviation 248 250 == -0.8)%Q
  ∧ Validator.withinThreshold
      {| Validator.calories_deviation := Validator.calculateDeviation 1985 2000;
         Validator.protein_deviation := Validator.calculateDeviation 145 150;
         Validator.fat_deviation := Validator.calculateDeviation 71 67;
         Validator.carbohydrates_deviation := Validator.calculateDeviation 248 250;
         Validator.fiber_deviation := None |} 15 = true.
Proof. repeat split; vm_compute; reflexivity. Qed.

End ThresholdFacts.

(** ** Nutrient resolution *)

Section ResolutionFacts.
Import Db.

Lemma isReliableNutrition_reliable (info : NutritionInfo) :
  Validator.isReliableNutrition info = true <-> reliable info.
Proof.
  unfold Validator.isReliableNutrition, reliable.
  rewrite !andb_true_iff, gtb_true, !geb_true. tauto.
Qed.

Lemma mainIngredients_named (ings : list Ingredient) :
  Forall (fun ing => is_Some (name ing) ∧ is_Some (unit ing)) ings ->
  ∃ main, Validator.mainIngredients ings = Normal main
          ∧ Forall (fun ing => is_Some (unit ing)) main.
Proof.
  induction 1 as [|ing rest [[n Hn] Hu] _ (main & E & Hmain)]; simpl.
  - exists []. split; [reflexivity | constructor].
  - rewrite Hn, E.
    destruct (gtb (amount ing) 0); simpl.
    + destruct (negb (Validator.isMinorIngredient n)); eexists; (split; [reflexivity |]);
        [constructor; assumption | assumption].
    + eexists. split; [reflexivity | assumption].
Qed.

Lemma sumIngredients_with_units (lookupUSDANutrition : string -> option USDAData)
    (main : list Ingredient) (acc : Validator.NutritionData) :
  Forall (fun ing => is_Some (unit ing)) main ->
  ∃ total, Validator.sumIngredients lookupUSDANutrition main acc = Normal total.
Proof.
  intros H. revert acc. induction H as [|ing rest [u Hu] _ IH]; intros acc; simpl.
  - eexists. reflexivity.
  - destruct (name ing ≫= lookupUSDANutrition) as [usdaData|]; [| apply IH].
    rewrite Hu. simpl.
    destruct (gtb (Validator.convertToGrams (amount ing) u) 0); apply IH.
Qed.

(** What [calculateMealNutrition] resolves from is the declared data or what
    the ingredient branch gives. *)
Lemma resolveNutrition_cases (lookupUSDANutrition : string -> option USDAData)
    (recipe : Recipe) (useUSDAFallback : bool) :
  (¬ declaredReliable recipe ∧
   Validator.resolveNutrition lookupUSDANutrition recipe useUSDAFallback
   = Validator.fromIngredients lookupUSDANutrition recipe useUSDAFallback)
  ∨ (∃ info, nutrition_info recipe = Some info ∧ reliable info ∧
      Validator.resolveNutrition lookupUSDANutrition recipe useUSDAFallback
      = Some (Validator.declaredNutrition info, Validator.spoonacular)).
Proof.
  unfold Validator.resolveNutrition, declaredReliable.
  destruct (nutrition_info recipe) as [info|] eqn:Einfo.
  - destruct (Validator.isReliableNutrition info) eqn:Erel.
    + right. exists info. rewrite isReliableNutrition_reliable in Erel. auto.
    + left. split; [| reflexivity]. intros (info' & Heq & Hrel).
      injection Heq as <-. apply isReliableNutrition_reliable in Hrel. congruence.
  - left. split; [| reflexivity]. intros (info' & Heq & _). discriminate.
Qed.

Lemma fromIngredients_not_declared (lookupUSDANutrition : string -> option USDAData)
    (recipe : Recipe) (useUSDAFallback : bool) :
  snd <$> Validator.fromIngredients lookupUSDANutrition recipe useUSDAFallback
  ≠ Some Validator.spoonacular.
Proof.
  unfold Validator.fromIngredients.
  destruct useUSDAFallback, (ingredients recipe) as [ings|]; simpl; try discriminate.
  destruct (Validator.calculateFromUSDA lookupUSDANutrition ings); discriminate.
Qed.

(** C6, as amended. In the validator, for every recipe the query returns, the
    declared nutrition data is used if and only if it is present and reliable
    (calories > 0, protein, fat and carbohydrates >= 0).  Otherwise, when
    [use_usda_fallback] is on and the recipe has an ingredient list, the
    per-ingredient computation is used, and the keyword estimate exactly
    when that computation fails, which it does not when every ingredient has
    a name and a unit; when the fallback is off or there is no ingredient
    list, nothing is resolved. *)
Theorem nutrient_resolution_order (recipes : string -> option Recipe)
    (lookupUSDANutrition : string -> option USDAData)
    (recipeId : string) (requested : Q) (useUSDAFallback : bool) (recipe : Recipe) :
  recipes recipeId = Some recipe ->
  let result :=
    Validator.calculateMealNutrition recipes lookupUSDANutrition recipeId requested
      useUSDAFallback in
  (declaredReliable recipe <->
     Validator.calculation_method <$> result = Some Validator.spoonacular)
  ∧ (∀ ings, ¬ declaredReliable recipe -> useUSDAFallback = true ->
       ingredients recipe = Some ings ->
       Validator.calculation_method <$> result
       = Some (match Validator.calculateFromUSDA lookupUSDANutrition ings with
               | Some _ => Validator.usda_calculated
               | None => Validator.estimated
               end))
  ∧ (¬ declaredReliable recipe ->
       useUSDAFallback = false ∨ ingredients recipe = None -> result = None)
  ∧ (∀ ings, Forall (fun ing => is_Some (name ing) ∧ is_Some (unit ing)) ings ->
       is_Some (Validator.calculateFromUSDA lookupUSDANutrition ings)).
Proof.
  intros Hrow result. subst result.
  unfold Validator.calculateMealNutrition. rewrite Hrow.
  pose proof (fromIngredients_not_declared lookupUSDANutrition recipe useUSDAFallback)
    as Hfallback.
  destruct (resolveNutrition_cases lookupUSDANutrition recipe useUSDAFallback)
    as [[Hno E]|(info & Einfo & Hrel & E)]; rewrite E.
  - split.
    { split; [intros H; contradiction |].
      intros H. exfalso. apply Hfallback.
      destruct (Validator.fromIngredients lookupUSDANutrition recipe useUSDAFallback)
        as [[n m]|]; simpl in *; [exact H | discriminate]. }
    split.
    { intros ings _ -> Hings. unfold Validator.fromIngredients. rewrite Hings.
      destruct (Validator.calculateFromUSDA lookupUSDANutrition ings); reflexivity. }
    split.
    { intros _ Hoff. unfold Validator.fromIngredients.
      destruct Hoff as [-> | ->]; [reflexivity |].
      destruct useUSDAFallback; reflexivity. }
    intros ings Hall.
    destruct (mainIngredients_named ings Hall) as (main & Emain & Hunits).
    destruct (sumIngredients_with_units lookupUSDANutrition main Validator.no_nutrition Hunits)
      as (total & Etotal).
    unfold Validator.calculateFromUSDA. rewrite Emain. simpl. rewrite Etotal. eauto.
  - assert (Hdecl : declaredReliable recipe) by (exists info; auto).
    split; [split; [reflexivity | intros _; exact Hdecl] |].
    split; [intros ings Hno; contradiction |].
    split; [intros Hno; contradiction |].
    intros ings Hall.
    destruct (mainIngredients_named ings Hall) as (main & Emain & Hunits).
    destruct (sumIngredients_with_units lookupUSDANutrition main Validator.no_nutrition Hunits)
      as (total & Etotal).
    unfold Validator.calculateFromUSDA. rewrite Emain. simpl. rewrite Etotal. eauto.
Qed.

(** The sample recipe declares reliable data, and that data is used. *)
Lemma nutrient_resolution_order_witness :
  Validator.calculation_method
    <$> Validator.calculateMealNutrition sampleRecipes sampleUSDA "r1" 2 true
  = Some Validator.spoonacular.
Proof.
  apply (proj1 (nutrient_resolution_order sampleRecipes sampleUSDA "r1" 2 true sampleRow
                  eq_refl)).
  eexists. split; [reflexivity |].
  repeat split; vm_compute; (reflexivity || discriminate).
Defined.

(** C6 as stated fails: with [use_usda_fallback] off, a recipe without
    declared data is resolved by no tier at all, although it has ingredients
    the composition table knows. *)
Lemma no_fallback_no_nutrition :
  ¬ declaredReliable undeclaredRow
  ∧ sampleRecipes "r3" = Some undeclaredRow
  ∧ Validator.calculateMealNutrition sampleRecipes sampleUSDA "r3" 1 false = None
  ∧ Validator.calculation_method
      <$> Validator.calculateMealNutrition sampleRecipes sampleUSDA "r3" 1 true
    = Some Validator.usda_calculated.
Proof.
  split; [intros (info & Hinfo & _); discriminate |].
  repeat split; vm_compute; reflexivity.
Qed.

(** The keyword estimate is reached when the ingredient computation throws:
    here the unit of an ingredient is missing. *)
Example estimate_after_failed_computation :
  Validator.calculateFromUSDA sampleUSDA
    [{| name := Some "beef"; amount := 2; unit := None |}] = None
  ∧ Validator.calculation_method
      <$> Validator.calculateMealNutrition sampleRecipes sampleUSDA "r4" 4 true
    = Some Validator.estimated
  ∧ Validator.calories ∘ Validator.nutrition
      <$> Validator.calculateMealNutrition sampleRecipes sampleUSDA "r4" 4 true
    = Some 350%Q.
Proof. repeat split; vm_compute; reflexivity. Qed.

End ResolutionFacts.

(** ** Servings *)

Section ServingFacts.
Import Db.

Lemma servingDivisor_of_zero (recipe : Recipe) :
  zeroServings recipe -> Validator.servingDivisor recipe = 1%Q.
Proof.
  unfold zeroServings, Validator.servingDivisor.
  destruct (servings recipe) as [s|]; simpl; [apply num_or_zero | reflexivity].
Qed.

(** C7, as amended. The divisor [recipe.servings || 1] of the serving
    multiplier is never zero, in the validator and in the council.  Declared
    servings of 0, or none, are treated as 1: the multiplier is the requested
    serving count and the validator returns the resolved nutrition scaled by
    it.  Any other declared value, a negative one included, is the divisor as
    it is. *)
Theorem serving_divisor_never_zero (recipe : Recipe) (requested : Q)
    (meal : Plan.MealSlot) :
  ¬ (Validator.servingDivisor recipe == 0)%Q
  ∧ (zeroServings recipe ->
       Validator.servingDivisor recipe = 1%Q
       ∧ (Validator.servingMultiplier requested recipe == requested)%Q
       ∧ (Council.servingMultiplier meal recipe == opt_num_or (Plan.servings meal) 1)%Q)
  ∧ (∀ s, servings recipe = Some s -> ¬ (s == 0)%Q ->
       Validator.servingDivisor recipe = s
       ∧ Council.servingMultiplier meal recipe
         = (opt_num_or (Plan.servings meal) 1 / s)%Q)
  ∧ (∀ recipes lookupUSDANutrition recipeId useUSDAFallback n m,
       recipes recipeId = Some recipe -> zeroServings recipe ->
       Validator.resolveNutrition lookupUSDANutrition recipe useUSDAFallback = Some (n, m) ->
       Validator.calculateMealNutrition recipes lookupUSDANutrition recipeId requested
         useUSDAFallback
       = Some {| Validator.mn_recipe_id := recipeId;
                 Validator.mn_recipe_title := title recipe;
                 Validator.nutrition := Validator.scaleNutrition n (requested / 1);
                 Validator.calculation_method := m |}).
Proof.
  assert (Hone : ¬ (1 == 0)%Q) by discriminate.
  pose proof (servingDivisor_of_zero recipe) as Hzero.
  split; [apply opt_num_or_nonzero; exact Hone |].
  split.
  { intros Hz. split; [exact (Hzero Hz) |]. split.
    - unfold Validator.servingMultiplier. rewrite (Hzero Hz). field.
    - unfold Council.servingMultiplier. fold (Validator.servingDivisor recipe).
      rewrite (Hzero Hz). field. }
  split.
  { intros s Hs Hne. unfold Council.servingMultiplier, Validator.servingDivisor.
    rewrite Hs. simpl. rewrite (num_or_keep s 1 Hne). split; reflexivity. }
  intros recipes lookupUSDANutrition recipeId useUSDAFallback n m Hrow Hz Hres.
  unfold Validator.calculateMealNutrition. rewrite Hrow, Hres.
  unfold Validator.servingMultiplier. rewrite (Hzero Hz). reflexivity.
Qed.

(** Zero declared servings and two requested: the multiplier is 2. *)
Lemma serving_divisor_never_zero_witness :
  (Validator.servingMultiplier 2 zeroServingsRow == 2)%Q.
Proof.
  apply (proj1 (proj2 (serving_divisor_never_zero zeroServingsRow 2 (sampleSlot "lunch")))).
  vm_compute. reflexivity.
Defined.

(** C7 as stated fails for negative servings: declared servings of -2 are
    not treated as 1; with 2 requested the multiplier is -1 and the calories
    returned are negative. *)
Lemma negative_servings_kept :
  servings negativeServingsRow = Some (-2)%Q
  ∧ ¬ (Validator.servingMultiplier 2 negativeServingsRow == 2 / 1)%Q
  ∧ (Validator.servingMultiplier 2 negativeServingsRow == -1)%Q
  ∧ Validator.calories ∘ Validator.nutrition
      <$> Validator.calculateMealNutrition sampleRecipes sampleUSDA "r2" 2 true
    = Some (-667)%Q.
Proof.
  split; [reflexivity |]. split; [vm_compute; discriminate |].
  split; vm_compute; reflexivity.
Qed.

End ServingFacts.

(** ** Units *)

Section UnitFacts.





End UnitFacts.

(** ** Final score *)

Section ScoreFacts.
Import Selector.

Lemma favoriteLoop_filter (ratings : list Blueprint.RecentRating) (r : Recipe) :
  favoriteLoop (filter (fun x => Blueprint.rating x = "love") ratings) r
  = if existsb (fun x => bool_decide (Blueprint.rating x = "love")
                         && String.eqb (Blueprint.rated_recipe_id x) (id r)) ratings
    then 1.3%Q else 1.0%Q.
Proof.
  induction ratings as [|x rest IH]; [reflexivity |].
  rewrite filter_cons. cbn [existsb].
  destruct (decide (Blueprint.rating x = "love")) as [Hlove|Hnot].
  - rewrite (bool_decide_eq_true_2 _ Hlove). cbn [favoriteLoop andb orb].
    destruct (String.eqb (Blueprint.rated_recipe_id x) (id r)); [reflexivity | exact IH].
  - rewrite (bool_decide_eq_false_2 _ Hnot). cbn [andb orb]. exact IH.
Qed.

Lemma swapLoop_existsb (swaps : list Blueprint.RecentSwap) (r : Recipe) :
  swapLoop swaps r
  = if existsb (fun s => String.eqb (Blueprint.original_recipe_id s) (id r)) swaps
    then 0.7%Q else 1.0%Q.
Proof.
  induction swaps as [|s rest IH]; [reflexivity |]. cbn [swapLoop existsb].
  destruct (String.eqb (Blueprint.original_recipe_id s) (id r)); [reflexivity | exact IH].
Qed.

(** C3. For every scored candidate, the final score is 0.3 * base_score +
    0.4 * ai_personalization_score, times 1.3 when the recipe is rated
    'love' in the recent ratings, times 1.1 when the recipe is premium and the
    user has premium access, times 0.7 when the recipe is the original recipe
    of a recent swap, clamped to the range from 0 to 100. *)
Theorem final_score_formula (candidate : RecipeCandidate)
    (blueprint : Blueprint.UserBlueprint) (preferences : Blueprint.GenerationPreferences) :
  let weighted :=
    (0.3 * base_score candidate + 0.4 * ai_personalization_score candidate)%Q in
  let favorite := if lovedRecently blueprint (recipe candidate) then 1.3%Q else 1%Q in
  let premium :=
    if is_premium (recipe candidate) && Blueprint.access_to_premium_content blueprint
    then 1.1%Q else 1%Q in
  let swap := if swappedAway blueprint (recipe candidate) then 0.7%Q else 1%Q in
  let final :=
    calculateFinalScore candidate (buildScoringCriteria blueprint preferences) blueprint in
  (final == clamp (weighted * favorite * premium * swap))%Q
  ∧ (0 <= final)%Q ∧ (final <= 100)%Q.
Proof.
  unfold calculateFinalScore. cbv zeta.
  match goal with
  | |- (Math_min (Math_max ?s 0) 100 == _)%Q ∧ _ =>
      change (Math_min (Math_max s 0) 100) with (clamp s); set (score := s)
  end.
  split; [| apply clamp_range].
  apply clamp_compat. subst score.
  unfold getRecentFavoriteBonus, getSwapPenalty, lovedRecently, swappedAway.
  rewrite swapLoop_existsb.
  assert (Hfav :
    favoriteLoop
      match Blueprint.recent_ratings blueprint with
      | Some ratings => filter (fun r => Blueprint.rating r = "love") ratings
      | None => []
      end (recipe candidate)
    = if existsb (fun x => bool_decide (Blueprint.rating x = "love")
                           && String.eqb (Blueprint.rated_recipe_id x) (id (recipe candidate)))
           (default [] (Blueprint.recent_ratings blueprint))
      then 1.3%Q else 1.0%Q).
  { destruct (Blueprint.recent_ratings blueprint) as [ratings|]; [| reflexivity].
    apply favoriteLoop_filter. }
  rewrite Hfav. clear Hfav.
  cbn [buildScoringCriteria premium_bonus].
  destruct (existsb _ (default [] (Blueprint.recent_ratings blueprint)));
    destruct (existsb _ (default [] (Blueprint.recent_swaps blueprint)));
    destruct (is_premium (recipe candidate));
    destruct (Blueprint.access_to_premium_content blueprint);
    cbn [andb]; ring.
Qed.

(** A loved premium recipe that was swapped away, for a premium user. *)
Example final_score_of_a_favorite :
  (calculateFinalScore
     {| recipe := {| id := "r9"; cuisine_type := Some "thai"; meal_type := ["dinner"];
                     difficulty_level := None; is_premium := true; rating_average := 4 |};
        base_score := 80; ai_personalization_score := 90; final_score := 0;
        match_reasons := []; penalty_reasons := [] |}
     (buildScoringCriteria
        {| Blueprint.profile_id := "u"; Blueprint.intake_id := "i";
           Blueprint.cultural_preferences := None;
           Blueprint.cooking_time_preference := None;
           Blueprint.access_to_premium_content := true;
           Blueprint.nutritional_targets := None;
           Blueprint.recent_ratings :=
             Some [{| Blueprint.rated_recipe_id := "r9"; Blueprint.rating := "love" |}];
           Blueprint.recent_swaps :=
             Some [{| Blueprint.original_recipe_id := "r9";
                      Blueprint.replacement_recipe_id := "r2" |}] |}
        samplePreferences)
     {| Blueprint.profile_id := "u"; Blueprint.intake_id := "i";
        Blueprint.cultural_preferences := None;
        Blueprint.cooking_time_preference := None;
        Blueprint.access_to_premium_content := true;
        Blueprint.nutritional_targets := None;
        Blueprint.recent_ratings :=
          Some [{| Blueprint.rated_recipe_id := "r9"; Blueprint.rating := "love" |}];
        Blueprint.recent_swaps :=
          Some [{| Blueprint.original_recipe_id := "r9";
                   Blueprint.replacement_recipe_id := "r2" |}] |}
   == 60.06)%Q.
Proof. vm_compute. reflexivity. Qed.

End ScoreFacts.

(** ** Diversity-constrained selection *)

Section DiversityFacts.
Import Selector.

Lemma count_of_increment (counter : gmap string nat) (key k : string) :
  count_of (increment counter key) k
  = (count_of counter k + if decide (key = k) then 1 else 0)%nat.
Proof.
  unfold increment, count_of.
  destruct (decide (key = k)) as [->|Hne].
  - rewrite lookup_insert_eq. reflexivity.
  - rewrite lookup_insert_ne by exact Hne. simpl. lia.
Qed.

Lemma count_of_foldl_increment (l : list string) (counter : gmap string nat) (k : string) :
  count_of (foldl increment counter l) k = (count_of counter k + occurrences k l)%nat.
Proof.
  revert counter. induction l as [|x l IH]; intros counter; simpl.
  - unfold occurrences. simpl. lia.
  - rewrite IH, count_of_increment. unfold occurrences.
    rewrite filter_cons. destruct (decide (x = k)); simpl; lia.
Qed.

Lemma cuisineUses_snoc accepted c cuisine :
  cuisineUses (accepted ++ [c]) cuisine
  = (cuisineUses accepted cuisine
     + if decide (present (cuisine_type (recipe c)) = Some cuisine) then 1 else 0)%nat.
Proof. unfold cuisineUses. rewrite sum_list_with_app. simpl. lia. Qed.

Lemma mealTypeUses_snoc accepted c mealType :
  mealTypeUses (accepted ++ [c]) mealType
  = (mealTypeUses accepted mealType + occurrences mealType (meal_type (recipe c)))%nat.
Proof. unfold mealTypeUses. rewrite sum_list_with_app. simpl. lia. Qed.

Lemma countersAgree_start : countersAgree noneSelected.
Proof. split; intros; reflexivity. Qed.

Lemma countersAgree_accept st c : countersAgree st -> countersAgree (accept st c).
Proof.
  intros [Hc Hm]. split; intros k; unfold accept; cbn [selected cuisineCount mealTypeCount].
  - rewrite cuisineUses_snoc.
    destruct (present (cuisine_type (recipe c))) as [cuisine|] eqn:E.
    + rewrite count_of_increment, Hc.
      destruct (decide (cuisine = k)), (decide (Some cuisine = Some k)); congruence.
    + rewrite Hc. destruct (decide (None = Some k)); [congruence | lia].
  - rewrite mealTypeUses_snoc, count_of_foldl_increment, Hm. reflexivity.
Qed.


Lemma skipForDiversity_true st c :
  countersAgree st -> skipForDiversity st (recipe c) = true -> ¬ withinCaps (selected st) c.
Proof.
  intros [Hc Hm] Hskip [Wc Wm]. unfold skipForDiversity in Hskip.
  apply orb_true_iff in Hskip as [Hcu|Hmt].
  - destruct (present (cuisine_type (recipe c))) as [cuisine|] eqn:E; [|discriminate].
    apply Nat.leb_le in Hcu. rewrite Hc in Hcu. specialize (Wc cuisine eq_refl). lia.
  - apply existsb_exists in Hmt as (mealType & Hin & Hle).
    apply Nat.leb_le in Hle. rewrite Hm in Hle.
    apply list_elem_of_In in Hin. specialize (Wm mealType Hin). lia.
Qed.



Lemma selectLoop_extends candidates st :
  ∃ more, selected (selectLoop candidates st) = selected st ++ more
          ∧ (length more <= length candidates)%nat.
Proof.
  revert st. induction candidates as [|c rest IH]; intros st; cbn [selectLoop].
  - exists []. rewrite app_nil_r. split; [reflexivity | simpl; lia].
  - destruct (targetCount <=? length (selected st))%nat.
    { exists []. rewrite app_nil_r. split; [reflexivity | simpl; lia]. }
    destruct (skipForDiversity st (recipe c) && (15 <? length (selected st))%nat).
    + destruct (IH st) as (more & E & L). exists more. split; [exact E | simpl; lia].
    + destruct (IH (accept st c)) as (more & E & L). exists (c :: more).
      split; [| simpl; lia].
      rewrite E. unfold accept. cbn [selected]. rewrite <- app_assoc. reflexivity.
Qed.

Lemma selectLoop_early candidates st :
  (length (selected st) <= 16)%nat ->
  take 16 (selected (selectLoop candidates st)) = take 16 (selected st ++ candidates).
Proof.
  revert st. induction candidates as [|c rest IH]; intros st Hlen; cbn [selectLoop].
  - rewrite app_nil_r. reflexivity.
  - assert (Hbreak : (targetCount <=? length (selected st))%nat = false).
    { apply Nat.leb_gt. unfold targetCount. lia. }
    rewrite Hbreak.
    destruct (decide (length (selected st) = 16%nat)) as [Hfull|Hroom].
    + assert (Hfixed : ∀ st', (∃ more, selected st' = selected st ++ more) ->
                take 16 (selected st') = take 16 (selected st ++ c :: rest)).
      { intros st' (more & ->). rewrite !take_app_le by lia. reflexivity. }
      apply Hfixed.
      destruct (skipForDiversity st (recipe c) && (15 <? length (selected st))%nat).
      * destruct (selectLoop_extends rest st) as (more & E & _). eauto.
      * destruct (selectLoop_extends rest (accept st c)) as (more & E & _).
        exists (c :: more). rewrite E. unfold accept. cbn [selected].
        rewrite <- app_assoc. reflexivity.
    + assert (Hfew : (15 <? length (selected st))%nat = false) by (apply Nat.ltb_ge; lia).
      rewrite Hfew, andb_false_r.
      rewrite IH.
      * unfold accept. cbn [selected]. rewrite <- app_assoc. reflexivity.
      * unfold accept. cbn [selected]. rewrite length_app. simpl. lia.
Qed.

Lemma selectLoop_bounded candidates st :
  (length (selected st) <= targetCount)%nat ->
  (length (selected (selectLoop candidates st)) <= targetCount)%nat.
Proof.
  revert st. induction candidates as [|c rest IH]; intros st Hlen; cbn [selectLoop].
  - exact Hlen.
  - destruct (targetCount <=? length (selected st))%nat eqn:Hbreak; [exact Hlen |].
    apply Nat.leb_gt in Hbreak.
    destruct (skipForDiversity st (recipe c) && (15 <? length (selected st))%nat).
    + apply IH. exact Hlen.
    + apply IH. unfold accept. cbn [selected]. rewrite length_app. simpl. lia.
Qed.
Lemma selectDiverseSet_small candidates blueprint :
  (length candidates <= 16)%nat -> selectDiverseSet candidates blueprint = candidates.
Proof.
  intros Hlen. unfold selectDiverseSet. fold noneSelected.
  pose proof (selectLoop_early candidates noneSelected) as Hearly.
  destruct (selectLoop_extends candidates noneSelected) as (more & E & Hmore).
  cbn [selected noneSelected app] in *.
  rewrite <- (take_ge (selected (selectLoop candidates noneSelected)) 16) by (rewrite E; lia).
  rewrite Hearly by (simpl; lia). apply take_ge. lia.
Qed.




End DiversityFacts.

(** ** Partial scorer output *)

Section PartialScoreFacts.
Import Selector.

Lemma insertByScore_Permutation c sorted : insertByScore c sorted ≡ₚ c :: sorted.
Proof.
  induction sorted as [|x rest IH]; [reflexivity |]. cbn [insertByScore].
  destruct (Qle_bool (final_score x - final_score c) 0); [reflexivity |].
  rewrite IH. apply Permutation_swap.
Qed.

Lemma sortByScore_Permutation l : sortByScore l ≡ₚ l.
Proof.
  induction l as [|c rest IH]; [reflexivity |]. unfold sortByScore in *. cbn [foldr].
  rewrite insertByScore_Permutation, IH. reflexivity.
Qed.

(** C5, as amended. For every recipe of the working set for which the
    scorer's [recipe_scores] has no entry, scoring succeeds and makes for it a
    candidate with base score 50, personalization score 50 and the penalty
    reason 'No AI score available', and candidate selection succeeds.  The
    recipe then competes in the ranking with the final score computed from
    these; it is among the selected candidates whenever the working set has
    at most 16 recipes. *)
Theorem missing_score_defaults (working : list Recipe) (scores : gmap string ScoreData)
    (usage : option Usage) (blueprint : Blueprint.UserBlueprint)
    (preferences : Blueprint.GenerationPreferences) (x : Recipe) :
  x ∈ working -> scores !! id x = None ->
  let reply := {| scoring_text := ScoringObject (Some scores); scoring_usage := usage |} in
  let scoring := performAIScoring (Normal reply) working in
  let result := selectCandidates (Normal working) (Normal reply) blueprint preferences in
  scoring_success scoring = true
  ∧ (∃ scored, scoredCandidates scoring = Some scored ∧ unscored x ∈ scored)
  ∧ success result = true
  ∧ ((length working <= 16)%nat ->
       ∃ final c, candidates result = Some final ∧ c ∈ final
                  ∧ recipe c = x ∧ base_score c = 50%Q ∧ ai_personalization_score c = 50%Q
                  ∧ penalty_reasons c = ["No AI score available"]
                  ∧ final_score c
                    = calculateFinalScore (unscored x)
                        (buildScoringCriteria blueprint preferences) blueprint).
Proof.
  intros Hin Hnone. cbn zeta.
  assert (Hscored : unscored x ∈ map (scoreRecipe scores) working).
  { apply list_elem_of_fmap. exists x. split; [| exact Hin].
    unfold scoreRecipe. rewrite Hnone. reflexivity. }
  split; [reflexivity |].
  split; [eexists; split; [reflexivity | exact Hscored] |].
  destruct working as [|w rest]; [inversion Hin |].
  cbn [selectCandidates performAIScoring parseAIScoringResponse scoring_text parse_success
       scoring_success negb success candidates scoredCandidates parsed_candidates default].
  split; [reflexivity |].
  intros Hlen. unfold Datatypes.id.
  set (criteria := buildScoringCriteria blueprint preferences).
  unfold rankAndSelectFinalCandidates. fold criteria.
  rewrite selectDiverseSet_small.
  2:{ rewrite (Permutation_length (sortByScore_Permutation _)), !List.length_map. exact Hlen. }
  eexists. exists (withFinalScore criteria blueprint (unscored x)).
  split; [reflexivity |].
  split.
  { rewrite sortByScore_Permutation. apply list_elem_of_fmap. eauto. }
  repeat split; reflexivity.
Qed.

(** The scorer knows one of two recipes; the other is selected with the
    defaults. *)
Lemma missing_score_defaults_witness :
  ∃ final c,
    candidates (selectCandidates (Normal smallWorkingSet) partialReply sampleBlueprint
                  samplePreferences) = Some final
    ∧ c ∈ final ∧ recipe c = cuisineRecipe "x1" "thai"
    ∧ ai_personalization_score c = 50%Q.
Proof.
  destruct (missing_score_defaults smallWorkingSet thirtyScores
              (Some {| input_tokens := 3000; output_tokens := 900 |})
              sampleBlueprint samplePreferences (cuisineRecipe "x1" "thai"))
    as (_ & _ & _ & Hfinal).
  - apply list_elem_of_In. simpl. tauto.
  - vm_compute. reflexivity.
  - destruct Hfinal as (final & c & Hres & Hin & Hrecipe & _ & Hscore & _).
    + simpl. lia.
    + exists final, c. auto.
Defined.

(** C5 as stated fails on inclusion: of a working set of 31 recipes the
    scorer has no entry for one; selection succeeds, returns the 30 scored
    recipes and leaves that one out. *)
Lemma unscored_recipe_dropped :
  plainRecipe "r31" ∈ crowdedWorkingSet
  ∧ thirtyScores !! id (plainRecipe "r31") = None
  ∧ success (selectCandidates (Normal crowdedWorkingSet) partialReply sampleBlueprint
               samplePreferences) = true
  ∧ ∃ final,
      candidates (selectCandidates (Normal crowdedWorkingSet) partialReply sampleBlueprint
                    samplePreferences) = Some final
      ∧ length final = 30%nat
      ∧ existsb (fun c => String.eqb (id (recipe c)) "r31") final = false.
Proof.
  split; [apply list_elem_of_In; vm_compute; tauto |].
  split; [vm_compute; reflexivity |].
  split; [vm_compute; reflexivity |].
  eexists. split; [vm_compute; reflexivity |].
  split; vm_compute; reflexivity.
Qed.

End PartialScoreFacts.

(** ** Coherence review *)

Section CoherenceFacts.
Import Council.

Lemma noRating_defaults (response : JsonExtract) :
  noRating response -> review_rating (parseCoherenceResponse response) = JNum 0.
Proof.
  destruct response as [| m | parsed]; simpl; [reflexivity | reflexivity |].
  intros H. unfold js_or. rewrite H. reflexivity.
Qed.

Lemma pass_accepts_iff nutritionResult reply currentPlan last tally :
  (∃ result, validationPass nutritionResult reply currentPlan last tally = PassReturns result)
  <-> is_valid nutritionResult = true
      ∧ ∃ data, reply = Normal data
                ∧ js_geb (review_rating (parseCoherenceResponse (text data))) 7 = true.
Proof.
  unfold validationPass. destruct (is_valid nutritionResult).
  - destruct reply as [data|e]; cbn [validateCoherence coherence_success coherence_rating andb].
    + destruct (js_geb (review_rating (parseCoherenceResponse (text data))) 7) eqn:E.
      * split; [intros _; split; [reflexivity | eauto] | intros _; eauto].
      * split; [intros [r Hr]; discriminate |].
        intros [_ (data' & Heq & Hge)]. injection Heq as <-. congruence.
    + split; [intros [r Hr]; discriminate | intros [_ (data' & Heq & _)]; discriminate].
  - cbn. split; [intros [r Hr]; discriminate | intros [H _]; discriminate].
Qed.

(** C10, as amended. For every review reply that holds no JSON object, or
    one that does not parse, or one whose [rating] is missing or falsy (null,
    0, false, the empty text), the parsed rating is 0, and a validation pass
    with that reply does not accept the plan.  A pass accepts exactly when the
    nutrition check is valid, the review call returned, and [rating >= 7]
    holds for the parsed rating as JavaScript compares it. *)
Theorem unrated_review_never_accepted (response : JsonExtract) :
  noRating response ->
  review_rating (parseCoherenceResponse response) = JNum 0
  ∧ (∀ nutritionResult usage currentPlan lastValidationResult tally,
       ∃ plan' last' tally',
         validationPass nutritionResult (Normal {| text := response; usage := usage |})
           currentPlan lastValidationResult tally
         = PassContinues plan' last' tally')
  ∧ (∀ nutritionResult reply currentPlan lastValidationResult tally,
       (∃ result, validationPass nutritionResult reply currentPlan lastValidationResult tally
                  = PassReturns result)
       <-> is_valid nutritionResult = true
           ∧ ∃ data, reply = Normal data
                     ∧ js_geb (review_rating (parseCoherenceResponse (text data))) 7 = true).
Proof.
  intros Hno. split; [apply noRating_defaults; exact Hno |].
  split; [| intros; apply pass_accepts_iff].
  intros nutritionResult usage currentPlan lastValidationResult tally.
  unfold validationPass.
  destruct (is_valid nutritionResult); [| cbn; eauto].
  cbn [validateCoherence text coherence_success coherence_rating andb].
  rewrite (noRating_defaults response Hno).
  cbn. eauto.
Qed.

(** A reply with feedback and no rating is rated 0. *)
Lemma unrated_review_never_accepted_witness :
  review_rating (parseCoherenceResponse unratedReply) = JNum 0.
Proof.
  apply (proj1 (unrated_review_never_accepted unratedReply eq_refl)).
Defined.

(** C10 as stated fails: a reply whose rating is the text "8" has no numeric
    rating, yet the parsed rating is that text and not 0, and the pass accepts
    the plan, ["8" >= 7] being true. *)
Lemma string_rating_accepted :
  ¬ numericRating stringRatedReply
  ∧ review_rating (parseCoherenceResponse stringRatedReply) = JStr "8"
  ∧ ∃ result,
      validationPass
        (validateNutrition councilRecipes sampleUSDA samplePlan sampleBlueprint)
        (Normal {| text := stringRatedReply; usage := None |})
        samplePlan None noTally
      = PassReturns result
      ∧ success result = true ∧ meal_plan result = Some samplePlan.
Proof.
  split.
  { intros (parsed & q & Heq & Hrating). injection Heq as <-. discriminate Hrating. }
  split; [reflexivity |].
  eexists. split; [vm_compute; reflexivity |]. split; reflexivity.
Qed.

(** With every review rated 5 the council gives up after three passes. *)
Example low_rating_fails_validation :
  success (validateAndRefine councilRecipes sampleUSDA (fun _ => lowRatedReply)
             sampleContext sampleAssembly) = false
  ∧ error (validateAndRefine councilRecipes sampleUSDA (fun _ => lowRatedReply)
             sampleContext sampleAssembly)
    = Some "Validation failed after 3 attempts. Last issue: Unknown validation error"
  ∧ claude_requests (validateAndRefine councilRecipes sampleUSDA (fun _ => lowRatedReply)
                       sampleContext sampleAssembly)
    = Some 4%Q.
Proof. repeat split; vm_compute; reflexivity. Qed.

End CoherenceFacts.

(** ** Fallback plan *)

Section FallbackFacts.




End FallbackFacts.

(** ** The retry loop *)

Section RetryFacts.
Import Generator.

Lemma retry_count_not_in_scope (retryCount : nat) :
  identifier (round_scope retryCount) "retry_count" = Throw (ReferenceError "retry_count")
  ∧ identifier (fallback_scope retryCount) "retry_count" = Throw (ReferenceError "retry_count")
  ∧ identifier (catch_scope retryCount) "retry_count" = Throw (ReferenceError "retry_count").
Proof. repeat split; reflexivity. Qed.

Lemma round_never_returns (sv : Services) (context : Blueprint.GenerationContext)
    (retryCount : nat) (totals : Totals) :
  ∃ lastError totals', round sv context retryCount totals = RoundFails lastError totals'.
Proof.
  unfold round.
  destruct (selectCandidates sv retryCount) as [candidatesResult|e]; [| eauto].
  destruct (negb (Selector.success candidatesResult)); [eauto |].
  destruct (validateAndRefine sv retryCount _) as [validationResult|e]; [| eauto].
  destruct (Council.success validationResult); [| eauto].
  destruct (enhancePlan sv retryCount _) as [enhancedResult|e]; [| eauto].
  destruct (saveMealPlan sv retryCount _) as [finalPlan|e]; [| eauto].
  rewrite (proj1 (retry_count_not_in_scope retryCount)). eauto.
Qed.

Lemma circuitBreaker_throws sv context retryCount lastError totals :
  circuitBreaker sv context retryCount lastError totals = Throw (ReferenceError "retry_count").
Proof.
  unfold circuitBreaker, completeFailure.
  destruct (generateFallbackPlan (fallbackQuery sv) context (uuidv4 sv)) as [plan|e]; reflexivity.
Qed.

Lemma retryLoop_unfold sv context retryCount lastError totals log :
  retryLoop sv context retryCount lastError totals log =
  if decide (retryCount < maxRetries)%nat then
    match round sv context retryCount totals with
    | RoundReturns result => (Normal result, log ++ [attempt_started (retryCount + 1)])
    | RoundFails lastError' totals' =>
        retryLoop sv context (S retryCount) (Some lastError') totals'
          (log ++ [attempt_started (retryCount + 1)])
    end
  else (circuitBreaker sv context retryCount lastError totals,
        log ++ [circuit_breaker_triggered]).
Proof.
  simp retryLoop. destruct (decide (retryCount < maxRetries)%nat); simpl.
  - destruct (round sv context retryCount totals); reflexivity.
  - reflexivity.
Qed.

(** Whatever the collaborators do, the three rounds are run, the fallback is
    attempted, and the call ends in the [ReferenceError]: each of the three
    [return]s names [retry_count], which nothing declares. *)
Lemma generation_always_throws sv context :
  generateMealPlanWithRetry sv context =
  (Throw (ReferenceError "retry_count"),
   [attempt_started 1; attempt_started 2; attempt_started 3; circuit_breaker_triggered]).
Proof.
  unfold generateMealPlanWithRetry.
  rewrite retryLoop_unfold. simpl.
  destruct (round_never_returns sv context 0 {| totalClaudeRequests := 0; totalTokensUsed := 0; totalCostCents := 0 |}) as (e1 & t1 & ->).
  rewrite retryLoop_unfold. simpl.
  destruct (round_never_returns sv context 1 t1) as (e2 & t2 & ->).
  rewrite retryLoop_unfold. simpl.
  destruct (round_never_returns sv context 2 t2) as (e3 & t3 & ->).
  rewrite retryLoop_unfold. simpl.
  rewrite circuitBreaker_throws. reflexivity.
Qed.

(** C1, evaluated where the specification expects the fallback result.
    Every round fails (each review rates the plan 5) and the fallback pool
    holds two recipes, so the fallback plan is generated; a result with
    [used_fallback = true] and [retry_count = 3] is expected.  The three
    rounds and the fallback attempt are logged, and the call throws
    [ReferenceError: retry_count is not defined]. *)
Theorem retry_count_reference_error :
  (∀ n candidates, ∃ v, validateAndRefine failingServices n candidates = Normal v
                        ∧ Council.success v = false)
  ∧ (∃ plan, generateFallbackPlan (fallbackQuery failingServices) sampleContext
               (uuidv4 failingServices) = Normal plan)
  ∧ generateMealPlanWithRetry failingServices sampleContext
    = (Throw (ReferenceError "retry_count"),
       [attempt_started 1; attempt_started 2; attempt_started 3;
        circuit_breaker_triggered]).
Proof.
  split.
  { intros n candidates. eexists. split; [reflexivity |]. vm_compute. reflexivity. }
  split.
  { eexists. vm_compute. reflexivity. }
  apply generation_always_throws.
Qed.

End RetryFacts.

(** * Further properties

    Properties of the code beyond those the specification states.  *)

(** ** The nutrition validator *)

Section DeviationFacts.

Lemma Qeq_bool_false_neq (x y : Q) : Qeq_bool x y = false -> ¬ (x == y)%Q.
Proof. intros H E. apply Qeq_bool_iff in E. congruence. Qed.

Lemma Qeq_bool_true_eq (x y : Q) : Qeq_bool x y = true -> (x == y)%Q.
Proof. apply Qeq_bool_iff. Qed.

Lemma calculateDeviation_nonzero (actual target : Q) :
  ¬ (target == 0)%Q ->
  Validator.calculateDeviation actual target = ((actual - target) / target * 100)%Q.
Proof.
  intros H. unfold Validator.calculateDeviation.
  destruct (Qeq_bool target 0) eqn:E; [|reflexivity].
  apply Qeq_bool_true_eq in E. contradiction.
Qed.

(** X1.  The deviation is the signed percentage by which [actual] misses a
    non-zero [target]: the target scaled by it gives [actual] back, it is
    zero exactly when they are equal, and for a positive target it has the
    sign of [actual - target].  For a zero target it is 0 whatever [actual]
    is.  The council computes the same function. *)
Theorem deviation_recovers_actual (actual target : Q) :
  ((target == 0)%Q -> Validator.calculateDeviation actual target = 0%Q)
  ∧ (¬ (target == 0)%Q ->
     (target * (1 + Validator.calculateDeviation actual target / 100) == actual)%Q
     ∧ ((Validator.calculateDeviation actual target == 0)%Q <-> (actual == target)%Q)
     ∧ ((0 < target)%Q ->
        ((0 < Validator.calculateDeviation actual target)%Q <-> (target < actual)%Q)))
  ∧ Council.calculateDeviation actual target = Validator.calculateDeviation actual target.
Proof.
  split; [|split].
  - intros H. unfold Validator.calculateDeviation.
    apply Qeq_bool_iff in H. now rewrite H.
  - intros H. rewrite (calculateDeviation_nonzero _ _ H). split; [|split].
    + field. exact H.
    + split; intros E.
      * assert (E2 : (actual - target == 0)%Q).
        { transitivity ((actual - target) / target * 100 * (target / 100))%Q.
          - field. exact H.
          - rewrite E. ring. }
        transitivity (actual - target + target)%Q; [ring|].
        rewrite E2. ring.
      * rewrite E. field. exact H.
    + intros Hpos. split; intros L.
      * assert (L' : (0 * (target / 100) < (actual - target) / target * 100 * (target / 100))%Q).
        { apply Qmult_lt_compat_r; [|exact L].
          apply Qlt_shift_div_l; [reflexivity|]. now rewrite Qmult_0_l. }
        assert (E : ((actual - target) / target * 100 * (target / 100) == actual - target)%Q)
          by (field; exact H).
        rewrite E, Qmult_0_l in L'.
        apply (Qplus_lt_l _ _ (- target)). rewrite Qplus_opp_r. exact L'.
      * assert (D : (0 < actual - target)%Q).
        { apply (Qplus_lt_l _ _ target). ring_simplify. exact L. }
        apply Qmult_lt_0_compat; [|reflexivity].
        apply Qlt_shift_div_l; [exact Hpos|]. now rewrite Qmult_0_l.
  - reflexivity.
Qed.

End DeviationFacts.

Section PlanFacts.
Import Db Validator.

Variable recipes : string -> option Recipe.
Variable lookupUSDANutrition : string -> option USDAData.
Variable options : Options.


Lemma processMeals_progress (ms : list Meal) (st : Progress) (db : DailyBreakdown) :
  let st' := (processMeals recipes lookupUSDANutrition options ms st db).1 in
  totalNutrition st' = foldl add_nutrition (totalNutrition st) ((resolvedNutrition recipes lookupUSDANutrition options) ms)
  ∧ missingData st' = missingData st ++ map (fun r => "Recipe " +:+ r) ((unresolvedRecipes recipes lookupUSDANutrition options) ms)
  ∧ pending_suggestions st' =
      pending_suggestions st ++
      (if require_all_recipes options
       then map MissingNutritionData ((unresolvedRecipes recipes lookupUSDANutrition options) ms) else []).
Proof.
  revert st db. induction ms as [|meal rest IH]; intros st db; cbn.
  - rewrite !app_nil_r. destruct (require_all_recipes options); now rewrite ?app_nil_r.
  - unfold resolvedNutrition, unresolvedRecipes, mealResolution in *. cbn.
    destruct (calculateMealNutrition recipes lookupUSDANutrition (recipe_id meal)
                (opt_num_or (meal_servings meal) 1) (use_usda_fallback options))
      as [mn|] eqn:E; cbn.
    + destruct (IH {| totalNutrition := add_nutrition (totalNutrition st) (nutrition mn);
                      missingData := missingData st;
                      pending_suggestions := pending_suggestions st |}
                   {| db_day := db_day db;
                      db_nutrition := add_nutrition (db_nutrition db) (nutrition mn);
                      db_meals := if detailed_breakdown options
                                  then db_meals db ++ [mn] else db_meals db |})
        as (H1 & H2 & H3).
      cbn in H1, H2, H3. now rewrite H1, H2, H3.
    + destruct (IH {| totalNutrition := totalNutrition st;
                      missingData := missingData st ++ ["Recipe " +:+ recipe_id meal];
                      pending_suggestions :=
                        if require_all_recipes options
                        then pending_suggestions st ++ [MissingNutritionData (recipe_id meal)]
                        else pending_suggestions st |} db)
        as (H1 & H2 & H3).
      cbn in H1, H2, H3. rewrite H1, H2, H3.
      split; [reflexivity|]. split.
      * now rewrite <- app_assoc.
      * destruct (require_all_recipes options); [|reflexivity].
        now rewrite <- app_assoc.
Qed.

Lemma processDays_progress (ds : list Day) (st : Progress) (bd : list DailyBreakdown) :
  let st' := (processDays recipes lookupUSDANutrition options ds st bd).1 in
  totalNutrition st' = foldl add_nutrition (totalNutrition st) ((resolvedNutrition recipes lookupUSDANutrition options) (planMeals ds))
  ∧ missingData st' =
      missingData st ++ map (fun r => "Recipe " +:+ r) ((unresolvedRecipes recipes lookupUSDANutrition options) (planMeals ds))
  ∧ pending_suggestions st' =
      pending_suggestions st ++
      (if require_all_recipes options
       then map MissingNutritionData ((unresolvedRecipes recipes lookupUSDANutrition options) (planMeals ds)) else []).
Proof.
  revert st bd. induction ds as [|d rest IH]; intros st bd; cbn.
  - rewrite !app_nil_r. destruct (require_all_recipes options); now rewrite ?app_nil_r.
  - pose proof (processMeals_progress (meals d) st
                  {| db_day := match day d with
                               | Some s => if str_truthy s then s else "unknown"
                               | None => "unknown"
                               end;
                     db_nutrition := no_nutrition; db_meals := [] |}) as HM.
    destruct (processMeals recipes lookupUSDANutrition options (meals d) st _)
      as [st1 db1] eqn:E.
    cbn in HM. destruct HM as (M1 & M2 & M3).
    destruct (IH st1 (if detailed_breakdown options then bd ++ [db1] else bd))
      as (H1 & H2 & H3).
    cbn in H1, H2, H3. rewrite H1, H2, H3, M1, M2, M3.
    unfold planMeals, resolvedNutrition, unresolvedRecipes. cbn.
    rewrite !omap_app, !foldl_app, !map_app.
    split; [reflexivity|]. split.
    + now rewrite <- app_assoc.
    + destruct (require_all_recipes options); [|now rewrite !app_nil_r].
      now rewrite <- app_assoc.
Qed.

Lemma validatePlan_fields (days : list Day) (targets : Targets) :
  let r := validatePlan recipes lookupUSDANutrition days targets options in
  total_nutrition r = foldl add_nutrition no_nutrition ((resolvedNutrition recipes lookupUSDANutrition options) (planMeals days))
  ∧ missing_nutrition_data r = map (fun r => "Recipe " +:+ r) ((unresolvedRecipes recipes lookupUSDANutrition options) (planMeals days))
  ∧ is_valid r = within_threshold r &&
                 (if require_all_recipes options
                  then bool_decide ((unresolvedRecipes recipes lookupUSDANutrition options) (planMeals days) = []) else true)
  ∧ suggestions r =
      (if require_all_recipes options
       then map MissingNutritionData ((unresolvedRecipes recipes lookupUSDANutrition options) (planMeals days)) else [])
      ++ (if within_threshold r then []
          else generateNutritionSuggestions (target_deviations r)
                 (deviation_threshold options)).
Proof.
  pose proof (processDays_progress days
                {| totalNutrition := no_nutrition; missingData := [];
                   pending_suggestions := [] |} []) as HP.
  unfold validatePlan.
  destruct (processDays recipes lookupUSDANutrition options days _ []) as [st bd] eqn:E.
  cbn in HP. destruct HP as (H1 & H2 & H3). cbn.
  rewrite H1, H2, H3. repeat split; try reflexivity.
  f_equal. destruct (require_all_recipes options); [|reflexivity].
  rewrite length_map.
  destruct ((unresolvedRecipes recipes lookupUSDANutrition options) (planMeals days)); reflexivity.
Qed.

(** X2.  The validator's bookkeeping of unresolved meals: the list of missing
    nutrition data names, in the order of the plan and with repetitions,
    exactly the meals for which no nutrition could be resolved; when all
    recipes are required the plan is valid only if that list is empty, and
    the suggestions start with one entry for each of them; when they are not
    required the unresolved meals affect neither the verdict nor the
    suggestions. *)
Theorem missing_data_bookkeeping (days : list Day) (targets : Targets) :
  let r := validatePlan recipes lookupUSDANutrition days targets options in
  missing_nutrition_data r = map (fun r => "Recipe " +:+ r) ((unresolvedRecipes recipes lookupUSDANutrition options) (planMeals days))
  ∧ (require_all_recipes options = true ->
     (is_valid r = true -> missing_nutrition_data r = [])
     ∧ take (length (missing_nutrition_data r)) (suggestions r)
       = map MissingNutritionData ((unresolvedRecipes recipes lookupUSDANutrition options) (planMeals days)))
  ∧ (require_all_recipes options = false ->
     is_valid r = within_threshold r
     ∧ ∀ recipe, MissingNutritionData recipe ∉ suggestions r).
Proof.
  destruct (validatePlan_fields days targets) as (H1 & H2 & H3 & H4).
  cbn zeta. split; [exact H2|]. split.
  - intros Hreq. rewrite H3, H4, H2, Hreq. split.
    + intros Hv. apply andb_true_iff in Hv as [_ Hv].
      apply bool_decide_eq_true in Hv. now rewrite Hv.
    + rewrite length_map.
      rewrite <- (length_map MissingNutritionData).
      now rewrite take_app_length.
  - intros Hreq. rewrite H3, H4, Hreq. split.
    + now rewrite andb_true_r.
    + intros recipe Hin. cbn [app] in Hin.
      destruct (within_threshold _); [now apply not_elem_of_nil in Hin|].
      unfold generateNutritionSuggestions in Hin.
      apply list_elem_of_In, in_flat_map in Hin as ((n & d) & _ & Hin).
      destruct (gtb (Math_abs d) _); [|destruct Hin].
      destruct (gtb d 0); destruct Hin as [Hin|[]]; discriminate.
Qed.

End PlanFacts.

Section SuggestionFacts.
Import Db Validator.

Lemma gtb_false (x y : Q) : gtb x y = false <-> (x <= y)%Q.
Proof.
  unfold gtb. rewrite negb_false_iff. apply Qle_bool_iff.
Qed.

Lemma suggestion_of_entry (threshold : Q) (nutrientName : string) (deviation : Q)
    (s : Suggestion) :
  s ∈ (if gtb (Math_abs deviation) threshold then
         if gtb deviation 0
         then [ReduceIntake nutrientName deviation]
         else [IncreaseIntake nutrientName (Math_abs deviation)]
       else [])
  <-> beyond threshold deviation
      ∧ ((0 < deviation)%Q ∧ s = ReduceIntake nutrientName deviation
         ∨ (deviation <= 0)%Q ∧ s = IncreaseIntake nutrientName (Qabs deviation)).
Proof.
  unfold beyond, Math_abs.
  destruct (gtb (Qabs deviation) threshold) eqn:E1.
  - apply gtb_true in E1. destruct (gtb deviation 0) eqn:E2.
    + apply gtb_true in E2. rewrite list_elem_of_singleton. split.
      * intros ->. split; [exact E1|]. now left.
      * intros (_ & [(_ & ->)|(L & _)]); [reflexivity|].
        exfalso. exact (Qlt_not_le _ _ E2 L).
    + apply gtb_false in E2. rewrite list_elem_of_singleton. split.
      * intros ->. split; [exact E1|]. now right.
      * intros (_ & [(L & _)|(_ & ->)]); [|reflexivity].
        exfalso. exact (Qlt_not_le _ _ L E2).
  - apply gtb_false in E1. split.
    + intros H. now apply not_elem_of_nil in H.
    + intros (L & _). exfalso. exact (Qlt_not_le _ _ L E1).
Qed.

(** X3.  The nutrition suggestions report exactly the deviations beyond the
    threshold, the optional fiber deviation included: a suggestion to reduce
    a nutrient is made for a positive deviation and carries it, a suggestion
    to increase for a deviation that is not positive and carries its absolute
    value; a deviation within the threshold is never reported. *)
Theorem suggestions_report_excesses (deviations : Deviations) (threshold : Q)
    (s : Suggestion) :
  s ∈ generateNutritionSuggestions deviations threshold
  <-> ∃ nutrientName deviation,
        (nutrientName, deviation) ∈ deviationEntries deviations
        ∧ beyond threshold deviation
        ∧ ((0 < deviation)%Q ∧ s = ReduceIntake nutrientName deviation
           ∨ (deviation <= 0)%Q ∧ s = IncreaseIntake nutrientName (Qabs deviation)).
Proof.
  unfold generateNutritionSuggestions.
  rewrite list_elem_of_In, in_flat_map. split.
  - intros ((n & d) & Hin & Hs). exists n, d.
    apply list_elem_of_In in Hin, Hs.
    split; [exact Hin|]. now apply suggestion_of_entry.
  - intros (n & d & Hin & Hb & Hs). exists (n, d).
    split; [now apply list_elem_of_In|].
    apply list_elem_of_In. apply suggestion_of_entry. now split.
Qed.

Lemma entry_beyond_suggests (deviations : Deviations) (threshold : Q)
    (nutrientName : string) (deviation : Q) :
  In (nutrientName, deviation) (deviationEntries deviations) ->
  Qle_bool (Math_abs deviation) threshold = false ->
  generateNutritionSuggestions deviations threshold ≠ [].
Proof.
  intros Hin Hb Hnil.
  assert (Hs : In (if gtb deviation 0
                   then ReduceIntake nutrientName deviation
                   else IncreaseIntake nutrientName (Math_abs deviation))
                  (generateNutritionSuggestions deviations threshold)).
  { unfold generateNutritionSuggestions. apply in_flat_map.
    exists (nutrientName, deviation). split; [exact Hin|].
    assert (G : gtb (Math_abs deviation) threshold = true)
      by (unfold gtb; now rewrite Hb).
    cbv beta iota. rewrite G.
    destruct (gtb deviation 0); now left. }
  rewrite Hnil in Hs. destruct Hs.
Qed.

Lemma outside_threshold_suggests (deviations : Deviations) (threshold : Q) :
  withinThreshold deviations threshold = false ->
  generateNutritionSuggestions deviations threshold ≠ [].
Proof.
  unfold withinThreshold. cbn [forallb]. intros H.
  repeat (apply andb_false_iff in H as [H|H]); try discriminate.
  - apply (entry_beyond_suggests _ _ "calories" (calories_deviation deviations)); [|exact H].
    unfold deviationEntries. cbn. tauto.
  - apply (entry_beyond_suggests _ _ "protein" (protein_deviation deviations)); [|exact H].
    unfold deviationEntries. cbn. tauto.
  - apply (entry_beyond_suggests _ _ "fat" (fat_deviation deviations)); [|exact H].
    unfold deviationEntries. cbn. tauto.
  - apply (entry_beyond_suggests _ _ "carbohydrates" (carbohydrates_deviation deviations)); [|exact H].
    unfold deviationEntries. cbn. tauto.
Qed.

End SuggestionFacts.

Section VerdictFacts.
Import Db Validator.

Variable recipes : string -> option Recipe.
Variable lookupUSDANutrition : string -> option USDAData.

(** X4.  For a plan with at least one day, the validator makes no
    suggestion exactly when it declares the plan valid: every reason for a
    negative verdict, an unresolved required recipe or a core deviation
    beyond the threshold, produces at least one suggestion, and nothing else
    produces one. *)
Theorem valid_iff_no_suggestion (days : list Day) (targets : Targets)
    (options : Options) :
  days ≠ [] ->
  let r := validatePlan recipes lookupUSDANutrition days targets options in
  is_valid r = true <-> suggestions r = [].
Proof.
  intros _.
  destruct (validatePlan_fields recipes lookupUSDANutrition options days targets)
    as (_ & _ & H3 & H4).
  cbn zeta. rewrite H3, H4. clear H3 H4.
  set (r := validatePlan recipes lookupUSDANutrition days targets options).
  assert (Hw : within_threshold r
               = withinThreshold (target_deviations r) (deviation_threshold options)).
  { subst r. unfold validatePlan.
    destruct (processDays _ _ _ _ _ _) as [st bd]. reflexivity. }
  destruct (within_threshold r) eqn:W.
  - rewrite app_nil_r. cbn [andb].
    destruct (require_all_recipes options); [|tauto].
    rewrite bool_decide_eq_true.
    destruct (unresolvedRecipes _ _ _ _); cbn; split; congruence.
  - cbn [andb]. split; [discriminate|]. intros H.
    apply app_eq_nil in H as [_ H].
    symmetry in Hw. now apply outside_threshold_suggests in Hw.
Qed.

End VerdictFacts.
Ltac split5 := split; [|split; [|split; [|split]]].

Ltac nutrition_fields :=
  cbn [Validator.calories Validator.protein Validator.fat Validator.carbohydrates
       Validator.fiber Validator.add_nutrition sumNutrition
       foldr foldl Validator.no_nutrition app] in *.

Section SumFacts.
Import Db Validator.

Lemma num_or_zero_eq (x : Q) : (num_or x 0 == x)%Q.
Proof.
  unfold num_or. destruct (Qeq_bool x 0) eqn:E; [|reflexivity].
  symmetry. now apply Qeq_bool_iff.
Qed.



Lemma sameNutrition_refl (a : NutritionData) : sameNutrition a a.
Proof. repeat split; reflexivity. Qed.

Lemma sameNutrition_sym (a b : NutritionData) : sameNutrition a b -> sameNutrition b a.
Proof. intros (?&?&?&?&?). repeat split; now symmetry. Qed.

Lemma sameNutrition_trans (a b c : NutritionData) :
  sameNutrition a b -> sameNutrition b c -> sameNutrition a c.
Proof.
  intros (?&?&?&?&?) (?&?&?&?&?). repeat split; etransitivity; eassumption.
Qed.

(** The running total of the loops is the start plus the sum. *)
Lemma foldl_add_nutrition (l : list NutritionData) (acc : NutritionData) :
  sameNutrition (foldl add_nutrition acc l)
    {| calories := calories acc + calories (sumNutrition l);
       protein := protein acc + protein (sumNutrition l);
       fat := fat acc + fat (sumNutrition l);
       carbohydrates := carbohydrates acc + carbohydrates (sumNutrition l);
       fiber := fiber acc + fiber (sumNutrition l) |}.
Proof.
  revert acc. induction l as [|n l IH]; intros acc; nutrition_fields.
  - split5; nutrition_fields; ring.
  - destruct (IH (add_nutrition acc n)) as (H1 & H2 & H3 & H4 & H5).
    split5; nutrition_fields;
      [rewrite H1|rewrite H2|rewrite H3|rewrite H4|rewrite H5, num_or_zero_eq]; ring.
Qed.

Lemma sumNutrition_app (l1 l2 : list NutritionData) :
  sameNutrition (sumNutrition (l1 ++ l2))
    {| calories := calories (sumNutrition l1) + calories (sumNutrition l2);
       protein := protein (sumNutrition l1) + protein (sumNutrition l2);
       fat := fat (sumNutrition l1) + fat (sumNutrition l2);
       carbohydrates := carbohydrates (sumNutrition l1) + carbohydrates (sumNutrition l2);
       fiber := fiber (sumNutrition l1) + fiber (sumNutrition l2) |}.
Proof.
  induction l1 as [|n l1 (H1 & H2 & H3 & H4 & H5)]; nutrition_fields.
  - split5; nutrition_fields; ring.
  - split5; nutrition_fields;
      [rewrite H1|rewrite H2|rewrite H3|rewrite H4|rewrite H5]; ring.
Qed.


Lemma foldl_add_nutrition_start (l : list NutritionData) :
  sameNutrition (foldl add_nutrition no_nutrition l) (sumNutrition l).
Proof.
  destruct (foldl_add_nutrition l no_nutrition) as (H1 & H2 & H3 & H4 & H5).
  nutrition_fields.
  split5; [rewrite H1|rewrite H2|rewrite H3|rewrite H4|rewrite H5]; ring.
Qed.

End SumFacts.

Section OrderFacts.
Import Db Validator.

Variable recipes : string -> option Recipe.
Variable lookupUSDANutrition : string -> option USDAData.
Variable options : Options.



End OrderFacts.

Section BreakdownFacts.
Import Db Validator.

Variable recipes : string -> option Recipe.
Variable lookupUSDANutrition : string -> option USDAData.
Variable options : Options.

Lemma processMeals_breakdown (ms : list Meal) (st : Progress) (db : DailyBreakdown) :
  (processMeals recipes lookupUSDANutrition options ms st db).2 =
  {| db_day := db_day db;
     db_nutrition :=
       foldl add_nutrition (db_nutrition db)
         (resolvedNutrition recipes lookupUSDANutrition options ms);
     db_meals :=
       if detailed_breakdown options
       then db_meals db ++ omap (mealResolution recipes lookupUSDANutrition options) ms
       else db_meals db |}.
Proof.
  revert st db. induction ms as [|meal rest IH]; intros st db; cbn.
  - destruct db; cbn. destruct (detailed_breakdown options); now rewrite ?app_nil_r.
  - unfold resolvedNutrition, mealResolution in *. cbn.
    destruct (calculateMealNutrition recipes lookupUSDANutrition (recipe_id meal)
                (opt_num_or (meal_servings meal) 1) (use_usda_fallback options))
      as [mn|] eqn:E; cbn.
    + rewrite IH. cbn. destruct (detailed_breakdown options); [|reflexivity].
      now rewrite <- app_assoc.
    + now rewrite IH.
Qed.

Lemma processDays_breakdown (ds : list Day) (st : Progress) (bd : list DailyBreakdown) :
  detailed_breakdown options = true ->
  (processDays recipes lookupUSDANutrition options ds st bd).2 =
  bd ++ map (breakdownOf recipes lookupUSDANutrition options) ds.
Proof.
  intros Hd. revert st bd. induction ds as [|d rest IH]; intros st bd; cbn.
  - now rewrite app_nil_r.
  - pose proof (processMeals_breakdown (meals d) st
                  {| db_day := match day d with
                               | Some s => if str_truthy s then s else "unknown"
                               | None => "unknown"
                               end;
                     db_nutrition := no_nutrition; db_meals := [] |}) as HM.
    destruct (processMeals recipes lookupUSDANutrition options (meals d) st _)
      as [st1 db1] eqn:E.
    cbn in HM. rewrite Hd in HM. rewrite IH, Hd, HM, <- app_assoc. reflexivity.
Qed.

(** X6.  The detailed breakdown, when it is asked for, has one entry per day
    of the plan in the order of the plan, labelled with the day's name or
    [unknown]; an entry lists the resolved meals of its day and their
    sum, and the entries together add up to the plan's total.  When it is
    not asked for there is none. *)
Theorem breakdown_adds_up (days : list Day) (targets : Targets) :
  let r := validatePlan recipes lookupUSDANutrition days targets options in
  (detailed_breakdown options = false -> result_breakdown r = None)
  ∧ (detailed_breakdown options = true ->
     result_breakdown r = Some (map (breakdownOf recipes lookupUSDANutrition options) days)
     ∧ sameNutrition
         (sumNutrition (map (fun d => db_nutrition (breakdownOf recipes lookupUSDANutrition options d)) days))
         (total_nutrition r)
     ∧ ∀ d, d ∈ days ->
         sameNutrition
           (db_nutrition (breakdownOf recipes lookupUSDANutrition options d))
           (sumNutrition (map nutrition
                            (db_meals (breakdownOf recipes lookupUSDANutrition options d))))).
Proof.
  cbn zeta. split; [|split; [|split]].
  - intros Hd. unfold validatePlan.
    destruct (processDays _ _ _ _ _ _) as [st bd]. cbn. now rewrite Hd.
  - pose proof (processDays_breakdown days
                  {| totalNutrition := no_nutrition; missingData := [];
                     pending_suggestions := [] |} [] H) as HB.
    unfold validatePlan.
    destruct (processDays _ _ _ _ _ _) as [st bd]. cbn in HB |- *.
    now rewrite H, HB.
  - destruct (validatePlan_fields recipes lookupUSDANutrition options days targets)
      as (T & _).
    cbn zeta in T. rewrite T. clear T.
    eapply sameNutrition_trans; [|apply sameNutrition_sym, foldl_add_nutrition_start].
    induction days as [|d rest IH]; [apply sameNutrition_refl|].
    unfold planMeals, resolvedNutrition. cbn [map flat_map]. rewrite omap_app.
    eapply sameNutrition_trans; [|apply sameNutrition_sym, sumNutrition_app].
    destruct IH as (H1 & H2 & H3 & H4 & H5).
    destruct (foldl_add_nutrition_start
                (resolvedNutrition recipes lookupUSDANutrition options (meals d)))
      as (F1 & F2 & F3 & F4 & F5).
    unfold planMeals, resolvedNutrition in *.
    split5; cbn [sumNutrition breakdownOf db_nutrition calories protein fat carbohydrates fiber];
      unfold resolvedNutrition;
      [rewrite H1, F1|rewrite H2, F2|rewrite H3, F3|rewrite H4, F4|rewrite H5, F5];
      reflexivity.
  - intros d _. cbn [breakdownOf db_nutrition db_meals].
    eapply sameNutrition_trans; [apply foldl_add_nutrition_start|].
    unfold resolvedNutrition.
    replace (map nutrition (omap (mealResolution recipes lookupUSDANutrition options) (meals d)))
      with (omap (fun meal => nutrition <$> mealResolution recipes lookupUSDANutrition options meal)
              (meals d)); [apply sameNutrition_refl|].
    induction (meals d) as [|m ms IH]; [reflexivity|]. cbn.
    destruct (mealResolution recipes lookupUSDANutrition options m); cbn; now rewrite IH.
Qed.

End BreakdownFacts.

Section IngredientFacts.
Import Db.

Lemma validator_mainIngredients_app (l1 l2 : list Ingredient) :
  Validator.mainIngredients (l1 ++ l2) =
  let! m1 := Validator.mainIngredients l1 in
  let! m2 := Validator.mainIngredients l2 in
  Normal (m1 ++ m2).
Proof.
  induction l1 as [|ing l1 IH]; cbn [app Validator.mainIngredients].
  - cbn. now destruct (Validator.mainIngredients l2).
  - destruct (gtb (amount ing) 0); [destruct (name ing)|]; cbn [cbind];
      try reflexivity; rewrite IH;
      destruct (Validator.mainIngredients l1); cbn [cbind]; try reflexivity;
      destruct (Validator.mainIngredients l2); cbn [cbind]; try reflexivity;
      now destruct (negb _).
Qed.

Lemma council_mainIngredients_app (l1 l2 : list Ingredient) :
  Council.mainIngredients (l1 ++ l2) =
  let! m1 := Council.mainIngredients l1 in
  let! m2 := Council.mainIngredients l2 in
  Normal (m1 ++ m2).
Proof.
  induction l1 as [|ing l1 IH]; cbn [app Council.mainIngredients].
  - cbn. now destruct (Council.mainIngredients l2).
  - destruct (gtb (amount ing) 0); [destruct (name ing)|]; cbn [cbind];
      try reflexivity; rewrite IH;
      destruct (Council.mainIngredients l1); cbn [cbind]; try reflexivity;
      destruct (Council.mainIngredients l2); cbn [cbind]; try reflexivity;
      now destruct (negb _).
Qed.

(** X7.  An ingredient whose amount is not positive is dropped before its
    name is looked at: wherever it stands in the list, and even when its name
    or unit is missing, the nutrition computed from the ingredients is the
    same as without it.  This holds for the validator and for the council. *)
Theorem nonpositive_amount_ignored (lookupUSDANutrition : string -> option USDAData)
    (before after : list Ingredient) (ing : Ingredient) (recipe : Recipe) :
  (amount ing <= 0)%Q ->
  Validator.calculateFromUSDA lookupUSDANutrition (before ++ ing :: after)
  = Validator.calculateFromUSDA lookupUSDANutrition (before ++ after)
  ∧ Council.calculateRecipeNutritionFromUSDA lookupUSDANutrition
      {| title := title recipe; nutrition_info := nutrition_info recipe;
         ingredients := Some (before ++ ing :: after); servings := servings recipe |}
    = Council.calculateRecipeNutritionFromUSDA lookupUSDANutrition
        {| title := title recipe; nutrition_info := nutrition_info recipe;
           ingredients := Some (before ++ after); servings := servings recipe |}.
Proof.
  intros Hle. apply gtb_false in Hle. split.
  - unfold Validator.calculateFromUSDA.
    rewrite !validator_mainIngredients_app.
    cbn [Validator.mainIngredients]. rewrite Hle. cbn [cbind].
    destruct (Validator.mainIngredients after); reflexivity.
  - unfold Council.calculateRecipeNutritionFromUSDA. cbn [ingredients cbind].
    rewrite !council_mainIngredients_app.
    cbn [Council.mainIngredients]. rewrite Hle. cbn [cbind].
    destruct (Council.mainIngredients after); reflexivity.
Qed.

End IngredientFacts.

Section ValidatorWitnesses.
Import Db Validator.

(** For a target of 100 and an actual value of 110. *)
Lemma deviation_recovers_actual_witness :
  (100 * (1 + calculateDeviation 110 100 / 100) == 110)%Q.
Proof.
  apply (proj1 (proj1 (proj2 (deviation_recovers_actual 110 100)) ltac:(discriminate))).
Defined.

(** The sample plan of one day. *)
Lemma valid_iff_no_suggestion_witness :
  sampleDays ≠ []
  ∧ (is_valid (validatePlan sampleRecipes sampleUSDA sampleDays sampleTargets default_options)
     = true
     <-> suggestions (validatePlan sampleRecipes sampleUSDA sampleDays sampleTargets
                        default_options) = []).
Proof.
  split; [discriminate|].
  apply (valid_iff_no_suggestion sampleRecipes sampleUSDA sampleDays sampleTargets
           default_options).
  discriminate.
Defined.


(** An ingredient with amount 0 and no name, before a named one. *)
Lemma nonpositive_amount_ignored_witness :
  (amount namelessPinch <= 0)%Q
  ∧ calculateFromUSDA sampleUSDA ([] ++ namelessPinch :: [lettuceLeaves])
    = calculateFromUSDA sampleUSDA ([] ++ [lettuceLeaves]).
Proof.
  split; [apply Qle_refl|].
  apply (nonpositive_amount_ignored sampleUSDA [] [lettuceLeaves] namelessPinch sampleRow).
  apply Qle_refl.
Defined.

End ValidatorWitnesses.

(** ** The nutrition council *)

Section RefinementFacts.
Import Db Council.

Variable recipes : string -> Completion (option Recipe).
Variable lookupUSDANutrition : string -> option USDAData.
Variable coherenceReply : nat -> Completion ClaudeMessage.
Variable context : Blueprint.GenerationContext.

Lemma validationLoop_unfold retryCount currentPlan last tally :
  validationLoop recipes lookupUSDANutrition coherenceReply context
    retryCount currentPlan last tally =
  if decide (retryCount < maxRetries)%nat then
    match validationPass
            (validateNutrition recipes lookupUSDANutrition currentPlan
               (Blueprint.user_blueprint context))
            (coherenceReply retryCount) currentPlan last tally with
    | PassReturns result => result
    | PassContinues plan' last' tally' =>
        validationLoop recipes lookupUSDANutrition coherenceReply context
          (S retryCount) plan' last' tally'
    end
  else
    {| success := false;
       meal_plan := None;
       nutritional_accuracy := None;
       error := Some ("Validation failed after 3 attempts. Last issue: "
                      +:+ lastIssue last);
       claude_requests := Some (claudeRequests tally);
       tokens_used := Some (totalTokensUsed tally);
       cost_cents := Some (totalCostCents tally) |}.
Proof.
  simp validationLoop. destruct (decide (retryCount < maxRetries)%nat); simpl.
  - destruct (validationPass _ _ _ _ _); reflexivity.
  - reflexivity.
Qed.

Lemma validationLoop_step retryCount currentPlan last tally :
  (retryCount < 3)%nat ->
  validationLoop recipes lookupUSDANutrition coherenceReply context
    retryCount currentPlan last tally =
  match validationPass
          (validateNutrition recipes lookupUSDANutrition currentPlan
             (Blueprint.user_blueprint context))
          (coherenceReply retryCount) currentPlan last tally with
  | PassReturns result => result
  | PassContinues plan' last' tally' =>
      validationLoop recipes lookupUSDANutrition coherenceReply context
        (S retryCount) plan' last' tally'
  end.
Proof.
  intros H. rewrite validationLoop_unfold.
  now rewrite decide_True by (unfold maxRetries; lia).
Qed.

Lemma validationLoop_done currentPlan last tally :
  validationLoop recipes lookupUSDANutrition coherenceReply context
    3 currentPlan last tally =
  {| success := false;
     meal_plan := None;
     nutritional_accuracy := None;
     error := Some ("Validation failed after 3 attempts. Last issue: "
                    +:+ lastIssue last);
     claude_requests := Some (claudeRequests tally);
     tokens_used := Some (totalTokensUsed tally);
     cost_cents := Some (totalCostCents tally) |}.
Proof.
  rewrite validationLoop_unfold.
  now rewrite decide_False by (unfold maxRetries; lia).
Qed.

Lemma pass_on_invalid nutritionResult reply currentPlan last tally :
  is_valid nutritionResult = false ->
  validationPass nutritionResult reply currentPlan last tally
  = PassContinues currentPlan (Some nutritionResult) tally.
Proof. intros H. unfold validationPass. now rewrite H. Qed.

Lemma pass_on_valid nutritionResult reply currentPlan last tally :
  is_valid nutritionResult = true ->
  (accepts reply = true ∧
   ∃ result, validationPass nutritionResult reply currentPlan last tally = PassReturns result
     ∧ success result = true ∧ meal_plan result = Some currentPlan
     ∧ nutritional_accuracy result = Some (target_deviations nutritionResult)
     ∧ error result = None
     ∧ claude_requests result = Some (claudeRequests tally + 1)%Q)
  ∨ (accepts reply = false ∧
     ∃ tally', validationPass nutritionResult reply currentPlan last tally
               = PassContinues currentPlan last tally'
       ∧ (claudeRequests tally' == claudeRequests tally + 1)%Q).
Proof.
  intros H. unfold validationPass. rewrite H.
  destruct reply as [data|e]; cbn [validateCoherence coherence_success coherence_rating andb accepts].
  - destruct (js_geb (review_rating (parseCoherenceResponse (text data))) 7).
    + left. split; [reflexivity|]. eexists. repeat split.
    + right. split; [reflexivity|]. eexists. split; [reflexivity|].
      cbn. ring.
  - right. split; [reflexivity|]. eexists. split; [reflexivity|]. cbn. ring.
Qed.

(** X8.  A nutrition failure is final.  When the assembled plan fails the
    nutrition check, no review is requested, the three passes repeat the
    same check on the same plan, and the result is a failure that quotes the
    suggestions of that check and reports the counters of the assembly
    unchanged. *)
Theorem nutrition_failure_is_final (assemblyResult : AssemblyResult)
    (plan : Plan.MealPlan) :
  assembly_outcome assemblyResult = inr plan ->
  is_valid (validateNutrition recipes lookupUSDANutrition plan
              (Blueprint.user_blueprint context)) = false ->
  validateAndRefine recipes lookupUSDANutrition coherenceReply context assemblyResult
  = {| success := false;
       meal_plan := None;
       nutritional_accuracy := None;
       error := Some ("Validation failed after 3 attempts. Last issue: "
                      +:+ lastIssue (Some (validateNutrition recipes lookupUSDANutrition plan
                                             (Blueprint.user_blueprint context))));
       claude_requests := Some (0 + opt_num_or (assembly_claude_requests assemblyResult) 0)%Q;
       tokens_used := Some (0 + opt_num_or (assembly_tokens_used assemblyResult) 0)%Q;
       cost_cents := Some (0 + opt_num_or (assembly_cost_cents assemblyResult) 0)%Q |}.
Proof.
  intros Hplan Hbad. unfold validateAndRefine. rewrite Hplan.
  rewrite validationLoop_step, (pass_on_invalid _ _ _ _ _ Hbad) by lia.
  rewrite validationLoop_step, (pass_on_invalid _ _ _ _ _ Hbad) by lia.
  rewrite validationLoop_step, (pass_on_invalid _ _ _ _ _ Hbad) by lia.
  apply validationLoop_done.
Qed.

(** X9.  With a plan that passes the nutrition check, the council succeeds
    exactly when one of the first three reviews accepts.  On success the plan
    returned is the assembled plan itself, with the deviations of the
    nutrition check, and at most three reviews were requested; on failure
    exactly three were, and the error names no issue ([Unknown validation
    error]): the feedback of the reviews is not kept. *)
Theorem refinement_outcome (assemblyResult : AssemblyResult) (plan : Plan.MealPlan) :
  assembly_outcome assemblyResult = inr plan ->
  is_valid (validateNutrition recipes lookupUSDANutrition plan
              (Blueprint.user_blueprint context)) = true ->
  let r := validateAndRefine recipes lookupUSDANutrition coherenceReply context
             assemblyResult in
  (success r = true <-> ∃ n, (n < 3)%nat ∧ accepts (coherenceReply n) = true)
  ∧ (success r = true ->
     meal_plan r = Some plan
     ∧ nutritional_accuracy r
       = Some (target_deviations (validateNutrition recipes lookupUSDANutrition plan
                                    (Blueprint.user_blueprint context)))
     ∧ error r = None
     ∧ ∃ n, (n < 3)%nat ∧ accepts (coherenceReply n) = true
            ∧ (∀ m, (m < n)%nat -> accepts (coherenceReply m) = false)
            ∧ reports (claude_requests r)
                (assemblyRequests assemblyResult + inject_Z (Z.of_nat (S n))))
  ∧ (success r = false ->
     meal_plan r = None
     ∧ error r = Some "Validation failed after 3 attempts. Last issue: Unknown validation error"
     ∧ reports (claude_requests r) (assemblyRequests assemblyResult + 3)).
Proof.
  intros Hplan Hok. cbn zeta. unfold validateAndRefine. rewrite Hplan.
  set (tally0 := {| claudeRequests := 0 + opt_num_or (assembly_claude_requests assemblyResult) 0;
                    totalTokensUsed := 0 + opt_num_or (assembly_tokens_used assemblyResult) 0;
                    totalCostCents := 0 + opt_num_or (assembly_cost_cents assemblyResult) 0 |}).
  assert (H0 : (claudeRequests tally0 == assemblyRequests assemblyResult)%Q)
    by (cbn; unfold assemblyRequests; ring).
  rewrite validationLoop_step by lia.
  destruct (pass_on_valid _ (coherenceReply 0) plan None tally0 Hok)
    as [(A0 & r0 & -> & S0 & P0 & N0 & E0 & C0)|(A0 & t1 & -> & C1)].
  { cbv iota beta. rewrite S0, P0, N0, E0, C0. split; [|split].
    - split; [intros _; exists 0%nat; split; [lia|exact A0]|reflexivity].
    - intros _. repeat split. exists 0%nat. split; [lia|]. split; [exact A0|].
      split; [intros m Hm; lia|].
      eexists. split; [reflexivity|]. rewrite H0. reflexivity.
    - discriminate. }
  cbv iota beta. rewrite validationLoop_step by lia.
  destruct (pass_on_valid _ (coherenceReply 1) plan None t1 Hok)
    as [(A1 & r1 & -> & S1 & P1 & N1 & E1 & C1')|(A1 & t2 & -> & C2)].
  { cbv iota beta. rewrite S1, P1, N1, E1, C1'. split; [|split].
    - split; [intros _; exists 1%nat; split; [lia|exact A1]|reflexivity].
    - intros _. repeat split. exists 1%nat. split; [lia|]. split; [exact A1|].
      split; [intros m Hm; assert (m = 0)%nat as -> by lia; exact A0|].
      eexists. split; [reflexivity|]. rewrite C1, H0. cbn. ring.
    - discriminate. }
  cbv iota beta. rewrite validationLoop_step by lia.
  destruct (pass_on_valid _ (coherenceReply 2) plan None t2 Hok)
    as [(A2 & r2 & -> & S2 & P2 & N2 & E2 & C2')|(A2 & t3 & -> & C3)].
  { cbv iota beta. rewrite S2, P2, N2, E2, C2'. split; [|split].
    - split; [intros _; exists 2%nat; split; [lia|exact A2]|reflexivity].
    - intros _. repeat split. exists 2%nat. split; [lia|]. split; [exact A2|].
      split.
      + intros m Hm. destruct m as [|[|m]]; [exact A0|exact A1|lia].
      + eexists. split; [reflexivity|]. rewrite C2, C1, H0. cbn. ring.
    - discriminate. }
  cbv iota beta. rewrite validationLoop_done.
  cbn [success meal_plan error claude_requests lastIssue].
  split; [|split].
  - split; [discriminate|]. intros (n & Hn & An).
    destruct n as [|[|[|n]]]; [congruence|congruence|congruence|lia].
  - discriminate.
  - intros _. repeat split.
    eexists. split; [reflexivity|]. rewrite C3, C2, C1, H0. ring.
Qed.

End RefinementFacts.

Section CouncilNutritionFacts.
Import Db Council.

Variable recipes : string -> Completion (option Recipe).
Variable lookupUSDANutrition : string -> option USDAData.

(** X10.  The council's suggestions look at calories and protein only: they
    are the same whatever the fat and carbohydrate deviations are, there are
    at most two, and there is none exactly when the calorie deviation is
    within 15 percent and protein is not more than 15 percent short.  A plan
    rejected for its fat or carbohydrates, or for too much protein, is
    rejected without a suggestion. *)
Theorem council_suggestions_ignore_fat_and_carbohydrates (deviations : TargetDeviations) :
  (∀ fat' carbohydrates',
     generateNutritionSuggestions deviations
     = generateNutritionSuggestions
         {| calories_deviation := calories_deviation deviations;
            protein_deviation := protein_deviation deviations;
            fat_deviation := fat';
            carbohydrates_deviation := carbohydrates' |})
  ∧ (length (generateNutritionSuggestions deviations) <= 2)%nat
  ∧ (generateNutritionSuggestions deviations = []
     <-> (Qabs (calories_deviation deviations) <= 15)%Q
         ∧ (-15 <= protein_deviation deviations)%Q).
Proof.
  split; [reflexivity|]. unfold generateNutritionSuggestions, Math_abs.
  set (c := calories_deviation deviations). set (p := protein_deviation deviations).
  split.
  - destruct (gtb (Qabs c) 15); [destruct (gtb c 0)|];
      (destruct (gtb (Qabs p) 15); [destruct (negb (geb p 0))|]); cbn; lia.
  - destruct (gtb (Qabs c) 15) eqn:Ec.
    + apply gtb_true in Ec. split.
      * destruct (gtb c 0); discriminate.
      * intros [H _]. exfalso. exact (Qlt_not_le _ _ Ec H).
    + apply gtb_false in Ec. cbn [app].
      destruct (gtb (Qabs p) 15) eqn:Ep.
      * apply gtb_true in Ep. destruct (geb p 0) eqn:Eg; cbn [negb].
        -- apply geb_true in Eg. split; [|reflexivity]. intros _. split; [exact Ec|].
           apply Qle_trans with 0%Q; [discriminate|exact Eg].
        -- split; [discriminate|]. intros [_ H]. exfalso.
           assert (Hneg : (p < 0)%Q).
           { apply Qnot_le_lt. intros Hle. apply geb_true in Hle. congruence. }
           rewrite Qabs_neg in Ep by now apply Qlt_le_weak.
           apply (Qlt_not_le _ _ Ep).
           apply Qopp_le_compat in H. exact H.
      * apply gtb_false in Ep. split; [|reflexivity]. intros _. split; [exact Ec|].
        apply Qabs_Qle_condition in Ep. tauto.
Qed.

Lemma sumMeals_app (l1 l2 : list Plan.MealSlot) (acc : Nutrition) :
  sumMeals recipes lookupUSDANutrition (l1 ++ l2) acc
  = let! acc' := sumMeals recipes lookupUSDANutrition l1 acc in
    sumMeals recipes lookupUSDANutrition l2 acc'.
Proof.
  revert acc. induction l1 as [|meal l1 IH]; intros acc; cbn [app sumMeals cbind].
  - reflexivity.
  - destruct (recipes (Plan.recipe_id meal)) as [[recipe|]|e]; cbn [cbind];
      [destruct (mealNutritionOf lookupUSDANutrition recipe)| |]; auto.
Qed.

Lemma sumDays_app (l1 l2 : list Plan.DayPlan) (acc : Nutrition) :
  sumDays recipes lookupUSDANutrition (l1 ++ l2) acc
  = let! acc' := sumDays recipes lookupUSDANutrition l1 acc in
    sumDays recipes lookupUSDANutrition l2 acc'.
Proof.
  revert acc. induction l1 as [|d l1 IH]; intros acc; cbn [app sumDays cbind].
  - reflexivity.
  - destruct (sumMeals recipes lookupUSDANutrition (Plan.meals d) acc); cbn [cbind]; auto.
Qed.

(** X11.  A meal the council cannot resolve is invisible to it.  When the
    query for a meal's recipe returns no row, or the row yields no nutrition,
    the nutrition validation of the plan is the one of the plan without that
    meal: the meal adds nothing to the totals, is not listed as missing, and
    does not by itself make the plan invalid. *)
Theorem council_skips_unresolved_meal (plan : Plan.MealPlan)
    (blueprint : Blueprint.UserBlueprint)
    (earlier later : list Plan.DayPlan) (d : Plan.DayPlan)
    (before after : list Plan.MealSlot) (meal : Plan.MealSlot) :
  (recipes (Plan.recipe_id meal) = Normal None
   ∨ ∃ recipe, recipes (Plan.recipe_id meal) = Normal (Some recipe)
               ∧ mealNutritionOf lookupUSDANutrition recipe = None) ->
  validateNutrition recipes lookupUSDANutrition
    (withDays plan (earlier ++ withMeals d (before ++ meal :: after) :: later)) blueprint
  = validateNutrition recipes lookupUSDANutrition
      (withDays plan (earlier ++ withMeals d (before ++ after) :: later)) blueprint.
Proof.
  intros H.
  assert (HM : ∀ acc, sumMeals recipes lookupUSDANutrition (before ++ meal :: after) acc
                      = sumMeals recipes lookupUSDANutrition (before ++ after) acc).
  { intros acc. rewrite !sumMeals_app.
    destruct (sumMeals recipes lookupUSDANutrition before acc) as [acc'|e]; [|reflexivity].
    cbn [cbind sumMeals].
    destruct H as [Hr|(recipe & Hr & Hn)]; rewrite Hr; cbn [cbind];
      [|rewrite Hn]; reflexivity. }
  assert (HD : ∀ acc,
             sumDays recipes lookupUSDANutrition
               (earlier ++ withMeals d (before ++ meal :: after) :: later) acc
             = sumDays recipes lookupUSDANutrition
                 (earlier ++ withMeals d (before ++ after) :: later) acc).
  { intros acc. rewrite !sumDays_app.
    destruct (sumDays recipes lookupUSDANutrition earlier acc) as [acc'|e]; [|reflexivity].
    cbn [cbind sumDays withMeals Plan.meals]. now rewrite HM. }
  unfold validateNutrition, calculatePlanNutrition.
  cbn [withDays Plan.plan_data Plan.days]. rewrite HD.
  rewrite !length_app. cbn [length]. reflexivity.
Qed.

End CouncilNutritionFacts.

Section CouncilWitnesses.
Import Db Council.

(** A plan of one meal a day is far below the sample targets. *)
Lemma nutrition_failure_is_final_witness :
  assembly_outcome lightAssembly = inr lightPlan
  ∧ success (validateAndRefine councilRecipes sampleUSDA (fun _ => lowRatedReply)
               sampleContext lightAssembly) = false
  ∧ claude_requests (validateAndRefine councilRecipes sampleUSDA (fun _ => lowRatedReply)
                       sampleContext lightAssembly) = Some (0 + 1)%Q.
Proof.
  split; [reflexivity|].
  rewrite (nutrition_failure_is_final councilRecipes sampleUSDA (fun _ => lowRatedReply)
             sampleContext lightAssembly lightPlan);
    [split; reflexivity|reflexivity|vm_compute; reflexivity].
Defined.

(** The sample plan passes the nutrition check; every review rates it 5. *)
Lemma refinement_outcome_witness :
  is_valid (validateNutrition councilRecipes sampleUSDA samplePlan
              (Blueprint.user_blueprint sampleContext)) = true
  ∧ (success (validateAndRefine councilRecipes sampleUSDA (fun _ => lowRatedReply)
                sampleContext sampleAssembly) = true
     <-> ∃ n, (n < 3)%nat ∧ accepts lowRatedReply = true).
Proof.
  assert (H : is_valid (validateNutrition councilRecipes sampleUSDA samplePlan
                          (Blueprint.user_blueprint sampleContext)) = true)
    by (vm_compute; reflexivity).
  split; [exact H|].
  apply (proj1 (refinement_outcome councilRecipes sampleUSDA (fun _ => lowRatedReply)
                  sampleContext sampleAssembly samplePlan eq_refl H)).
Defined.

(** A slot for a recipe the database does not have, added to a day. *)
Lemma council_skips_unresolved_meal_witness :
  councilRecipes (Plan.recipe_id ghostSlot) = Normal None
  ∧ validateNutrition councilRecipes sampleUSDA
      (withDays samplePlan
         ([] ++ withMeals lightDay ([sampleSlot "lunch"] ++ ghostSlot :: []) :: []))
      sampleBlueprint
    = validateNutrition councilRecipes sampleUSDA
        (withDays samplePlan ([] ++ withMeals lightDay ([sampleSlot "lunch"] ++ []) :: []))
        sampleBlueprint.
Proof.
  split; [reflexivity|].
  apply (council_skips_unresolved_meal councilRecipes sampleUSDA samplePlan sampleBlueprint
           [] [] lightDay [sampleSlot "lunch"] [] ghostSlot).
  left. reflexivity.
Defined.

End CouncilWitnesses.

Section AssemblyFacts.
Import Assembly.







Lemma assembled_plan_parts (response : PlanReply)
    (candidates : list Selector.RecipeCandidate)
    (context : Blueprint.GenerationContext) (fresh_id : string) :
  let r := parseMealPlanResponse response candidates context fresh_id in
  (∃ plan, parsed_success r = true ∧ parsed_meal_plan r = Some plan)
  ∨ (parsed_success r = false ∧ parsed_meal_plan r = None).
Proof.
  cbn zeta. unfold parseMealPlanResponse.
  destruct response as [|m|theme [days|]]; cbn [cbind parsed_success parsed_meal_plan]; auto.
  destruct (daysOf days); cbn [cbind parsed_success parsed_meal_plan]; eauto.
Qed.


End AssemblyFacts.

Section AssemblyCompositionFacts.
Import Db Assembly.

Variable recipes : string -> Completion (option Recipe).
Variable lookupUSDANutrition : string -> option USDAData.
Variable coherenceReply : nat -> Completion ClaudeMessage.
Variable context : Blueprint.GenerationContext.

(** X13.  A failed assembly ends the council's work at once.  When the
    assembly request fails, the result is a failure with the request's error
    and no request is counted; when the request returns but its reply cannot
    be read as a plan, the result is a failure with the parser's error and
    one request, with its tokens and cost, is counted.  In neither case is
    the nutrition checked or a review requested. *)
Theorem assembly_failure_ends_validation (reply : Completion AssemblyMessage)
    (candidates : list Selector.RecipeCandidate) (fresh_id : string) :
  let assembly := assembleMealPlan reply candidates context fresh_id in
  let r := Council.validateAndRefine recipes lookupUSDANutrition coherenceReply context
             assembly in
  (∀ e, reply = Throw e ->
     Council.success r = false
     ∧ Council.error r = Some ("Meal assembly failed: " +:+ error_message e)
     ∧ reports (Council.claude_requests r) 0
     ∧ reports (Council.tokens_used r) 0 ∧ reports (Council.cost_cents r) 0)
  ∧ (∀ data, reply = Normal data ->
     parsed_success (parseMealPlanResponse (assembly_text data) candidates context fresh_id)
     = false ->
     Council.success r = false
     ∧ Council.meal_plan r = None
     ∧ Council.error r
       = parsed_error (parseMealPlanResponse (assembly_text data) candidates context fresh_id)
     ∧ reports (Council.claude_requests r) 1).
Proof.
  cbn zeta. split.
  - intros e ->. cbn. repeat split; eexists; (split; [reflexivity|reflexivity]).
  - intros data -> Hf. unfold assembleMealPlan.
    destruct (assembled_plan_parts (assembly_text data) candidates context fresh_id)
      as [(plan & Hs & _)|(Hs & Hn)]; [congruence|].
    rewrite Hn. cbn. repeat split. eexists. split; [reflexivity|]. reflexivity.
Qed.

End AssemblyCompositionFacts.

(** ** The candidate selector *)

Section RankingFacts.
Import Selector.

Lemma insertByScore_descending c sorted :
  descending sorted -> descending (insertByScore c sorted).
Proof.
  induction sorted as [|x rest IH]; intros Hs; cbn [insertByScore].
  - cbn. split; [constructor|exact I].
  - destruct Hs as [Hx Hrest].
    destruct (Qle_bool (final_score x - final_score c) 0) eqn:E.
    + apply Qle_bool_iff in E.
      assert (Hxc : (final_score x <= final_score c)%Q).
      { apply (Qplus_le_l _ _ (- final_score c)). rewrite Qplus_opp_r. exact E. }
      cbn [descending]. split; [|split; assumption].
      constructor; [exact Hxc|].
      eapply Forall_impl; [exact Hx|]. cbn. intros y Hy.
      now apply Qle_trans with (final_score x).
    + assert (Hcx : (final_score c <= final_score x)%Q).
      { apply Qlt_le_weak, Qnot_le_lt. intros Hle.
        assert (Hb : Qle_bool (final_score x - final_score c) 0 = true).
        { apply Qle_bool_iff. apply (Qplus_le_l _ _ (final_score c)).
          ring_simplify. exact Hle. }
        congruence. }
      cbn [descending]. split; [|now apply IH].
      rewrite (insertByScore_Permutation c rest). now constructor.
Qed.

Lemma sortByScore_descending l : descending (sortByScore l).
Proof.
  induction l as [|c l IH]; cbn; [exact I|].
  now apply insertByScore_descending.
Qed.

Lemma descending_sublist (l1 l2 : list RecipeCandidate) :
  l1 `sublist_of` l2 -> descending l2 -> descending l1.
Proof.
  induction 1 as [|x l1 l2 Hsub IH|x l1 l2 Hsub IH]; intros Hd.
  - exact I.
  - destruct Hd as [Hx Hrest]. split; [|now apply IH].
    apply Forall_forall. intros y Hy.
    apply (proj1 (Forall_forall _ _) Hx).
    eapply elem_of_sublist; eassumption.
  - destruct Hd as [_ Hrest]. now apply IH.
Qed.

Lemma selectLoop_sublist candidates st :
  ∃ more, selected (selectLoop candidates st) = selected st ++ more
          ∧ more `sublist_of` candidates.
Proof.
  revert st. induction candidates as [|c rest IH]; intros st; cbn [selectLoop].
  - exists []. rewrite app_nil_r. split; [reflexivity|constructor].
  - destruct (targetCount <=? length (selected st))%nat.
    { exists []. rewrite app_nil_r. split; [reflexivity|apply sublist_nil_l]. }
    destruct (skipForDiversity st (recipe c) && (15 <? length (selected st))%nat).
    + destruct (IH st) as (more & E & L). exists more.
      split; [exact E|now apply sublist_cons].
    + destruct (IH (accept st c)) as (more & E & L). exists (c :: more).
      split; [|now apply sublist_skip].
      rewrite E. unfold accept. cbn [selected]. now rewrite <- app_assoc.
Qed.

Lemma selectDiverseSet_sublist candidates blueprint :
  selectDiverseSet candidates blueprint `sublist_of` candidates.
Proof.
  unfold selectDiverseSet.
  destruct (selectLoop_sublist candidates
              {| selected := []; cuisineCount := ∅; mealTypeCount := ∅;
                 difficultyCount := ∅ |}) as (more & E & L).
  rewrite E. exact L.
Qed.

Lemma ranking_facts_for_selection (scoredCandidates : list RecipeCandidate)
    (blueprint : Blueprint.UserBlueprint) (preferences : Blueprint.GenerationPreferences) :
  let criteria := buildScoringCriteria blueprint preferences in
  let chosen := rankAndSelectFinalCandidates scoredCandidates blueprint preferences in
  chosen `sublist_of` sortByScore (map (withFinalScore criteria blueprint) scoredCandidates)
  ∧ (length chosen <= Nat.min targetCount (length scoredCandidates))%nat
  ∧ (∀ c, c ∈ chosen ->
       ∃ given, given ∈ scoredCandidates ∧ c = withFinalScore criteria blueprint given).
Proof.
  cbn zeta. unfold rankAndSelectFinalCandidates.
  set (criteria := buildScoringCriteria blueprint preferences).
  set (scored := map (withFinalScore criteria blueprint) scoredCandidates).
  pose proof (selectDiverseSet_sublist (sortByScore scored) blueprint) as Hsub.
  pose proof (sortByScore_Permutation scored) as Hperm.
  split; [exact Hsub|]. split.
  - apply Nat.min_glb.
    + unfold selectDiverseSet. apply selectLoop_bounded. cbn. unfold targetCount. lia.
    + apply sublist_length in Hsub. apply Permutation_length in Hperm.
      subst scored. rewrite length_map in Hperm. lia.
  - intros c Hc.
    assert (Hin : c ∈ scored).
    { rewrite <- Hperm. eapply elem_of_sublist; eassumption. }
    subst scored. apply list_elem_of_fmap in Hin as (given & -> & Hg).
    now exists given.
Qed.

(** X14.  The candidates handed on are in descending order of final score;
    each is one of the scored candidates with its final score computed and
    between 0 and 100; they are a selection, in order, of the ranked list, so
    none is invented or repeated more often than it was given; and there are
    at most 30 of them. *)
Theorem ranking_is_descending (scoredCandidates : list RecipeCandidate)
    (blueprint : Blueprint.UserBlueprint) (preferences : Blueprint.GenerationPreferences) :
  let criteria := buildScoringCriteria blueprint preferences in
  let ranked := sortByScore (map (withFinalScore criteria blueprint) scoredCandidates) in
  let chosen := rankAndSelectFinalCandidates scoredCandidates blueprint preferences in
  descending chosen
  ∧ chosen `sublist_of` ranked
  ∧ ranked ≡ₚ map (withFinalScore criteria blueprint) scoredCandidates
  ∧ (∀ c, c ∈ chosen ->
       (0 <= final_score c)%Q ∧ (final_score c <= 100)%Q
       ∧ ∃ given, given ∈ scoredCandidates
                  ∧ c = withFinalScore criteria blueprint given)
  ∧ (length chosen <= Nat.min targetCount (length scoredCandidates))%nat.
Proof.
  cbn zeta.
  destruct (ranking_facts_for_selection scoredCandidates blueprint preferences)
    as (Hsub & Hlen & Hrec).
  cbn zeta in Hsub, Hlen, Hrec.
  split; [|split; [exact Hsub|split; [apply sortByScore_Permutation|split; [|exact Hlen]]]].
  - eapply descending_sublist; [exact Hsub|apply sortByScore_descending].
  - intros c Hc. destruct (Hrec c Hc) as (given & Hg & ->).
    cbn [withFinalScore final_score]. unfold calculateFinalScore. cbv zeta.
    match goal with
    | |- (0 <= Math_min (Math_max ?s 0) 100)%Q ∧ _ =>
        change (Math_min (Math_max s 0) 100) with (clamp s);
        destruct (clamp_range s) as [H0 H100]
    end.
    split; [exact H0|]. split; [exact H100|]. now exists given.
Qed.

End RankingFacts.

Section DiverseInputFacts.
Import Selector.

Lemma cuisineUses_app l1 l2 cuisine :
  cuisineUses (l1 ++ l2) cuisine = (cuisineUses l1 cuisine + cuisineUses l2 cuisine)%nat.
Proof. unfold cuisineUses. apply sum_list_with_app. Qed.

Lemma mealTypeUses_app l1 l2 mealType :
  mealTypeUses (l1 ++ l2) mealType = (mealTypeUses l1 mealType + mealTypeUses l2 mealType)%nat.
Proof. unfold mealTypeUses. apply sum_list_with_app. Qed.

Lemma occurrences_elem_of (key : string) (l : list string) :
  key ∈ l -> (1 <= occurrences key l)%nat.
Proof.
  intros Hin. unfold occurrences.
  assert (Hf : key ∈ filter (fun x => x = key) l) by (apply list_elem_of_filter; auto).
  destruct (filter (fun x => x = key) l); [now apply not_elem_of_nil in Hf|cbn; lia].
Qed.

Lemma no_skip_when_diverse st c rest :
  countersAgree st ->
  alreadyDiverse (selected st ++ c :: rest) ->
  skipForDiversity st (recipe c) = false.
Proof.
  intros [Hc Hm] [Dc Dm]. unfold skipForDiversity. apply orb_false_iff. split.
  - destruct (present (cuisine_type (recipe c))) as [cuisine|] eqn:E; [|reflexivity].
    apply Nat.leb_gt. rewrite Hc.
    specialize (Dc cuisine). rewrite cuisineUses_app in Dc.
    unfold cuisineUses at 2 in Dc. cbn [sum_list_with] in Dc.
    rewrite E in Dc. rewrite decide_True in Dc by reflexivity. lia.
  - destruct (existsb _ (meal_type (recipe c))) eqn:Ex; [|reflexivity]. exfalso.
    apply existsb_exists in Ex as (mealType & Hin & Hle).
    apply Nat.leb_le in Hle. rewrite Hm in Hle.
    specialize (Dm mealType). rewrite mealTypeUses_app in Dm.
    unfold mealTypeUses at 2 in Dm. cbn [sum_list_with] in Dm.
    apply list_elem_of_In, occurrences_elem_of in Hin. lia.
Qed.

Lemma selectLoop_diverse candidates st :
  countersAgree st ->
  alreadyDiverse (selected st ++ candidates) ->
  selected (selectLoop candidates st)
  = selected st ++ take (targetCount - length (selected st)) candidates.
Proof.
  revert st. induction candidates as [|c rest IH]; intros st Hagree Hd; cbn [selectLoop].
  - now rewrite take_nil, app_nil_r.
  - destruct (targetCount <=? length (selected st))%nat eqn:Hfull.
    + apply Nat.leb_le in Hfull.
      replace (targetCount - length (selected st))%nat with 0%nat by lia.
      now rewrite take_0, app_nil_r.
    + apply Nat.leb_gt in Hfull.
      rewrite (no_skip_when_diverse st c rest Hagree Hd). cbn [andb].
      rewrite IH.
      * unfold accept. cbn [selected]. rewrite <- app_assoc, length_app. cbn [length app].
        replace (targetCount - length (selected st))%nat
          with (S (targetCount - (length (selected st) + 1)))%nat by lia.
        reflexivity.
      * now apply countersAgree_accept.
      * unfold accept. cbn [selected]. now rewrite <- app_assoc.
Qed.

(** X15.  The diversity step drops nothing from a list that is already
    diverse: when no cuisine occurs more than 6 times and no meal type more
    than 10 times among the candidates, the selection is the first 30 of
    them, in their order. *)
Theorem diverse_list_is_kept (candidates : list RecipeCandidate)
    (blueprint : Blueprint.UserBlueprint) :
  alreadyDiverse candidates ->
  selectDiverseSet candidates blueprint = take targetCount candidates.
Proof.
  intros Hd. unfold selectDiverseSet. fold noneSelected.
  rewrite selectLoop_diverse; [|apply countersAgree_start|exact Hd].
  cbn [selected noneSelected app length]. now rewrite Nat.sub_0_r.
Qed.

End DiverseInputFacts.

Section MonotoneFacts.
Import Selector.

Lemma Math_max_monotone (x y b : Q) : (x <= y)%Q -> (Math_max x b <= Math_max y b)%Q.
Proof.
  intros H. unfold Math_max.
  destruct (Qle_bool x b) eqn:Ex; destruct (Qle_bool y b) eqn:Ey.
  - apply Qle_refl.
  - apply Qle_bool_iff in Ex. apply Qlt_le_weak, Qnot_le_lt. intros Hle.
    apply Qle_bool_iff in Hle. congruence.
  - apply Qle_bool_iff in Ey. now apply Qle_trans with y.
  - exact H.
Qed.

Lemma Math_min_monotone (x y b : Q) : (x <= y)%Q -> (Math_min x b <= Math_min y b)%Q.
Proof.
  intros H. unfold Math_min.
  destruct (Qle_bool x b) eqn:Ex; destruct (Qle_bool y b) eqn:Ey.
  - exact H.
  - now apply Qle_bool_iff in Ex.
  - apply Qle_bool_iff in Ey. exfalso.
    assert (Hb : Qle_bool x b = true)
      by (apply Qle_bool_iff; now apply Qle_trans with y).
    congruence.
  - apply Qle_refl.
Qed.

Lemma favoriteLoop_positive loves r : (0 < favoriteLoop loves r)%Q.
Proof.
  induction loves as [|x loves IH]; cbn [favoriteLoop]; [reflexivity|].
  destruct (String.eqb _ _); [reflexivity|exact IH].
Qed.

Lemma swapLoop_positive swaps r : (0 < swapLoop swaps r)%Q.
Proof.
  induction swaps as [|x swaps IH]; cbn [swapLoop]; [reflexivity|].
  destruct (String.eqb _ _); [reflexivity|exact IH].
Qed.

(** X16.  The final score respects the scores it is made of: for the same
    recipe and user, raising the base score or the personalization score of a
    candidate never lowers its final score, whatever the bonuses and the
    penalty are. *)
Theorem final_score_monotone (candidate : RecipeCandidate)
    (blueprint : Blueprint.UserBlueprint) (preferences : Blueprint.GenerationPreferences)
    (base base' personalization personalization' : Q) :
  (base <= base')%Q -> (personalization <= personalization')%Q ->
  let criteria := buildScoringCriteria blueprint preferences in
  (calculateFinalScore (rescored candidate base personalization) criteria blueprint
   <= calculateFinalScore (rescored candidate base' personalization') criteria blueprint)%Q.
Proof.
  intros Hb Hp. cbn zeta. unfold calculateFinalScore.
  cbn [rescored recipe base_score ai_personalization_score].
  apply Math_min_monotone, Math_max_monotone.
  apply Qmult_le_compat_r; [|apply Qlt_le_weak, swapLoop_positive].
  assert (Hw : ((0 + base * 0.3 + personalization * 0.4)
                * getRecentFavoriteBonus (recipe candidate) blueprint
                <= (0 + base' * 0.3 + personalization' * 0.4)
                   * getRecentFavoriteBonus (recipe candidate) blueprint)%Q).
  { apply Qmult_le_compat_r; [|apply Qlt_le_weak, favoriteLoop_positive].
    apply Qplus_le_compat; [apply Qplus_le_compat; [apply Qle_refl|]|];
      (apply Qmult_le_compat_r; [assumption|discriminate]). }
  destruct (is_premium (recipe candidate) && Blueprint.access_to_premium_content blueprint);
    [|exact Hw].
  apply Qmult_le_compat_r; [exact Hw|].
  cbn [buildScoringCriteria premium_bonus].
  destruct (Blueprint.access_to_premium_content blueprint); discriminate.
Qed.

End MonotoneFacts.

Section ScoringReplyFacts.
Import Selector.

Lemma scoreRecipe_recipe scores r : recipe (scoreRecipe scores r) = r.
Proof. unfold scoreRecipe. now destruct (scores !! id r). Qed.



End ScoringReplyFacts.

Section SelectionFacts.
Import Selector.

Lemma selectDiverseSet_nonempty c rest blueprint :
  selectDiverseSet (c :: rest) blueprint ≠ [].
Proof.
  unfold selectDiverseSet. fold noneSelected.
  pose proof (selectLoop_early (c :: rest) noneSelected) as He.
  cbn [selected noneSelected app length] in He.
  intros Hnil. rewrite Hnil in He. specialize (He ltac:(lia)). discriminate.
Qed.

(** X18.  The outcome of candidate selection.  It succeeds exactly when the
    working set is not empty and the scoring reply holds a JSON object with
    [recipe_scores].  On success between 1 and 30 candidates are returned,
    each for a recipe of the working set, and one request is counted.  When
    the working set is empty or could not be fetched, no request is counted;
    when the scoring fails, one is. *)
Theorem selection_outcome (sqlCandidates : Completion (list Recipe))
    (reply : Completion ScoringMessage)
    (blueprint : Blueprint.UserBlueprint) (preferences : Blueprint.GenerationPreferences) :
  let r := selectCandidates sqlCandidates reply blueprint preferences in
  (success r = true
   <-> ∃ first others data scores,
         sqlCandidates = Normal (first :: others) ∧ reply = Normal data
         ∧ scoring_text data = ScoringObject (Some scores))
  ∧ (success r = true ->
     ∃ chosen working,
       candidates r = Some chosen ∧ sqlCandidates = Normal working
       ∧ (1 <= length chosen)%nat
       ∧ (length chosen <= Nat.min targetCount (length working))%nat
       ∧ (∀ c, c ∈ chosen -> recipe c ∈ working)
       ∧ claude_requests r = Some 1%Q ∧ error r = None)
  ∧ (success r = false ->
     candidates r = None
     ∧ (claude_requests r = None
        <-> sqlCandidates = Normal [] ∨ ∃ e, sqlCandidates = Throw e)).
Proof.
  cbn zeta. unfold selectCandidates.
  destruct sqlCandidates as [[|first others]|e].
  - cbn. split; [|split].
    + split; [discriminate|]. intros (f & o & d & s & H & _). discriminate.
    + discriminate.
    + intros _. split; [reflexivity|]. split; auto.
  - unfold performAIScoring.
    destruct reply as [data|e]; cbn [scoring_success negb].
    + destruct (scoring_text data) as [|m|[scores|]] eqn:Et;
        cbn [parseAIScoringResponse parse_failure parse_success negb
             success candidates claude_requests error scoredCandidates parsed_candidates].
      all: split; [|split].
      all: try (split; [discriminate|];
                intros (f & o & d & s & _ & Hd & Hs); injection Hd as <-; congruence).
      all: try discriminate.
      all: try (intros _; split; [reflexivity|]; split; [discriminate|];
                intros [H|[e H]]; discriminate).
      * split; [intros _|reflexivity]. exists first, others, data, scores. auto.
      * intros _. unfold default. cbn [Datatypes.id].
        set (scored := map (scoreRecipe scores) (first :: others)).
        destruct (ranking_facts_for_selection scored blueprint preferences)
          as (Hsub & Hlen & Hrec).
        eexists. exists (first :: others). split; [reflexivity|]. split; [reflexivity|].
        split.
        { destruct (rankAndSelectFinalCandidates scored blueprint preferences) eqn:E;
            [|cbn; lia].
          exfalso. revert E. unfold rankAndSelectFinalCandidates.
          destruct (sortByScore _) as [|c0 rest0] eqn:Es.
          - pose proof (sortByScore_Permutation
                          (map (withFinalScore (buildScoringCriteria blueprint preferences)
                                  blueprint) scored)) as Hp.
            rewrite Es in Hp. apply Permutation_nil_l in Hp. discriminate.
          - apply selectDiverseSet_nonempty. }
        split.
        { subst scored. rewrite length_map in Hlen. exact Hlen. }
        split; [|split; reflexivity].
        intros c Hc. apply Hrec in Hc as (given & Hg & ->).
        subst scored. apply list_elem_of_fmap in Hg as (r0 & -> & Hr0).
        cbn [withFinalScore recipe]. now rewrite scoreRecipe_recipe.
    + cbn. split; [|split].
      * split; [discriminate|]. intros (f & o & d & s & _ & Hd & _). discriminate.
      * discriminate.
      * intros _. split; [reflexivity|]. split; [discriminate|].
        intros [H|[e' H]]; discriminate.
  - cbn. split; [|split].
    + split; [discriminate|]. intros (f & o & d & s & H & _). discriminate.
    + discriminate.
    + intros _. split; [reflexivity|]. split; eauto.
Qed.

End SelectionFacts.

Section SelectorWitnesses.
Import Selector.

(** Two candidates of two cuisines, one meal type each. *)
Lemma diverse_list_is_kept_witness :
  alreadyDiverse diversePair
  ∧ selectDiverseSet diversePair sampleBlueprint = take targetCount diversePair.
Proof.
  assert (H : alreadyDiverse diversePair).
  { split.
    - intros cuisine. unfold cuisineUses, diversePair, smallWorkingSet. cbn.
      repeat case_decide; vm_compute; lia.
    - intros mealType. unfold mealTypeUses, occurrences, diversePair, smallWorkingSet. cbn.
      repeat case_decide; vm_compute; lia. }
  split; [exact H|].
  apply (diverse_list_is_kept diversePair sampleBlueprint H).
Defined.

(** Raising both scores of a candidate. *)
Lemma final_score_monotone_witness :
  (50 <= 60)%Q ∧ (70 <= 80)%Q
  ∧ (calculateFinalScore (rescored (candidateOf (plainRecipe "r01")) 50 70)
       (buildScoringCriteria sampleBlueprint samplePreferences) sampleBlueprint
     <= calculateFinalScore (rescored (candidateOf (plainRecipe "r01")) 60 80)
          (buildScoringCriteria sampleBlueprint samplePreferences) sampleBlueprint)%Q.
Proof.
  assert (H1 : (50 <= 60)%Q) by discriminate.
  assert (H2 : (70 <= 80)%Q) by discriminate.
  split; [exact H1|]. split; [exact H2|].
  apply (final_score_monotone (candidateOf (plainRecipe "r01")) sampleBlueprint
           samplePreferences 50 60 70 80 H1 H2).
Defined.

End SelectorWitnesses.

(** ** The plan generator *)

Section FallbackCountFacts.
Import Generator.




End FallbackCountFacts.

Section GenerationFacts.
Import Generator.

(** X21.  No generation request returns a result.  Whatever the
    collaborators do, each of the three rounds fails, the circuit breaker is
    reached, and the call ends in [ReferenceError: retry_count is not
    defined].  A round in which the selection, the validation, the
    enhancement and the saving of the plan all succeed fails as well, after
    the plan was saved, and only its usage counts are kept. *)
Theorem generation_never_returns (sv : Services) (context : Blueprint.GenerationContext) :
  (∀ retryCount totals candidatesResult validationResult enhancedResult finalPlan,
     selectCandidates sv retryCount = Normal candidatesResult ->
     Selector.success candidatesResult = true ->
     validateAndRefine sv retryCount (Selector.candidates candidatesResult)
     = Normal validationResult ->
     Council.success validationResult = true ->
     enhancePlan sv retryCount (Council.meal_plan validationResult) = Normal enhancedResult ->
     saveMealPlan sv retryCount (enhanced_meal_plan enhancedResult) = Normal finalPlan ->
     round sv context retryCount totals
     = RoundFails (caught (ReferenceError "retry_count"))
         (addUsage
            (addUsage
               (addUsage totals (Selector.claude_requests candidatesResult)
                  (Selector.tokens_used candidatesResult)
                  (Selector.cost_cents candidatesResult))
               (Council.claude_requests validationResult)
               (Council.tokens_used validationResult)
               (Council.cost_cents validationResult))
            (enhance_claude_requests enhancedResult)
            (enhance_tokens_used enhancedResult) (enhance_cost_cents enhancedResult)))
  ∧ (∀ retryCount totals result,
       round sv context retryCount totals ≠ RoundReturns result)
  ∧ generateMealPlanWithRetry sv context
    = (Throw (ReferenceError "retry_count"),
       [attempt_started 1; attempt_started 2; attempt_started 3;
        circuit_breaker_triggered]).
Proof.
  split; [|split].
  - intros retryCount totals candidatesResult validationResult enhancedResult finalPlan
      Hsel Hsok Hval Hvok Henh Hsave.
    unfold round. rewrite Hsel, Hsok. cbn [negb]. rewrite Hval, Hvok, Henh, Hsave.
    now rewrite (proj1 (retry_count_not_in_scope retryCount)).
  - intros retryCount totals result H.
    destruct (round_never_returns sv context retryCount totals) as (e & t & E).
    congruence.
  - apply generation_always_throws.
Qed.

End GenerationFacts.

Section GeneratorWitnesses.
Import Generator.


End GeneratorWitnesses.

(** ** Request validation and blueprint ingestion *)

Section TargetFacts.
Import UserData Ingestion.


Lemma number_truthy_Some (x : option Q) :
  number_truthy x = true <-> ∃ q, x = Some q ∧ ¬ (q == 0)%Q.
Proof.
  unfold number_truthy. destruct x as [q|].
  - rewrite negb_true_iff. split.
    + intros H. exists q. split; [reflexivity|]. now apply Qeq_bool_false_neq.
    + intros (q' & [= <-] & Hq). destruct (Qeq_bool q 0) eqn:E; [|reflexivity].
      apply Qeq_bool_true_eq in E. contradiction.
  - split; [discriminate|]. intros (q & H & _). discriminate.
Qed.


End TargetFacts.

Section BlueprintFacts.
Import UserData BlueprintValidator.

Lemma household_ok (h : option Q) :
  negb (number_truthy h)
  || match h with Some n => negb (Qle_bool 1 n) | None => false end = false
  <-> ∃ n, h = Some n ∧ (1 <= n)%Q.
Proof.
  destruct h as [n|]; cbn.
  - split.
    + intros H. apply orb_false_iff in H as [_ H]. apply negb_false_iff in H.
      exists n. split; [reflexivity|]. now apply Qle_bool_iff.
    + intros (n' & [= <-] & Hn). apply orb_false_iff. split.
      * apply negb_false_iff, negb_true_iff.
        destruct (Qeq_bool n 0) eqn:E; [|reflexivity].
        apply Qeq_bool_true_eq in E. rewrite E in Hn.
        exfalso. revert Hn. apply Qlt_not_le. reflexivity.
      * apply negb_false_iff. now apply Qle_bool_iff.
  - split; [discriminate|]. intros (n & H & _). discriminate.
Qed.

Lemma validateUserBlueprint_missing (blueprint : UserBlueprint) :
  missing_fields (validateUserBlueprint blueprint) =
  pushed (negb (bool_decide (is_Some (profile blueprint)))) "user_profile"
  ++ match intake blueprint with
     | None => ["user_intake"]
     | Some i =>
         pushed (negb (text_truthy (diet_type i))) "diet_type"
         ++ pushed (negb (number_truthy (household_size i))
                    || match household_size i with
                       | Some n => negb (Qle_bool 1 n)
                       | None => false
                       end) "household_size"
     end
  ++ pushed (match subscription blueprint with
             | Some s => negb (String.eqb (status s) "active")
             | None => true
             end) "active_subscription"
  ∧ is_valid (validateUserBlueprint blueprint)
    = bool_decide (missing_fields (validateUserBlueprint blueprint) = [])
  ∧ nutritional_targets_calculated (validateUserBlueprint blueprint)
    = match profile blueprint, intake blueprint with
      | Some p, Some _ =>
          number_truthy (weight_kg p) && number_truthy (height_cm p)
          && text_truthy (date_of_birth p)
      | _, _ => false
      end
  ∧ can_generate_plan (validateUserBlueprint blueprint)
    = is_valid (validateUserBlueprint blueprint)
      && (nutritional_targets_calculated (validateUserBlueprint blueprint)
          || bool_decide (is_Some (nutritional_targets blueprint))).
Proof.
  unfold validateUserBlueprint.
  destruct (intake blueprint) as [i|]; destruct (profile blueprint) as [p|];
    cbn [app]; try destruct (number_truthy (weight_kg p) && number_truthy (height_cm p)
                             && text_truthy (date_of_birth p));
    cbn [missing_fields is_valid nutritional_targets_calculated can_generate_plan];
    rewrite <- ?app_assoc; (split; [reflexivity|]);
    (split; [|split; reflexivity]);
    (apply bool_decide_ext; split; intros H; [now apply nil_length_inv|now rewrite H]).
Qed.

Lemma valid_is_coreComplete (blueprint : UserBlueprint) :
  is_valid (validateUserBlueprint blueprint) = true <-> coreComplete blueprint.
Proof.
  destruct (validateUserBlueprint_missing blueprint) as (Hm & Hv & _).
  rewrite Hv, bool_decide_eq_true, Hm. unfold coreComplete, pushed.
  destruct (profile blueprint) as [p|]; cbn [bool_decide negb];
    [|split; [discriminate|intros ([x Hx] & _); discriminate]].
  rewrite bool_decide_eq_true_2 by eauto. cbn [negb app].
  destruct (intake blueprint) as [i|];
    [|split; [discriminate|intros (_ & (i & H & _) & _); discriminate]].
  destruct (text_truthy (diet_type i)) eqn:Ed; cbn [negb app];
    [|split; [discriminate|intros (_ & (i' & [= <-] & H & _) & _); congruence]].
  destruct (negb (number_truthy (household_size i)) || _) eqn:Eh; cbn [app].
  { split; [discriminate|]. intros (_ & (i' & [= <-] & _ & Hh) & _).
    apply household_ok in Hh. congruence. }
  apply household_ok in Eh.
  destruct (subscription blueprint) as [s|]; cbn [app];
    [|split; [discriminate|intros (_ & _ & (s & H & _)); discriminate]].
  destruct (String.eqb (status s) "active") eqn:Es; cbn [negb].
  - apply String.eqb_eq in Es. split; [|reflexivity]. intros _.
    split; [eauto|]. split; [exists i; auto|exists s; auto].
  - split; [discriminate|]. intros (_ & _ & (s' & [= <-] & Hs)).
    apply String.eqb_neq in Es. contradiction.
Qed.

Lemma known_validation_lists (blueprint : UserBlueprint) :
  (∀ field, field ∈ missing_fields (validateUserBlueprint blueprint) ->
            field ∈ knownMissingFields)
  ∧ (∀ warning, warning ∈ warnings (validateUserBlueprint blueprint) ->
                warning ∈ knownWarnings).
Proof.
  destruct (validateUserBlueprint_missing blueprint) as (Hm & _).
  split.
  - apply Forall_forall. rewrite Hm. unfold pushed, knownMissingFields.
    destruct (negb (bool_decide (is_Some (profile blueprint))));
      destruct (intake blueprint) as [i|];
      try destruct (negb (text_truthy (diet_type i)));
      try destruct (negb (number_truthy (household_size i)) || _);
      destruct (match subscription blueprint with
                | Some s => negb (String.eqb (status s) "active")
                | None => true
                end);
      cbn [app]; repeat constructor.
  - apply Forall_forall. unfold validateUserBlueprint, knownWarnings, pushed.
    destruct (intake blueprint) as [i|]; destruct (profile blueprint) as [p|];
      try destruct (number_truthy (weight_kg p) && number_truthy (height_cm p)
                    && text_truthy (date_of_birth p));
      try destruct (negb (text_truthy (cooking_skill_level i)));
      try destruct (negb (number_truthy (cooking_time_preference i)));
      destruct (negb (Selector.has_length (recent_ratings blueprint))
                && negb (Selector.has_length (recent_swaps blueprint)));
      cbn [warnings app]; repeat constructor.
Qed.

Lemma blueprint_facts (blueprint : UserBlueprint) :
  let v := validateUserBlueprint blueprint in
  (is_valid v = true -> missing_fields v = [])
  ∧ (coreComplete blueprint -> is_valid v = true)
  ∧ (can_generate_plan v = true
     <-> coreComplete blueprint
         ∧ ((∃ p, profile blueprint = Some p ∧ measured p)
            ∨ is_Some (nutritional_targets blueprint))).
Proof.
  cbn zeta.
  destruct (validateUserBlueprint_missing blueprint) as (Hm & Hv & Hc & Hg).
  split; [|split].
  - rewrite Hv. apply bool_decide_eq_true.
  - apply valid_is_coreComplete.
  - rewrite Hg, andb_true_iff, valid_is_coreComplete, orb_true_iff, Hc, bool_decide_eq_true.
    split; intros [Hcore Hor]; (split; [exact Hcore|]).
    + destruct Hor as [Hcalc|Ht]; [left|now right].
      destruct (profile blueprint) as [p|]; [|discriminate].
      destruct (intake blueprint); [|discriminate].
      apply andb_true_iff in Hcalc as [Hcalc Hd].
      apply andb_true_iff in Hcalc as [Hw Hh]. exists p. repeat split; assumption.
    + destruct Hor as [(p & Hp & Hw & Hh & Hd)|Ht]; [left|now right].
      destruct Hcore as (_ & (i & Hi & _) & _). rewrite Hp, Hi, Hw, Hh, Hd. reflexivity.
Qed.

(** X23.  What makes a blueprint valid and what lets it generate a plan.  A
    blueprint is valid exactly when nothing is listed as missing, which is
    exactly when it has a profile, an intake naming a diet and a household
    of at least one, and an active subscription.  It can generate a plan
    exactly when it is valid and either the profile has a weight, a height
    and a date of birth, or targets were given with it; every listed missing
    field and every warning is one the message table knows. *)
Theorem blueprint_validity (blueprint : UserBlueprint) :
  let v := validateUserBlueprint blueprint in
  (is_valid v = true <-> missing_fields v = [])
  ∧ (is_valid v = true <-> coreComplete blueprint)
  ∧ (can_generate_plan v = true
     <-> coreComplete blueprint
         ∧ ((∃ p, profile blueprint = Some p ∧ measured p)
            ∨ is_Some (nutritional_targets blueprint)))
  ∧ (∀ field, field ∈ missing_fields v -> field ∈ knownMissingFields)
  ∧ (∀ warning, warning ∈ warnings v -> warning ∈ knownWarnings).
Proof.
  cbn zeta.
  destruct (validateUserBlueprint_missing blueprint) as (Hm & Hv & Hc & Hg).
  destruct (blueprint_facts blueprint) as (_ & _ & Hgen).
  split; [|split; [apply valid_is_coreComplete|split; [exact Hgen|split]]].
  - rewrite Hv. apply bool_decide_eq_true.
  - apply known_validation_lists.
  - apply known_validation_lists.
Qed.

End BlueprintFacts.

Section IngestionFacts.
Import UserData Ingestion.

Lemma targets_iff_measured (age : Q) (p : UserProfile) (intake : option UserIntake) :
  is_Some (calculateNutritionalTargets age p intake) <-> measured p.
Proof.
  unfold calculateNutritionalTargets, measured.
  destruct (number_truthy (weight_kg p)), (number_truthy (height_cm p)),
    (text_truthy (date_of_birth p)); cbn; split;
    try (intros [x Hx]; discriminate); try (intros (?&?&?); discriminate); eauto.
Qed.

(** X24.  What the ingestion lets through.  The ingestion succeeds exactly
    when none of the three queries reports an error, each returned a row,
    the blueprint they make is valid, and the profile has a weight, a height
    and a date of birth.  A blueprint it returns therefore always carries
    nutritional targets, although the validator lists their absence as a
    warning only; and a failure never returns a blueprint. *)
Theorem ingested_blueprint_has_targets (age : Q)
    (profileRow : Fetched UserProfile) (intakeRow : Fetched UserIntake)
    (subscriptionRow : Fetched UserSubscription)
    (recentRatings : option (list Blueprint.RecentRating))
    (recentSwaps : option (list Blueprint.RecentSwap)) :
  let r := ingestUserBlueprint age profileRow intakeRow subscriptionRow
             recentRatings recentSwaps in
  (ingest_success r = true
   <-> fetch_error profileRow = None ∧ fetch_error intakeRow = None
       ∧ fetch_error subscriptionRow = None
       ∧ ∃ p i s, fetched profileRow = Some p ∧ fetched intakeRow = Some i
                  ∧ fetched subscriptionRow = Some s
                  ∧ text_truthy (diet_type i) = true
                  ∧ (∃ n, household_size i = Some n ∧ (1 <= n)%Q)
                  ∧ status s = "active"
                  ∧ measured p)
  ∧ (ingest_success r = true ->
     ∃ blueprint targets,
       ingest_data r = Some blueprint
       ∧ nutritional_targets blueprint = Some targets
       ∧ BlueprintValidator.missing_fields (BlueprintValidator.validateUserBlueprint blueprint)
         = []
       ∧ ingest_error r = None)
  ∧ (ingest_success r = false -> ingest_data r = None ∧ is_Some (ingest_error r)).
Proof.
  cbn zeta. unfold ingestUserBlueprint.
  destruct (fetch_error profileRow) as [m|] eqn:E1; cbn [cbind].
  { cbn. split; [|split]; [split; [discriminate|intros (H & _); discriminate]
                          |discriminate|eauto]. }
  destruct (fetch_error intakeRow) as [m|] eqn:E2; cbn [cbind].
  { cbn. split; [|split]; [split; [discriminate|intros (_ & H & _); discriminate]
                          |discriminate|eauto]. }
  destruct (fetch_error subscriptionRow) as [m|] eqn:E3; cbn [cbind].
  { cbn. split; [|split]; [split; [discriminate|intros (_ & _ & H & _); discriminate]
                          |discriminate|eauto]. }
  destruct (fetched profileRow) as [p|] eqn:Ep; cbn [cbind].
  2:{ cbn. split; [|split]; [split; [discriminate|]|discriminate|eauto].
      intros (_ & _ & _ & p & i & s & H & _). discriminate. }
  destruct (fetched subscriptionRow) as [s|] eqn:Es; cbn [cbind].
  2:{ cbn. split; [|split]; [split; [discriminate|]|discriminate|eauto].
      intros (_ & _ & _ & p' & i & s & _ & _ & H & _). discriminate. }
  set (blueprint := {| profile := Some p; intake := fetched intakeRow;
                       subscription := Some s;
                       nutritional_targets :=
                         calculateNutritionalTargets age p (fetched intakeRow);
                       recent_ratings := Some (default [] recentRatings);
                       recent_swaps := Some (default [] recentSwaps) |}).
  destruct (blueprint_facts blueprint) as (Hvalid & Hcore & Hgen).
  assert (Hiff : BlueprintValidator.can_generate_plan
                   (BlueprintValidator.validateUserBlueprint blueprint) = true
                 <-> ∃ i, fetched intakeRow = Some i
                          ∧ text_truthy (diet_type i) = true
                          ∧ (∃ n, household_size i = Some n ∧ (1 <= n)%Q)
                          ∧ status s = "active" ∧ measured p).
  { rewrite Hgen. unfold coreComplete. subst blueprint.
    cbn [profile intake subscription nutritional_targets]. split.
    - intros ((_ & (i & Hi & Hd & Hh) & (s' & [= <-] & Hs)) & Hor).
      exists i. repeat split; try assumption;
        (destruct Hor as [(p' & [= <-] & Hm)|Ht];
         [apply Hm|apply (targets_iff_measured age p (fetched intakeRow)) in Ht; apply Ht]).
    - intros (i & Hi & Hd & Hh & Hs & Hm). split.
      + split; [eauto|]. split; [exists i; auto|exists s; auto].
      + left. exists p. auto. }
  destruct (BlueprintValidator.can_generate_plan
              (BlueprintValidator.validateUserBlueprint blueprint)) eqn:Eg;
    cbn [negb ingest_success ingest_data ingest_error].
  - destruct (proj1 Hiff eq_refl) as (i & Hi & Hd & Hh & Hs & Hm).
    split; [|split; [|discriminate]].
    + split; [intros _|reflexivity].
      split; [reflexivity|]. split; [reflexivity|]. split; [reflexivity|].
      exists p, i, s. repeat split; try assumption; apply Hm.
    + intros _. apply (targets_iff_measured age p (fetched intakeRow)) in Hm as [t Ht].
      exists blueprint, t. split; [reflexivity|]. split; [exact Ht|].
      split; [|reflexivity]. apply Hvalid, Hcore.
      exact (proj1 (proj1 Hgen eq_refl)).
  - split; [|split; [discriminate|eauto]].
    split; [discriminate|].
    intros (_ & _ & _ & p' & i & s' & [= <-] & Hi & [= <-] & Hd & Hh & Hs & Hm).
    assert (Ht : false = true); [|discriminate].
    apply Hiff. exists i. auto.
Qed.

End IngestionFacts.

Section CompletenessFacts.
Import UserData BlueprintValidator.




(** X26.  The messages of a validation.  For the validation of any
    blueprint there is one message for each missing field, and one message
    and one suggestion for each warning; no missing field falls to the
    default message of the [switch]. *)
Theorem messages_cover_validation (blueprint : UserBlueprint) :
  let v := validateUserBlueprint blueprint in
  let m := getBlueprintValidationMessages v in
  length (missing_messages m) = length (missing_fields v)
  ∧ length (warning_messages m) = length (warnings v)
  ∧ length (suggestions m) = length (warnings v)
  ∧ (∀ field, field ∈ missing_fields v ->
       missingMessage field ≠ "Missing required field: " +:+ field).
Proof.
  cbn zeta. unfold getBlueprintValidationMessages.
  cbn [missing_messages warning_messages suggestions].
  split; [apply length_map|].
  assert (Hw : Forall (fun w => is_Some (warningMessage w))
                 (warnings (validateUserBlueprint blueprint))).
  { apply Forall_forall. intros w Hin.
    apply (known_validation_lists blueprint) in Hin.
    unfold knownWarnings in Hin.
    repeat (apply elem_of_cons in Hin as [->|Hin]); try (cbn; eauto).
    now apply not_elem_of_nil in Hin. }
  assert (Hlen : ∀ (l : list string) (f : string * string -> string),
             Forall (fun w => is_Some (warningMessage w)) l ->
             length (omap (fun w => f <$> warningMessage w) l) = length l).
  { intros l f. induction 1 as [|w l [x Hx] _ IH]; [reflexivity|].
    cbn [omap list_omap]. rewrite Hx. cbn. now rewrite IH. }
  split; [now apply Hlen|]. split; [now apply Hlen|].
  intros field Hin. apply (known_validation_lists blueprint) in Hin.
  unfold knownMissingFields in Hin.
  repeat (apply elem_of_cons in Hin as [->|Hin]); try (cbn; discriminate).
  now apply not_elem_of_nil in Hin.
Qed.

End CompletenessFacts.

Section GateFacts.
Import UserData Ingestion.

(** X27.  The date a plan is scheduled for when none is given.  For each
    day of the week, the days added lead to a Monday, are between 1 and 7,
    and so never give the day itself; on a Monday they give the Monday of the
    week after. *)
Theorem next_monday_is_a_monday (dayOfWeek : Z) :
  (0 <= dayOfWeek <= 6)%Z ->
  (1 <= daysUntilMonday dayOfWeek <= 7)%Z
  ∧ ((dayOfWeek + daysUntilMonday dayOfWeek) mod 7 = 1)%Z
  ∧ (dayOfWeek = 1%Z -> daysUntilMonday dayOfWeek = 7%Z).
Proof.
  intros H. unfold daysUntilMonday.
  destruct (dayOfWeek =? 0)%Z eqn:E.
  - apply Z.eqb_eq in E. subst. repeat split; try lia.
  - apply Z.eqb_neq in E. split; [lia|]. split; [|lia].
    replace (dayOfWeek + (8 - dayOfWeek))%Z with 8%Z by lia. reflexivity.
Qed.

(** X28.  The request gate.  A request passes exactly when the session
    has a user, the body is accepted, an active subscription is found, and
    the plan is unlimited or the count of the month is below the limit.
    Without a user the answer is 401 whatever the rest is.  The limit is
    never applied to an unlimited plan (limit -1), and it is applied to a
    count that is there: when the count is missing it is read as 0, so a
    positive limit lets the request through and a limit of 0 or less never
    does. *)
Theorem request_gate {Request : Type}
    (auth : Completion AuthOutcome) (requestData : Completion Request)
    (subscriptionQuery : Completion SubscriptionOutcome)
    (monthlyPlans : Completion (option Q)) :
  let r := validateRequest auth requestData subscriptionQuery monthlyPlans in
  ((∃ validated, r = inr validated)
   <-> ∃ session userId request sub subscription,
         auth = Normal session ∧ userError session = false ∧ user session = Some userId
         ∧ requestData = Normal request
         ∧ subscriptionQuery = Normal sub ∧ subError sub = false
         ∧ subscribed sub = Some subscription
         ∧ ((plan_generation_limit (subscription_plans subscription) == -1)%Q
            ∨ ∃ count, monthlyPlans = Normal count
                       ∧ (default 0%Q count
                          < plan_generation_limit (subscription_plans subscription))%Q))
  ∧ (∀ session, auth = Normal session ->
       userError session = true ∨ user session = None -> r = inl Unauthorized)
  ∧ (∀ planLimit, r = inl (MonthlyLimitReached planLimit) ->
       ¬ (planLimit == -1)%Q
       ∧ ∃ count, monthlyPlans = Normal count ∧ (planLimit <= default 0%Q count)%Q)
  ∧ (∀ e, r = inl e -> statusOf e ∈ [401; 422; 403; 429; 500]%nat).
Proof.
  cbn zeta. unfold validateRequest.
  split; [|split; [|split]].
  - split.
    + intros (validated & H).
      destruct auth as [session|e]; cbn [cbind] in H; [|discriminate].
      destruct (userError session) eqn:Eu; [discriminate|].
      destruct (user session) as [userId|] eqn:Eus; [|discriminate].
      destruct requestData as [request|e]; [|discriminate].
      destruct subscriptionQuery as [sub|e]; cbn [cbind] in H; [|discriminate].
      destruct (subError sub) eqn:Ese; [discriminate|].
      destruct (subscribed sub) as [subscription|] eqn:Esub; [|discriminate].
      exists session, userId, request, sub, subscription.
      repeat (split; [assumption || reflexivity|]).
      destruct (Qeq_bool (plan_generation_limit (subscription_plans subscription)) (-1)) eqn:El;
        cbn [negb] in H.
      * left. now apply Qeq_bool_true_eq.
      * right. destruct monthlyPlans as [count|e]; cbn [cbind] in H; [|discriminate].
        exists count. split; [reflexivity|].
        destruct (count_geb count _) eqn:Ec; [discriminate|].
        apply Qnot_le_lt. intros Hle. apply geb_true in Hle.
        unfold count_geb in Ec. congruence.
    + intros (session & userId & request & sub & subscription
              & -> & Eu & Eus & -> & -> & Ese & Esub & Hlim).
      cbn [cbind]. rewrite Eu, Eus, Ese, Esub.
      destruct (Qeq_bool (plan_generation_limit (subscription_plans subscription)) (-1)) eqn:El;
        cbn [negb]; [eauto|].
      destruct Hlim as [Hl|(count & -> & Hlt)].
      * apply Qeq_bool_false_neq in El. contradiction.
      * cbn [cbind]. unfold count_geb.
        destruct (geb (default 0%Q count) _) eqn:Ec; [|eauto].
        apply geb_true in Ec. exfalso. exact (Qlt_not_le _ _ Hlt Ec).
  - intros session -> H. cbn [cbind].
    destruct H as [->| ->]; [reflexivity|]. now destruct (userError session).
  - intros planLimit H.
    destruct auth as [session|e]; cbn [cbind] in H; [|discriminate].
    destruct (userError session); [discriminate|].
    destruct (user session); [|discriminate].
    destruct requestData; [|discriminate].
    destruct subscriptionQuery as [sub|e]; cbn [cbind] in H; [|discriminate].
    destruct (subError sub); [discriminate|].
    destruct (subscribed sub) as [subscription|]; [|discriminate].
    destruct (Qeq_bool (plan_generation_limit (subscription_plans subscription)) (-1)) eqn:El;
      cbn [negb] in H; [discriminate|].
    destruct monthlyPlans as [count|e]; cbn [cbind] in H; [|discriminate].
    destruct (count_geb count _) eqn:Ec; [|discriminate].
    injection H as <-. split; [now apply Qeq_bool_false_neq|].
    exists count. split; [reflexivity|]. now apply geb_true.
  - intros e H. destruct e; cbn [statusOf]; repeat constructor.
Qed.

End GateFacts.

Section GateWitnesses.
Import Ingestion.

(** A Wednesday. *)
Lemma next_monday_is_a_monday_witness :
  (0 <= 3 <= 6)%Z ∧ ((3 + daysUntilMonday 3) mod 7 = 1)%Z.
Proof.
  assert (H : (0 <= 3 <= 6)%Z) by lia.
  split; [exact H|].
  apply (proj1 (proj2 (next_monday_is_a_monday 3 H))).
Defined.

End GateWitnesses.

(** ** The wow layer *)

Section CategoryFacts.
Import WowLayer.

Ltac first_match_cases :=
  repeat match goal with
  | |- context [if includes ?n ?k then _ else _] =>
      destruct (includes n k) eqn:?
  end.

(** X29.  The category of an ingredient is that of the first entry of the
    table its name contains.  The entries [garlic powder] and [olive oil]
    are never reached, because [garlic] and [oil] come before them: a name
    with [garlic] in it is produce and a name with [oil] in it is never a
    condiment.  Of the checks made when no entry matches, only [sauce] and
    [dressing] can decide, the others repeat entries of the table.  The
    categories frozen, bakery and beverages are never given. *)
Theorem category_is_first_match (name : string) :
  let normalized := toLowerCase name in
  categorizeIngredient name
  = match firstMatch normalized categories with
    | Some category => category
    | None =>
        if includes normalized "sauce" || includes normalized "dressing"
        then condiments else pantry
    end
  ∧ (includes normalized "garlic" = true -> categorizeIngredient name = produce)
  ∧ (includes normalized "oil" = true -> categorizeIngredient name ≠ condiments)
  ∧ categorizeIngredient name ∉ [frozen; bakery; beverages].
Proof.
  cbn zeta. unfold categorizeIngredient.
  set (n := toLowerCase name). split; [|split; [|split]].
  - unfold categories. cbn [firstMatch]. first_match_cases; reflexivity.
  - intros H. unfold categories. cbn [firstMatch].
    destruct (includes n "onion"); [reflexivity|]. now rewrite H.
  - intros H. unfold categories. cbn [firstMatch].
    first_match_cases; try discriminate; congruence.
  - unfold categories. cbn [firstMatch].
    first_match_cases; cbn [orb];
      try destruct (includes n "sauce"); try destruct (includes n "dressing"); cbn [orb];
      (intros Hin; repeat (apply elem_of_cons in Hin as [Hin|Hin]; [discriminate|]);
       now apply not_elem_of_nil in Hin).
Qed.

End CategoryFacts.

Section GroceryFacts.
Import WowLayer.

Variable recipes : string -> Completion (option Db.Recipe).

Lemma aggregated_snoc (key : string) (needed : list (string * Db.Ingredient))
    (recipe_id : string) (ingredient : Db.Ingredient) :
  aggregated key (needed ++ [(recipe_id, ingredient)])
  = if decide (groceryKey ingredient = key) then
      match aggregated key needed with
      | Some existing =>
          Some {| amount := if decide (unit existing = Db.unit ingredient)
                            then (amount existing + Db.amount ingredient)%Q
                            else amount existing;
                  unit := unit existing;
                  category := category existing;
                  source_recipes := source_recipes existing ++ [recipe_id] |}
      | None =>
          Some {| amount := Db.amount ingredient;
                  unit := Db.unit ingredient;
                  category := categorizeIngredient (default EmptyString (Db.name ingredient));
                  source_recipes := [recipe_id] |}
      end
    else aggregated key needed.
Proof.
  unfold aggregated. rewrite filter_app, filter_cons, filter_nil. cbn [snd].
  destruct (decide (groceryKey ingredient = key)) as [E|E].
  - destruct (filter _ needed) as [|[r0 first] later]; cbn [app]; [reflexivity|].
    cbn [amount unit category source_recipes].
    rewrite foldl_app, map_app. cbn [foldl map fst snd]. reflexivity.
  - now rewrite app_nil_r.
Qed.

Lemma aggregated_key (key : string) (needed : list (string * Db.Ingredient)) :
  is_Some (aggregated key needed) <-> ∃ x, x ∈ needed ∧ groceryKey x.2 = key.
Proof.
  unfold aggregated. split.
  - destruct (filter _ needed) as [|x later] eqn:E; [intros [? ?]; discriminate|].
    intros _. exists x.
    assert (Hin : x ∈ filter (fun y => groceryKey y.2 = key) needed)
      by (rewrite E; constructor).
    apply list_elem_of_filter in Hin. tauto.
  - intros (x & Hin & Hk).
    assert (Hf : x ∈ filter (fun y => groceryKey y.2 = key) needed)
      by (apply list_elem_of_filter; auto).
    destruct (filter _ needed) as [|[r0 first] later]; [now apply not_elem_of_nil in Hf|].
    eauto.
Qed.

Lemma addIngredient_holds recipe_id ingredient allIngredients allIngredients' needed :
  addIngredient recipe_id ingredient allIngredients = Normal allIngredients' ->
  holds allIngredients needed ->
  holds allIngredients' (needed ++ [(recipe_id, ingredient)]).
Proof.
  unfold addIngredient. intros H [Hall Hnamed].
  destruct (Db.name ingredient) as [name|] eqn:En; [|discriminate].
  assert (Hkey : groceryKey ingredient = normalizeIngredientName name)
    by (unfold groceryKey; now rewrite En).
  destruct (allIngredients !! normalizeIngredientName name) as [existing|] eqn:El.
  - injection H as <-. split.
    + intros key. rewrite aggregated_snoc, Hkey.
      destruct (decide (normalizeIngredientName name = key)) as [<-|Hne].
      * rewrite lookup_insert_eq, <- Hall, El. reflexivity.
      * rewrite lookup_insert_ne by exact Hne. apply Hall.
    + apply Forall_app. split; [exact Hnamed|]. constructor; [|constructor].
      cbn [snd]. split; [rewrite En; eauto|].
      assert (Hs : is_Some (aggregated (groceryKey ingredient) needed)).
      { rewrite Hkey, <- Hall, El. eauto. }
      apply aggregated_key in Hs as (x & Hin & Hx).
      rewrite <- Hx. exact (proj2 (proj1 (Forall_forall _ _) Hnamed x Hin)).
  - destruct (String.eqb (normalizeIngredientName name) "constructor") eqn:Ec;
      [discriminate|].
    injection H as <-. apply String.eqb_neq in Ec. split.
    + intros key. rewrite aggregated_snoc, Hkey.
      destruct (decide (normalizeIngredientName name = key)) as [<-|Hne].
      * rewrite lookup_insert_eq, <- Hall, El, En. reflexivity.
      * rewrite lookup_insert_ne by exact Hne. apply Hall.
    + apply Forall_app. split; [exact Hnamed|]. constructor; [|constructor].
      cbn [snd]. split; [rewrite En; eauto|]. now rewrite Hkey.
Qed.

Lemma addIngredients_holds recipe_id ingredients allIngredients allIngredients' needed :
  addIngredients recipe_id ingredients allIngredients = Normal allIngredients' ->
  holds allIngredients needed ->
  holds allIngredients' (needed ++ map (pair recipe_id) ingredients).
Proof.
  revert allIngredients needed.
  induction ingredients as [|ingredient rest IH]; intros allIngredients needed H Hh;
    cbn [addIngredients map] in *.
  - injection H as <-. now rewrite app_nil_r.
  - destruct (addIngredient recipe_id ingredient allIngredients) as [mid|e] eqn:E;
      cbn [cbind] in H; [|discriminate].
    replace (needed ++ (recipe_id, ingredient) :: map (pair recipe_id) rest)
      with ((needed ++ [(recipe_id, ingredient)]) ++ map (pair recipe_id) rest)
      by now rewrite <- app_assoc.
    apply (IH mid); [exact H|]. eapply addIngredient_holds; eassumption.
Qed.

Lemma addMeals_holds meals allIngredients allIngredients' needed :
  addMeals recipes meals allIngredients = Normal allIngredients' ->
  holds allIngredients needed ->
  holds allIngredients' (needed ++ flat_map (mealIngredients recipes) meals).
Proof.
  revert allIngredients needed.
  induction meals as [|meal rest IH]; intros allIngredients needed H Hh;
    cbn [addMeals flat_map] in *.
  - injection H as <-. now rewrite app_nil_r.
  - unfold mealIngredients at 1.
    destruct (recipes (Plan.recipe_id meal)) as [[recipe|]|e]; cbn [cbind] in H;
      [|now apply (IH allIngredients)|discriminate].
    destruct (Db.ingredients recipe) as [l|]; cbn [cbind] in H; [|discriminate].
    destruct (addIngredients (Plan.recipe_id meal) l allIngredients) as [mid|e] eqn:E;
      cbn [cbind] in H; [|discriminate].
    unfold default. cbn [Datatypes.id]. rewrite app_assoc.
    apply (IH mid); [exact H|]. eapply addIngredients_holds; eassumption.
Qed.

Lemma addDays_holds days allIngredients allIngredients' needed :
  addDays recipes days allIngredients = Normal allIngredients' ->
  holds allIngredients needed ->
  holds allIngredients'
    (needed ++ flat_map (fun day => flat_map (mealIngredients recipes) (Plan.meals day)) days).
Proof.
  revert allIngredients needed.
  induction days as [|day rest IH]; intros allIngredients needed H Hh;
    cbn [addDays flat_map] in *.
  - injection H as <-. now rewrite app_nil_r.
  - destruct (addMeals recipes (Plan.meals day) allIngredients) as [mid|e] eqn:E;
      cbn [cbind] in H; [|discriminate].
    rewrite app_assoc. apply (IH mid); [exact H|]. eapply addMeals_holds; eassumption.
Qed.

(** X30.  What the grocery list holds.  When a list is made, it has one item
    for each distinct normalized name among the ingredients the plan needs,
    and [total_items] counts them.  An item has the unit and the category of
    the first ingredient met under its name, lists the recipe of every
    ingredient met under it, a recipe needed twice being listed twice, and
    its amount is the first amount plus the later amounts given in the same
    unit: an amount in another unit is left out of the sum, and the amounts
    are not scaled by servings.  No list is made when an ingredient has no
    name or its normalized name is [constructor]. *)
Theorem grocery_list_aggregates (mealPlan : Plan.MealPlan) (list : GroceryList) :
  generateSmartGroceryList recipes mealPlan = Some list ->
  let needed := planIngredients recipes mealPlan in
  (∀ key, all_ingredients list !! key = aggregated key needed)
  ∧ total_items list = size (list_to_set (map (fun x => groceryKey x.2) needed) : gset string)
  ∧ (∀ x, x ∈ needed -> is_Some (Db.name x.2) ∧ groceryKey x.2 ≠ "constructor").
Proof.
  unfold generateSmartGroceryList. intros H. cbn zeta.
  destruct (addDays recipes (Plan.days (Plan.plan_data mealPlan)) ∅) as [all|e] eqn:E;
    [|discriminate].
  injection H as <-. cbn [all_ingredients total_items].
  assert (Hh : holds all (planIngredients recipes mealPlan)).
  { apply (addDays_holds _ ∅ all [] E). split; [|constructor].
    intros key. rewrite lookup_empty. reflexivity. }
  destruct Hh as [Hall Hnamed]. split; [exact Hall|]. split.
  - rewrite <- size_dom. f_equal. apply set_eq. intros key.
    rewrite elem_of_dom, Hall, aggregated_key, elem_of_list_to_set, list_elem_of_fmap.
    split; intros (x & H1 & H2); exists x; auto.
  - intros x Hin. exact (proj1 (Forall_forall _ _) Hnamed x Hin).
Qed.

End GroceryFacts.

Section GroceryWitnesses.
Import WowLayer.

(** The sample plan needs the same recipe three times. *)
Lemma grocery_list_aggregates_witness :
  ∃ list,
    generateSmartGroceryList councilRecipes samplePlan = Some list
    ∧ total_items list
      = size (list_to_set (map (fun x => groceryKey x.2)
                             (planIngredients councilRecipes samplePlan)) : gset string).
Proof.
  destruct (generateSmartGroceryList councilRecipes samplePlan) as [list|] eqn:E;
    [|vm_compute in E; discriminate].
  exists list. split; [reflexivity|].
  apply (grocery_list_aggregates councilRecipes samplePlan list E).
Defined.

End GroceryWitnesses.
